(** * The sequential-thinking reasoning-chain engine of [tools.py]

    A shallow embedding of the session-scoped thought log of
    [src/tools.py] (section "Sequential Thinking System") and of its
    primary store [src/backend/sequential_thinking_mongodb.py], with the
    properties of the specification stated and settled over it.

    Conventions of the embedding.
    - A Python [str] is a [string] of bytes, its UTF-8 encoding.  Case
      mapping and the whitespace class follow Python on the ASCII
      range; every other byte is left untouched by [lower] and is never
      whitespace.
    - A Python [int] is a [Z]; a [float] is a rational [Q]: a
      similarity score and the threshold are the exact values of their
      doubles, the confidence, which is stored and never computed with,
      is the decimal Python prints for it.
    - A thought (a [dict] with a fixed set of keys) is a record; the
      optional key ["parent"] is an [option].
    - The primary store is a finite map from session ids to chains,
      the file backend a finite map from file paths to chains.  What is
      fixed around the calls is part of the store state: whether the
      primary store can be reached, whether the driver lets a collection
      be truth-tested, and what the system makes of the file path of
      each session id.  A write the system accepts is taken to succeed:
      no disk fills up and no connection drops in the middle of a call.
    - Exceptions are values of [exn]; stateful functions are written in
      a state-and-exception monad over the store.
    - The clock, the uuid generator, the text fingerprint and the
      embedding model are inputs of the functions that consult them. *)

From Stdlib Require Import ZArith QArith Ascii String List Sorting.Sorted
  Sorting.Permutation DecimalNat DecimalString Lia.
From stdpp Require Import base option list gmap strings fin_maps.

Local Open Scope Z_scope.
Local Open Scope string_scope.
Local Open Scope list_scope.

(** ** Python string primitives *)

Module PyStr.

(** [str.isspace] on one character: TAB, LF, VT, FF, CR, the four
    separators FS GS RS US, and the space. *)
Definition isspace (c : ascii) : bool :=
  let n := nat_of_ascii c in
  ((9 <=? n)%nat && (n <=? 13)%nat) || ((28 <=? n)%nat && (n <=? 32)%nat).

Definition isupper (c : ascii) : bool :=
  let n := nat_of_ascii c in (65 <=? n)%nat && (n <=? 90)%nat.

Definition isdigit (c : ascii) : bool :=
  let n := nat_of_ascii c in (48 <=? n)%nat && (n <=? 57)%nat.

Definition lower_char (c : ascii) : ascii :=
  if isupper c then ascii_of_nat (nat_of_ascii c + 32) else c.

(** [s.lower()] *)
Fixpoint lower (s : string) : string :=
  match s with
  | EmptyString => EmptyString
  | String c r => String (lower_char c) (lower r)
  end.

(** [s.lstrip()], [s.rstrip()], [s.strip()] *)
Fixpoint lstrip (s : string) : string :=
  match s with
  | String c r => if isspace c then lstrip r else s
  | EmptyString => EmptyString
  end.

Fixpoint rstrip (s : string) : string :=
  match s with
  | EmptyString => EmptyString
  | String c r =>
      match rstrip r with
      | EmptyString => if isspace c then EmptyString else String c EmptyString
      | r' => String c r'
      end
  end.

Definition strip (s : string) : string := rstrip (lstrip s).

(** [s.split()]: the maximal runs of non-whitespace characters.  [cur]
    is the word being read, in reverse. *)
Definition flush (cur : list ascii) (acc : list string) : list string :=
  match cur with
  | [] => acc
  | _ => string_of_list_ascii (rev cur) :: acc
  end.

Fixpoint split_aux (s : string) (cur : list ascii) : list string :=
  match s with
  | EmptyString => flush cur []
  | String c r =>
      if isspace c then flush cur (split_aux r [])
      else split_aux r (c :: cur)
  end.

Definition split (s : string) : list string := split_aux s [].

(** [sub in s] *)
Fixpoint contains (sub s : string) : bool :=
  String.prefix sub s ||
  match s with
  | EmptyString => false
  | String _ r => contains sub r
  end.

(** [s.count(sub)] for a non-empty [sub]: occurrences are counted from
    the left and do not overlap; [skip] characters of the last match
    are still to be passed over. *)
Fixpoint count_aux (sub s : string) (skip : nat) : nat :=
  match s with
  | EmptyString => 0%nat
  | String _ r =>
      match skip with
      | S k => count_aux sub r k
      | O => if String.prefix sub s
             then S (count_aux sub r (String.length sub - 1))
             else count_aux sub r 0
      end
  end.

Definition count (s sub : string) : nat := count_aux sub s 0.

(** [s * n] *)
Fixpoint repeat (s : string) (n : nat) : string :=
  match n with
  | O => EmptyString
  | S k => s +:+ repeat s k
  end.

(** [sep.join(l)] *)
Fixpoint join (sep : string) (l : list string) : string :=
  match l with
  | [] => EmptyString
  | [x] => x
  | x :: r => x +:+ sep +:+ join sep r
  end.

(** [str(z)] and the format [f"{z:02d}"]: the sign counts in the
    width, the padding zeros come after it. *)
Definition str_of_nat (n : nat) : string :=
  NilZero.string_of_uint (Nat.to_uint n).

Definition str_of_int (z : Z) : string :=
  if (z <? 0)%Z then "-" +:+ str_of_nat (Z.to_nat (- z))
  else str_of_nat (Z.to_nat z).

Definition zfill (width : nat) (digits : string) : string :=
  repeat "0" (width - String.length digits) +:+ digits.

Definition format_02d (z : Z) : string :=
  if (z <? 0)%Z then "-" +:+ zfill 1 (str_of_nat (Z.to_nat (- z)))
  else zfill 2 (str_of_nat (Z.to_nat z)).

(** [int(s)] in base ten: surrounding whitespace is dropped, one sign
    is allowed, and single underscores may separate digits.  [None]
    stands for [ValueError]. *)
Definition digit_val (c : ascii) : Z := Z.of_nat (nat_of_ascii c - 48).

Fixpoint digits_aux (s : string) (acc : Z) (after_digit : bool) : option Z :=
  match s with
  | EmptyString => if after_digit then Some acc else None
  | String c r =>
      if isdigit c then digits_aux r (10 * acc + digit_val c) true
      else if (Ascii.eqb c "_" && after_digit)%bool then
        match r with
        | String d _ => if isdigit d then digits_aux r acc false else None
        | EmptyString => None
        end
      else None
  end.

Definition int_of_str (s : string) : option Z :=
  match strip s with
  | String "-" r => Z.opp <$> digits_aux r 0 false
  | String "+" r => digits_aux r 0 false
  | r => digits_aux r 0 false
  end.

End PyStr.

(** ** Thoughts

    The dictionary built by [_add_thought]: the keys ["step"], ["text"],
    ["timestamp"], ["uuid"], ["semantic_id"] and ["confidence"] are
    always present, ["parent"] only on a thought made by a branch. *)

Module Thought.
Record t : Type := mk {
  step : Z;
  text : string;
  timestamp : Z;
  uuid : string;
  semantic_id : string;
  confidence : Q;
  parent : option Z
}.
End Thought.

Abbreviation thought := Thought.t.

(** [d["text"] += suffix; d["timestamp"] = ts] *)
Definition merge_into (d : thought) (suffix : string) (ts : Z) : thought :=
  Thought.mk (Thought.step d) (Thought.text d +:+ suffix) ts (Thought.uuid d)
    (Thought.semantic_id d) (Thought.confidence d) (Thought.parent d).

(** [d.update({"text": txt, "timestamp": ts})] *)
Definition update_text_timestamp (txt : string) (ts : Z) (d : thought) : thought :=
  Thought.mk (Thought.step d) txt ts (Thought.uuid d)
    (Thought.semantic_id d) (Thought.confidence d) (Thought.parent d).

(** [d["parent"] = p] *)
Definition set_parent (p : Z) (d : thought) : thought :=
  Thought.mk (Thought.step d) (Thought.text d) (Thought.timestamp d) (Thought.uuid d)
    (Thought.semantic_id d) (Thought.confidence d) (Some p).

(** [sorted(thoughts, key=lambda x: x.get("step", 0))]: Python's sort is
    stable, and a stable sort has one possible result; it is computed
    here by insertion, each element going in front of the first element
    whose key is not smaller. *)
Fixpoint insert_by_step (x : thought) (l : list thought) : list thought :=
  match l with
  | [] => [x]
  | y :: r =>
      if (Thought.step x <=? Thought.step y)%Z then x :: l
      else y :: insert_by_step x r
  end.

Definition sorted_by_step (l : list thought) : list thought :=
  foldr insert_by_step [] l.

(** ** The store and the monad of the engine *)

Inductive exn : Type :=
| ValueError (msg : string)
| IndexError (msg : string)
| TypeError (msg : string)
| OSError (msg : string)
| NotImplementedError (msg : string).

(** [str(e)] *)
Definition str_of_exn (e : exn) : string :=
  match e with
  | ValueError m | IndexError m | TypeError m | OSError m | NotImplementedError m => m
  end.

(** What the system makes of [PERSIST_DIR / f"{session_id}.jsonl"].
    - [At path]: a file can be opened, read, written and unlinked there;
      [path] is the path once resolved, so that two session ids with the
      same [path] name the same file (["s1"] and ["./s1"]).
    - [Nowhere]: no file can be opened: [open] raises, [exists()] is
      false, and [unlink(missing_ok=True)] finds nothing and passes (a
      directory of the path is missing, as for ["a/b"]).
    - [Refused e]: the system refuses the name: [open] and [unlink]
      raise [e], and [exists()] raises it or is false (a name that is
      too long, or one with a NUL byte). *)
Inductive place : Type :=
| At (path : string)
| Nowhere
| Refused (e : exn).

(** The primary store holds one document per session; [mongo] is [None]
    when [get_collection()] gives [None] or the manager module cannot be
    imported.  Of a document only the array ["thoughts"] is ever read
    back, so a document is that array.  [truth_test] tells whether the
    driver leaves the truth value of a collection object to Python, for
    which it is then true (pymongo before 4, mongomock); when it is
    unset, [bool(collection)] raises [NotImplementedError] (pymongo 4
    and later).  The file backend has one file per path, a sequence of
    JSON objects, one per line.  A call changes neither [truth_test]
    nor [place_of], nor whether [mongo] is [None]. *)
Record store : Type := mk_store {
  mongo : option (gmap string (list thought));
  truth_test : bool;
  place_of : string -> place;
  files : gmap string (list thought)
}.

(** The store with another collection, and with other files. *)
Definition with_mongo (collection : gmap string (list thought)) (s : store) : store :=
  mk_store (Some collection) (truth_test s) (place_of s) (files s).

Definition with_files (fs : gmap string (list thought)) (s : store) : store :=
  mk_store (mongo s) (truth_test s) (place_of s) fs.

Inductive outcome (A : Type) : Type :=
| Return (a : A)
| Raise (e : exn).
Arguments Return {A} a.
Arguments Raise {A} e.

Definition M (A : Type) : Type := store -> store * outcome A.

Definition ret {A} (a : A) : M A := fun s => (s, Return a).
Definition raise {A} (e : exn) : M A := fun s => (s, Raise e).
Definition bind {A B} (m : M A) (k : A -> M B) : M B :=
  fun s => match m s with
           | (s', Return a) => k a s'
           | (s', Raise e) => (s', Raise e)
           end.
Definition get : M store := fun s => (s, Return s).
Definition put (s' : store) : M unit := fun _ => (s', Return tt).
(** [try: m except Exception as e: h e] *)
Definition try_except {A} (m : M A) (h : exn -> M A) : M A :=
  fun s => match m s with
           | (s', Return a) => (s', Return a)
           | (s', Raise e) => h e s'
           end.

Notation "x <~ m ;; k" := (bind m (fun x => k))
  (at level 100, m at next level, right associativity).
Notation "m ;;; k" := (bind m (fun _ => k))
  (at level 100, right associativity).

(** ** The primary store: [SequentialThinkingManager] *)

Module SequentialThinkingManager.

(** [self.get_collection()] *)
Definition get_collection : M (option (gmap string (list thought))) :=
  s <~ get ;; ret (mongo s).

(** [not collection]: [None] is false; for a collection object the
    driver decides. *)
Definition not_ (collection : option (gmap string (list thought))) : M bool :=
  match collection with
  | None => ret true
  | Some _ =>
      s <~ get ;;
      if truth_test s then ret false
      else raise (NotImplementedError
                    "Collection objects do not implement truth value testing or bool(). Please compare with None instead: collection is not None")
  end.

(** [load_thoughts]: the empty list when [not collection] holds or
    raises, or when there is no document for the session, else the
    document's thoughts sorted by step. *)
Definition load_thoughts (session_id : string) : M (list thought) :=
  try_except
    (collection <~ get_collection ;;
     absent <~ not_ collection ;;
     if absent then ret []
     else
       match collection with
       | None => ret []
       | Some docs =>
           match docs !! session_id with
           | None => ret []
           | Some thoughts => ret (sorted_by_step thoughts)
           end
       end)
    (fun _ => ret []).

(** [save_thoughts]: nothing when [not collection] holds or raises, else
    the session's document is replaced (upsert). *)
Definition save_thoughts (session_id : string) (thoughts : list thought) : M unit :=
  try_except
    (collection <~ get_collection ;;
     absent <~ not_ collection ;;
     if absent then ret tt
     else
       match collection with
       | None => ret tt
       | Some docs => s <~ get ;; put (with_mongo (<[session_id := thoughts]> docs) s)
       end)
    (fun _ => ret tt).

End SequentialThinkingManager.

(** ** Configuration *)

Definition MAX_DEPTH : Z := 100.
Definition MAX_TOKENS : Z := 50000.
(** [duplicate_threshold = 0.92]: the double nearest to 0.92, which is
    a little above it.  The quotient of two lengths is compared with it
    as a rational; the double Python makes of the quotient compares the
    same way as long as the denominator is under 10^14, since 23/25
    rounds to this very double and any other quotient is further from it
    than the rounding. *)
Definition duplicate_threshold : Q := 8286623314361713 # 9007199254740992.
Definition contradiction_keywords : list string :=
  ["however"; "but"; "actually"; "wait"; "no"].

(** [a > b] on similarity scores *)
Definition Qgtb (a b : Q) : bool := negb (Qle_bool a b).

(** The sentence-embedding model, when there is one: the cosine of the
    normalised embeddings of two texts, and the hexadecimal packing of
    the sign bits of a text's embedding ([None] when [encode] raises). *)
Record embed_model : Type := mk_embed {
  cos_sim : string -> string -> option Q;
  sign_bits_hex : string -> option string
}.

(** What one call reads from its environment: the clock, twice at most,
    and a fresh uuid. *)
Record env : Type := mk_env {
  time1 : Z;
  time2 : Z;
  uuid4 : string
}.

(** ** The engine of [tools.py] *)

Section Engine.

(** [_embed]: the embedding model, [None] when [sentence_transformers]
    is missing or the model could not be built. *)
Variable _embed : option embed_model.

(** Python's built-in [hash] on strings. *)
Variable py_hash : string -> Z.

(** [_tokens]: a token counter based on whitespace. *)
Definition _tokens (text : string) : Z :=
  Z.of_nat (length (PyStr.split text)).

(** [_semantic_hash] *)
Definition _semantic_hash (text : string) : string :=
  let fallback := String.substring 0 16 (PyStr.str_of_int (py_hash text)) in
  match _embed with
  | None => fallback
  | Some model =>
      match sign_bits_hex model text with
      | Some hex => String.substring 0 16 hex
      | None => fallback
      end
  end.

(** [_similarity]: with no model, the word overlap [|A & B| / |A | B|]
    of the two sets of lowercased words; with a model, its cosine, and
    [0.0] when it raises. *)
Definition _similarity (a b : string) : Q :=
  match _embed with
  | None =>
      let words_a : gset string := list_to_set (PyStr.split (PyStr.lower a)) in
      let words_b : gset string := list_to_set (PyStr.split (PyStr.lower b)) in
      if bool_decide (words_a = ∅) || bool_decide (words_b = ∅) then 0%Q
      else Z.of_nat (size (words_a ∩ words_b)) # Pos.of_nat (size (words_a ∪ words_b))
  | Some model =>
      match cos_sim model a b with
      | Some c => c
      | None => 0%Q
      end
  end.

(** [_load_thoughts_from_file]: no file, no thoughts; else the objects
    of the file sorted by step; and no thoughts when anything raises. *)
Definition _load_thoughts_from_file (session_id : string) : M (list thought) :=
  try_except
    (s <~ get ;;
     match place_of s session_id with
     | At path =>
         match files s !! path with
         | None => ret []
         | Some thoughts => ret (sorted_by_step thoughts)
         end
     | Nowhere => ret []
     | Refused e => raise e
     end)
    (fun _ => ret []).

(** [_save_thoughts_to_file]: the file is rewritten, one object per
    thought; when [open] raises, nothing is written and the exception
    is dropped. *)
Definition _save_thoughts_to_file (session_id : string) (thoughts : list thought) : M unit :=
  try_except
    (s <~ get ;;
     match place_of s session_id with
     | At path => put (with_files (<[path := thoughts]> (files s)) s)
     | Nowhere => raise (OSError "[Errno 2] No such file or directory")
     | Refused e => raise e
     end)
    (fun _ => ret tt).

(** [_load_thoughts]: the primary store's chain if it is not empty, else
    the file's. *)
Definition _load_thoughts (session_id : string) : M (list thought) :=
  try_except
    (thoughts <~ SequentialThinkingManager.load_thoughts session_id ;;
     match thoughts with
     | _ :: _ => ret thoughts
     | [] => _load_thoughts_from_file session_id
     end)
    (fun _ => _load_thoughts_from_file session_id).

(** [_save_thoughts]: to the primary store, and to the file as well. *)
Definition _save_thoughts (session_id : string) (thoughts : list thought) : M unit :=
  try_except
    (SequentialThinkingManager.save_thoughts session_id thoughts ;;;
     _save_thoughts_to_file session_id thoughts)
    (fun _ => _save_thoughts_to_file session_id thoughts).

(** [any(keyword in text.lower() for keyword in contradiction_keywords)] *)
Definition is_contradiction (text : string) : bool :=
  existsb (fun keyword => PyStr.contains keyword (PyStr.lower text))
    contradiction_keywords.

(** The guard of the merge: [thoughts and _embed is not None and not
    is_contradiction], and then [similarity > duplicate_threshold]
    against the text of [thoughts[-1]]. *)
Definition is_duplicate (thoughts : list thought) (text : string) : bool :=
  match last thoughts with
  | None => false
  | Some last_thought =>
      bool_decide (_embed <> None) && negb (is_contradiction text) &&
      Qgtb (_similarity (Thought.text last_thought) text) duplicate_threshold
  end.

(** [len(thoughts)] and [sum(_tokens(t["text"]) for t in thoughts)] *)
Definition len (thoughts : list thought) : Z := Z.of_nat (length thoughts).

Definition current_tokens (thoughts : list thought) : Z :=
  foldr Z.add 0 (map (fun t => _tokens (Thought.text t)) thoughts).

(** [0 <= branch_from < len(thoughts)] *)
Definition valid_index (branch_from : Z) (thoughts : list thought) : bool :=
  (0 <=? branch_from)%Z && (branch_from <? len thoughts)%Z.

(** [_add_thought]: add a thought to the reasoning chain. *)
Definition _add_thought (w : env) (session_id text : string)
    (branch_from : option Z) (operation : string) : M thought :=
  thoughts <~ _load_thoughts session_id ;;
  if (current_tokens thoughts + _tokens text >? MAX_TOKENS)%Z then
    raise (ValueError "Token budget exceeded")
  else if (len thoughts >=? MAX_DEPTH)%Z then
    raise (ValueError "Maximum depth reached")
  else if is_duplicate thoughts text then
    let merged := alter (fun d => merge_into d (String "010" "[merged] " +:+ text) (time1 w))
                    (length thoughts - 1)%nat thoughts in
    _save_thoughts session_id merged ;;;
    match last merged with
    | Some d => ret d
    | None => raise (IndexError "list index out of range")
    end
  else
    let new_thought :=
      Thought.mk (len thoughts) text (time1 w) (uuid4 w)
        (_semantic_hash text) (95 # 100) None in
    if String.eqb operation "append" || bool_decide (branch_from = None) then
      _save_thoughts session_id (thoughts ++ [new_thought]) ;;;
      ret new_thought
    else if String.eqb operation "revise" then
      match branch_from with
      | None => raise (TypeError "'<=' not supported between instances of 'int' and 'NoneType'")
      | Some i =>
          if valid_index i thoughts then
            _save_thoughts session_id
              (alter (update_text_timestamp text (time2 w)) (Z.to_nat i) thoughts) ;;;
            ret new_thought
          else raise (IndexError "Invalid branch_from index")
      end
    else if String.eqb operation "branch" then
      match branch_from with
      | None => raise (TypeError "'<=' not supported between instances of 'int' and 'NoneType'")
      | Some i =>
          if valid_index i thoughts then
            _save_thoughts session_id (thoughts ++ [set_parent i new_thought]) ;;;
            ret (set_parent i new_thought)
          else raise (IndexError "Invalid branch_from index")
      end
    else raise (ValueError "Unknown operation").

(** [_format_thoughts]: format thoughts for display.  The arrow of the
    prefix is the three bytes of its UTF-8 encoding. *)
Definition arrow : string := String "226" (String "134" (String "146" EmptyString)).

Definition format_line (d : thought) : string :=
  let prefix := PyStr.format_02d (Thought.step d) in
  let prefix :=
    match Thought.parent d with
    | Some p => prefix +:+ arrow +:+ PyStr.str_of_int p
    | None => prefix
    end in
  let indent := PyStr.repeat "  " (PyStr.count prefix arrow) in
  indent +:+ prefix +:+ ": " +:+ Thought.text d.

Definition _format_thoughts (session_id : string) : M string :=
  thoughts <~ _load_thoughts session_id ;;
  match thoughts with
  | [] => ret "No thoughts recorded yet."
  | _ => ret (PyStr.join (String "010" EmptyString) (map format_line thoughts))
  end.

(** The parsing of [branch_from] in [sequential_think]: ["None"] is no
    index, anything else goes through [int]; the outer [None] is the
    [ValueError] of [int]. *)
Definition parse_branch_from (branch_from : string) : option (option Z) :=
  if negb (String.eqb branch_from "None") then
    match PyStr.int_of_str branch_from with
    | Some i => Some (Some i)
    | None => None
    end
  else Some None.

(** [sequential_think]: the public entry point; every exception ends as
    a result string. *)
Definition sequential_think (w : env) (thought session_id branch_from operation : string)
    : M string :=
  try_except
    (if String.eqb (PyStr.strip thought) EmptyString then
       ret "Please provide a non-empty thought."
     else
       match parse_branch_from branch_from with
       | None => ret "Invalid branch_from value. Use integer or 'None'."
       | Some branch_from_int =>
           _add_thought w session_id (PyStr.strip thought) branch_from_int operation ;;;
           _format_thoughts session_id
       end)
    (fun e => ret ("Error in sequential thinking: " +:+ str_of_exn e)).

(** [file_path.unlink(missing_ok=True)] on the file of a session *)
Definition unlink (session_id : string) : M unit :=
  s <~ get ;;
  match place_of s session_id with
  | At path => put (with_files (delete path (files s)) s)
  | Nowhere => ret tt
  | Refused e => raise e
  end.

(** [sequential_review]: review the chain of a session, or clear it by
    unlinking the session's file. *)
Definition sequential_review (session_id : string) (clear : bool) : M string :=
  try_except
    (if clear then
       unlink session_id ;;;
       ret ("Session '" +:+ session_id +:+ "' cleared.")
     else _format_thoughts session_id)
    (fun e => ret ("Error reviewing session: " +:+ str_of_exn e)).

End Engine.

(** ** The file backend, byte for byte

    Above, a session's file is the sequence of its JSON objects.  Here
    the same two functions are given on the text of the file, over the
    codec of the [json] module: [dumps] gives the text of a thought,
    [loads] reads one back, [None] standing for a decoding error.  The
    file system is a finite map from the paths of files to their
    contents, and [place_of] tells what it makes of the path of a
    session id. *)

Module JsonLines.

Definition LF : ascii := "010"%char.
Definition CR : ascii := "013"%char.

(** [for line in f], the file being open in text mode: a line ends with
    LF, CR or CR LF, and its end is read as LF.  [cur] is the line being
    read, in reverse; [after_cr] tells that the last character was CR. *)
Definition line_of (cur : list ascii) : string :=
  string_of_list_ascii (rev (LF :: cur)).

Fixpoint lines_aux (s : string) (cur : list ascii) (after_cr : bool) : list string :=
  match s with
  | EmptyString => PyStr.flush cur []
  | String c r =>
      if Ascii.eqb c LF then
        if after_cr then lines_aux r cur false
        else line_of cur :: lines_aux r [] false
      else if Ascii.eqb c CR then line_of cur :: lines_aux r [] true
      else lines_aux r (c :: cur) false
  end.

Definition lines (content : string) : list string := lines_aux content [] false.

Section Codec.

Variable dumps : thought -> string.
Variable loads : string -> option thought.
Variable place_of : string -> place.

(** The loop of [_load_thoughts_from_file]: blank lines are skipped, a
    line that does not decode ends the loop with an exception. *)
Fixpoint load_lines (ls : list string) : option (list thought) :=
  match ls with
  | [] => Some []
  | line :: rest =>
      let line := PyStr.strip line in
      if String.eqb line EmptyString then load_lines rest
      else match loads line with
           | None => None
           | Some d => cons d <$> load_lines rest
           end
  end.

Definition _load_thoughts_from_file (dir : gmap string string) (session_id : string)
    : list thought :=
  match place_of session_id with
  | At path =>
      match dir !! path with
      | None => []
      | Some content =>
          match load_lines (lines content) with
          | Some thoughts => sorted_by_step thoughts
          | None => []
          end
      end
  | Nowhere | Refused _ => []
  end.

(** The loop of [_save_thoughts_to_file]: [f.write(json.dumps(thought) + '\n')] *)
Fixpoint write_lines (thoughts : list thought) : string :=
  match thoughts with
  | [] => EmptyString
  | d :: rest => (dumps d +:+ String LF EmptyString) +:+ write_lines rest
  end.

Definition _save_thoughts_to_file (dir : gmap string string) (session_id : string)
    (thoughts : list thought) : gmap string string :=
  match place_of session_id with
  | At path => <[path := write_lines thoughts]> dir
  | Nowhere | Refused _ => dir
  end.

End Codec.




End JsonLines.

(** ** A codec for thoughts

    The text [json.dumps] gives for a thought, keys in insertion order,
    and a reader for texts of that shape.  A string of the embedding is
    the UTF-8 encoding of a Python string: [dumps] writes every
    character outside the printable ASCII range as the escape of its
    code point, [loads] reads the escapes back.  A float is written as
    [repr] writes one that has two decimals at most and is not
    negative: without a trailing zero after the first decimal. *)

Module Json.

Definition quote : ascii := "034"%char.
Definition backslash : ascii := "092"%char.

Definition hex_digit (n : N) : ascii :=
  if (n <? 10)%N then ascii_of_N (48 + n) else ascii_of_N (87 + n).

(** The escape of one UTF-16 code unit, four hexadecimal digits in lower
    case, and that of a code point: two units beyond the basic plane. *)
Definition u_escape (n : N) : string :=
  String backslash
    (String "u"
       (String (hex_digit (n / 4096))
          (String (hex_digit (n / 256 mod 16))
             (String (hex_digit (n / 16 mod 16))
                (String (hex_digit (n mod 16)) EmptyString)))))%N.

Definition escape_code_point (cp : N) : string :=
  if (cp <? 65536)%N then u_escape cp
  else u_escape (55296 + (cp - 65536) / 1024)%N
       +:+ u_escape (56320 + (cp - 65536) mod 1024)%N.

(** The escapes of [json.dumps] with [ensure_ascii], for a character of
    the ASCII range. *)
Definition escape_ascii (c : ascii) : string :=
  let n := N_of_ascii c in
  if Ascii.eqb c quote then String backslash (String quote EmptyString)
  else if Ascii.eqb c backslash then String backslash (String backslash EmptyString)
  else if (n =? 10)%N then String backslash "n"
  else if (n =? 13)%N then String backslash "r"
  else if (n =? 9)%N then String backslash "t"
  else if (n =? 8)%N then String backslash "b"
  else if (n =? 12)%N then String backslash "f"
  else if (n <? 32)%N || (n =? 127)%N then u_escape n
  else String c EmptyString.

(** The six low bits of a continuation byte. *)
Definition low6 (c : ascii) : N := (N_of_ascii c mod 64)%N.

(** A character of one byte goes through [escape_ascii]; one of two,
    three or four bytes is decoded to its code point.  (A byte sequence
    that is cut short is the encoding of no string; it ends the text.) *)
Fixpoint escape (s : string) : string :=
  match s with
  | EmptyString => EmptyString
  | String c r =>
      let n := N_of_ascii c in
      if (n <? 128)%N then escape_ascii c +:+ escape r
      else if (n <? 224)%N then
        match r with
        | String c1 r1 =>
            escape_code_point (n mod 32 * 64 + low6 c1)%N +:+ escape r1
        | _ => EmptyString
        end
      else if (n <? 240)%N then
        match r with
        | String c1 (String c2 r2) =>
            escape_code_point (n mod 16 * 4096 + low6 c1 * 64 + low6 c2)%N +:+ escape r2
        | _ => EmptyString
        end
      else
        match r with
        | String c1 (String c2 (String c3 r3)) =>
            escape_code_point
              (n mod 8 * 262144 + low6 c1 * 4096 + low6 c2 * 64 + low6 c3)%N
            +:+ escape r3
        | _ => EmptyString
        end
  end.

Definition dumps_str (s : string) : string :=
  String quote (escape s +:+ String quote EmptyString).

(** [h] is the float in hundredths. *)
Definition dumps_float (q : Q) : string :=
  let h := (Qnum q * 100 / Z.pos (Qden q))%Z in
  let cents := (h mod 100)%Z in
  PyStr.str_of_int (h / 100) +:+ "." +:+
  (if (cents mod 10 =? 0)%Z then PyStr.str_of_int (cents / 10)
   else PyStr.zfill 2 (PyStr.str_of_int cents)).

(** ["key": ] *)
Definition key (k : string) : string := dumps_str k +:+ ": ".

Definition dumps (d : thought) : string :=
  "{" +:+ key "step" +:+ PyStr.str_of_int (Thought.step d) +:+
  ", " +:+ key "text" +:+ dumps_str (Thought.text d) +:+
  ", " +:+ key "timestamp" +:+ PyStr.str_of_int (Thought.timestamp d) +:+
  ", " +:+ key "uuid" +:+ dumps_str (Thought.uuid d) +:+
  ", " +:+ key "semantic_id" +:+ dumps_str (Thought.semantic_id d) +:+
  ", " +:+ key "confidence" +:+ dumps_float (Thought.confidence d) +:+
  match Thought.parent d with
  | Some p => ", " +:+ key "parent" +:+ PyStr.str_of_int p
  | None => EmptyString
  end +:+ "}".

(** Reading back. *)
Definition expect (lit s : string) : option string :=
  if String.prefix lit s
  then Some (String.substring (String.length lit) (String.length s) s)
  else None.

Fixpoint read_digits (s : string) (acc : Z) (seen : bool) : option (Z * string) :=
  match s with
  | String c r =>
      if PyStr.isdigit c then read_digits r (10 * acc + PyStr.digit_val c) true
      else if seen then Some (acc, s) else None
  | EmptyString => if seen then Some (acc, s) else None
  end.

Definition read_int (s : string) : option (Z * string) :=
  match s with
  | String "-" r => '(z, rest) ← read_digits r 0 false; Some ((- z)%Z, rest)
  | _ => read_digits s 0 false
  end.

Definition hex_val (c : ascii) : option N :=
  let n := N_of_ascii c in
  if PyStr.isdigit c then Some (n - 48)%N
  else if (97 <=? n)%N && (n <=? 102)%N then Some (n - 87)%N
  else None.

Definition hex4 (a b c d : ascii) : option N :=
  x ← hex_val a; y ← hex_val b; z ← hex_val c; t ← hex_val d;
  Some (4096 * x + 256 * y + 16 * z + t)%N.

(** The bytes of the UTF-8 encoding of a code point, last byte first. *)
Definition utf8_rev (cp : N) : list ascii :=
  (if cp <? 128 then [ascii_of_N cp]
   else if cp <? 2048 then
     [ascii_of_N (128 + cp mod 64); ascii_of_N (192 + cp / 64)]
   else if cp <? 65536 then
     [ascii_of_N (128 + cp mod 64); ascii_of_N (128 + cp / 64 mod 64);
      ascii_of_N (224 + cp / 4096)]
   else
     [ascii_of_N (128 + cp mod 64); ascii_of_N (128 + cp / 64 mod 64);
      ascii_of_N (128 + cp / 4096 mod 64); ascii_of_N (240 + cp / 262144)])%N.

(** The characters of a string literal after its opening quote, up to
    the closing one; [acc] is what was read, in reverse.  An escaped
    high surrogate is read with the low surrogate that follows it. *)
Fixpoint read_chars (s : string) (acc : list ascii) : option (string * string) :=
  match s with
  | EmptyString => None
  | String c r =>
      if Ascii.eqb c quote then Some (string_of_list_ascii (rev acc), r)
      else if Ascii.eqb c backslash then
        match r with
        | String "n" r' => read_chars r' ("010"%char :: acc)
        | String "r" r' => read_chars r' ("013"%char :: acc)
        | String "t" r' => read_chars r' ("009"%char :: acc)
        | String "b" r' => read_chars r' ("008"%char :: acc)
        | String "f" r' => read_chars r' ("012"%char :: acc)
        | String "u" (String a (String b (String c (String d r')))) =>
            match hex4 a b c d with
            | None => None
            | Some hi =>
                if (55296 <=? hi)%N && (hi <? 56320)%N then
                  match r' with
                  | String x (String y (String e (String f (String g (String h r''))))) =>
                      match hex4 e f g h with
                      | Some lo =>
                          if Ascii.eqb x backslash && Ascii.eqb y "u" &&
                             (56320 <=? lo)%N && (lo <? 57344)%N
                          then read_chars r''
                                 (utf8_rev (65536 + (hi - 55296) * 1024 + (lo - 56320))%N
                                  ++ acc)
                          else None
                      | None => None
                      end
                  | _ => None
                  end
                else read_chars r' (utf8_rev hi ++ acc)
            end
        | String e r' =>
            if Ascii.eqb e quote || Ascii.eqb e backslash
            then read_chars r' (e :: acc) else None
        | EmptyString => None
        end
      else read_chars r (c :: acc)
  end.

Definition read_str (s : string) : option (string * string) :=
  match s with
  | String c r => if Ascii.eqb c quote then read_chars r [] else None
  | EmptyString => None
  end.

(** The decimals after the point, one or two, of a float whose whole
    part is [i]. *)
Definition read_cents (i : Z) (s : string) : option (Q * string) :=
  match s with
  | String a rest =>
      if PyStr.isdigit a then
        match rest with
        | String b rest' =>
            if PyStr.isdigit b
            then Some ((i * 100 + 10 * PyStr.digit_val a + PyStr.digit_val b)%Z # 100, rest')
            else Some ((i * 100 + 10 * PyStr.digit_val a)%Z # 100, rest)
        | EmptyString => Some ((i * 100 + 10 * PyStr.digit_val a)%Z # 100, rest)
        end
      else None
  | EmptyString => None
  end.

Definition read_float (s : string) : option (Q * string) :=
  '(i, s) ← read_int s;
  s ← expect "." s;
  read_cents i s.

Definition loads (s : string) : option thought :=
  s ← expect ("{" +:+ key "step") s;
  '(step, s) ← read_int s;
  s ← expect (", " +:+ key "text") s;
  '(text, s) ← read_str s;
  s ← expect (", " +:+ key "timestamp") s;
  '(timestamp, s) ← read_int s;
  s ← expect (", " +:+ key "uuid") s;
  '(uuid, s) ← read_str s;
  s ← expect (", " +:+ key "semantic_id") s;
  '(semantic_id, s) ← read_str s;
  s ← expect (", " +:+ key "confidence") s;
  '(confidence, s) ← read_float s;
  match expect (", " +:+ key "parent") s with
  | Some s =>
      '(parent, s) ← read_int s;
      if String.eqb s "}"
      then Some (Thought.mk step text timestamp uuid semantic_id confidence (Some parent))
      else None
  | None =>
      if String.eqb s "}"
      then Some (Thought.mk step text timestamp uuid semantic_id confidence None)
      else None
  end.

End Json.

(** ** Notions used in the statements *)

(** The chain a call loads from a store, and the store a save leaves. *)
Definition loaded (s : store) (session_id : string) : list thought :=
  match snd (_load_thoughts session_id s) with
  | Return thoughts => thoughts
  | Raise _ => []
  end.

Definition saved (s : store) (session_id : string) (thoughts : list thought) : store :=
  fst (_save_thoughts session_id thoughts s).

(** The file of a session, when one can be opened for it. *)
Definition file_of (s : store) (sid : string) : option string :=
  match place_of s sid with
  | At path => Some path
  | Nowhere | Refused _ => None
  end.

(** The chain of the session's file. *)
Definition file_chain (s : store) (sid : string) : list thought :=
  match place_of s sid with
  | At path =>
      match files s !! path with
      | Some l => sorted_by_step l
      | None => []
      end
  | Nowhere | Refused _ => []
  end.

(** The primary store is read and written: there is a collection and
    the driver lets it be truth-tested. *)
Definition primary_in_use (s : store) : bool :=
  match mongo s with
  | Some _ => truth_test s
  | None => false
  end.

(** The chain of the session's document, as the manager loads it. *)
Definition primary_chain (s : store) (sid : string) : list thought :=
  match mongo s with
  | Some docs =>
      if truth_test s then
        match docs !! sid with
        | Some l => sorted_by_step l
        | None => []
        end
      else []
  | None => []
  end.

(** One backend at least takes what is saved for the session. *)
Definition keeps (s : store) (sid : string) : bool :=
  primary_in_use s || bool_decide (is_Some (file_of s sid)).

(** Two session ids name the same file. *)
Definition same_file (s : store) (a b : string) : Prop :=
  exists path, place_of s a = At path /\ place_of s b = At path.

(** A chain is in step order. *)
Definition step_le (x y : thought) : Prop := (Thought.step x <= Thought.step y)%Z.
Definition step_sorted (l : list thought) : Prop := Sorted step_le l.

(** The thought [_add_thought] builds for a text when it sees [thoughts]. *)
Definition new_thought (_embed : option embed_model) (py_hash : string -> Z)
    (w : env) (thoughts : list thought) (text : string) : thought :=
  Thought.mk (len thoughts) text (time1 w) (uuid4 w)
    (_semantic_hash _embed py_hash text) (95 # 100) None.

(** The last entry after a merge of [text] into it. *)
Definition merged_last (w : env) (text : string) (d : thought) : thought :=
  merge_into d (String "010" "[merged] " +:+ text) (time1 w).

(** The token and depth checks let a text through. *)
Definition within_budget (thoughts : list thought) (text : string) : bool :=
  negb (current_tokens thoughts + _tokens text >? MAX_TOKENS)%Z &&
  negb (len thoughts >=? MAX_DEPTH)%Z.

(** Jaccard similarity in the words of the specification: the sets of
    lowercased whitespace-separated words, [|A∩B| / |A∪B|], and [0] if
    either set is empty. *)
Definition word_set (a : string) : list string :=
  remove_dups (PyStr.split (PyStr.lower a)).

Definition jaccard (a b : string) : Q :=
  match word_set a, word_set b with
  | [], _ | _, [] => 0%Q
  | A, B => Z.of_nat (length (list_intersection A B))
            # Pos.of_nat (length (list_union A B))
  end.

(** A marker as a whole word: an occurrence with no letter, digit or
    underscore right before it or right after it. *)
Definition is_word_char (c : ascii) : bool :=
  let n := nat_of_ascii c in
  PyStr.isdigit c || PyStr.isupper c ||
  ((97 <=? n)%nat && (n <=? 122)%nat) || Ascii.eqb c "_".

Fixpoint word_in_aux (kw s : string) (after_word_char : bool) : bool :=
  match s with
  | EmptyString => false
  | String c r =>
      (negb after_word_char && String.prefix kw s &&
       match String.get (String.length kw) s with
       | Some d => negb (is_word_char d)
       | None => true
       end)
      || word_in_aux kw r (is_word_char c)
  end.

Definition has_marker_word (text : string) : bool :=
  existsb (fun kw => word_in_aux kw (PyStr.lower text) false) contradiction_keywords.

(** A marker as a substring of the lowercased text. *)
Definition has_marker_substring (text : string) : Prop :=
  exists kw pre post,
    In kw contradiction_keywords /\ PyStr.lower text = pre +:+ kw +:+ post.

(** A run of appends on one session, each with its own environment, its
    text and its [branch_from], which an append does not look at.  It
    stops at the first call that merges or is rejected; else it gives
    the last store and the thoughts the calls returned. *)
Inductive run_result : Type :=
| Done (s : store) (returned : list thought)
| Merged
| Rejected (e : exn).

Record append_input : Type := mk_input {
  in_env : env;
  in_text : string;
  in_branch_from : option Z
}.

Fixpoint appends (_embed : option embed_model) (py_hash : string -> Z)
    (session_id : string) (inputs : list append_input) (s : store) : run_result :=
  match inputs with
  | [] => Done s []
  | mk_input w text branch_from :: rest =>
      if is_duplicate _embed (loaded s session_id) text
         && within_budget (loaded s session_id) text then Merged
      else
        match _add_thought _embed py_hash w session_id text branch_from "append" s with
        | (s', Return d) =>
            match appends _embed py_hash session_id rest s' with
            | Done s'' ds => Done s'' (d :: ds)
            | r => r
            end
        | (_, Raise e) => Rejected e
        end
  end.

(** The steps of a chain are its positions. *)
Definition numbered (l : list thought) : Prop :=
  map Thought.step l = map Z.of_nat (seq 0 (length l)).

(** The tokens of the texts of a run. *)
Definition input_tokens (inputs : list append_input) : Z :=
  foldr Z.add 0%Z (map (fun p => _tokens (in_text p)) inputs).

(** The rejections of a mutation: over the token budget, at the depth
    limit, or a revise or a branch from an index out of range. *)
Inductive rejected (_embed : option embed_model) (thoughts : list thought)
    (text : string) (branch_from : option Z) (operation : string) : exn -> Prop :=
| rejected_tokens :
    (current_tokens thoughts + _tokens text > MAX_TOKENS)%Z ->
    rejected _embed thoughts text branch_from operation (ValueError "Token budget exceeded")
| rejected_depth :
    (current_tokens thoughts + _tokens text <= MAX_TOKENS)%Z ->
    (len thoughts >= MAX_DEPTH)%Z ->
    rejected _embed thoughts text branch_from operation (ValueError "Maximum depth reached")
| rejected_index (i : Z) :
    within_budget thoughts text = true ->
    is_duplicate _embed thoughts text = false ->
    operation = "revise" \/ operation = "branch" ->
    branch_from = Some i ->
    ~ (0 <= i < len thoughts)%Z ->
    rejected _embed thoughts text branch_from operation (IndexError "Invalid branch_from index").

(** ** Sample data *)

Definition sample_hash (_ : string) : Z := 0%Z.

Definition sample_env : env := mk_env 1000 1001 "uuid-0".

Definition sample_thought (step : Z) (text : string) : thought :=
  Thought.mk step text 0 "u" "0" (95 # 100) None.

(** A sample file system: [PERSIST_DIR] has no subdirectory, and
    nothing can be written outside it.  A session id that, with its
    extension, is one file name (["./"] and doubled slashes apart) has
    its file in the directory; a name with a NUL byte or of more than
    255 bytes is refused; nothing can be opened for any other id. *)
Fixpoint split_on (sep : ascii) (s : string) (cur : list ascii) : list string :=
  match s with
  | EmptyString => [string_of_list_ascii (rev cur)]
  | String c r =>
      if Ascii.eqb c sep then string_of_list_ascii (rev cur) :: split_on sep r []
      else split_on sep r (c :: cur)
  end.

Definition flat_directory (session_id : string) : place :=
  let name := session_id +:+ ".jsonl" in
  if PyStr.contains (String "000" EmptyString) name then
    Refused (ValueError "embedded null byte")
  else if String.prefix "/" name then Nowhere
  else
    match List.filter (fun c => negb (String.eqb c EmptyString || String.eqb c "."))
            (split_on "/" name []) with
    | [c] =>
        if String.eqb c ".." then Nowhere
        else if (255 <? String.length c)%nat then
          Refused (OSError ("[Errno 36] File name too long: 'sequential_memory/"
                            +:+ c +:+ "'"))
        else At c
    | _ => Nowhere
    end.

(** A store whose two backends hold [chain] for [session_id]; the
    primary store is reachable when [up] is set, through a driver that
    lets a collection be truth-tested. *)
Definition sample_store (up : bool) (session_id : string) (chain : list thought) : store :=
  mk_store (if up then Some {[session_id := chain]} else None) true flat_directory
           match flat_directory session_id with
           | At path => {[path := chain]}
           | Nowhere | Refused _ => ∅
           end.

(** A store with nothing in it. *)
Definition empty_store (up : bool) : store :=
  mk_store (if up then Some ∅ else None) true flat_directory ∅.

(** The same store seen through a driver that refuses the truth test of
    a collection. *)
Definition strict_driver (s : store) : store :=
  mk_store (mongo s) false (place_of s) (files s).

(** A chain at the depth limit. *)
Definition full_chain : list thought :=
  map (fun n => sample_thought (Z.of_nat n) "t") (seq 0 100).

(** A model for which a text is similar to itself only. *)
Definition echo_model : embed_model :=
  mk_embed (fun a b => Some (if String.eqb a b then 1%Q else 0%Q)) (fun _ => None).

(** A model that finds any two texts close to each other. *)
Definition close_model : embed_model :=
  mk_embed (fun _ _ => Some (95 # 100)) (fun _ => None).

(** ** Notions for the invariants of the engine *)

(** What a call that does not raise saves in place of [thoughts]: the
    chain with its last entry merged, with a new thought at its end,
    with one entry revised, or with a branch at its end. *)
Inductive mutated (_embed : option embed_model) (py_hash : string -> Z)
    (w : env) (text : string) (thoughts : list thought) : list thought -> Prop :=
| mutated_merge :
    thoughts <> [] ->
    is_duplicate _embed thoughts text = true ->
    mutated _embed py_hash w text thoughts
      (alter (merged_last w text) (length thoughts - 1)%nat thoughts)
| mutated_append :
    is_duplicate _embed thoughts text = false ->
    mutated _embed py_hash w text thoughts
      (thoughts ++ [new_thought _embed py_hash w thoughts text])
| mutated_revise (i : Z) :
    is_duplicate _embed thoughts text = false ->
    valid_index i thoughts = true ->
    mutated _embed py_hash w text thoughts
      (alter (update_text_timestamp text (time2 w)) (Z.to_nat i) thoughts)
| mutated_branch (i : Z) :
    is_duplicate _embed thoughts text = false ->
    valid_index i thoughts = true ->
    mutated _embed py_hash w text thoughts
      (thoughts ++ [set_parent i (new_thought _embed py_hash w thoughts text)]).

(** Every parent is the position of an earlier entry. *)
Definition parents_ok (l : list thought) : Prop :=
  forall (i : nat) (d : thought) (p : Z),
    l !! i = Some d -> Thought.parent d = Some p -> (0 <= p < Z.of_nat i)%Z.

(** A call of one of the two public entry points, and the store a
    sequence of such calls leaves. *)
Inductive api_call : Type :=
| Think (w : env) (thought session_id branch_from operation : string)
| Review (session_id : string) (clear : bool).

Definition run_call (_embed : option embed_model) (py_hash : string -> Z)
    (c : api_call) (s : store) : store :=
  match c with
  | Think w thought session_id branch_from operation =>
      fst (sequential_think _embed py_hash w thought session_id branch_from operation s)
  | Review session_id clear => fst (sequential_review session_id clear s)
  end.

Definition run_calls (_embed : option embed_model) (py_hash : string -> Z)
    (calls : list api_call) (s : store) : store :=
  foldl (fun s c => run_call _embed py_hash c s) s calls.

(** The session a call works on. *)
Definition call_session (c : api_call) : string :=
  match c with
  | Think _ _ session_id _ _ => session_id
  | Review session_id _ => session_id
  end.

(** A few calls, for the examples. *)
Definition sample_calls : list api_call :=
  [Think sample_env "Let's analyze X" "s1" "None" "append";
   Think sample_env "Let's analyze X" "s1" "None" "append";
   Think sample_env "a side note" "s1" "0" "branch";
   Think sample_env "on another session" "s2" "None" "append";
   Review "s2" true;
   Think sample_env "Let's analyze Y" "s1" "1" "revise";
   Think sample_env "nothing to branch from" "s1" "9" "branch"].

(** A chain of one entry, one token short of the token budget. *)
Definition long_chain : list thought :=
  [sample_thought 0 (PyStr.repeat "a " (Z.to_nat 49999))].

(** The document the primary store holds for a session, when there is
    a collection ([None] when there is none). *)
Definition primary_doc (s : store) (sid : string) : option (option (list thought)) :=
  match mongo s with
  | Some c => Some (c !! sid)
  | None => None
  end.

(** The set of words of a text, as [_similarity] takes it when there is
    no model. *)
Definition words (a : string) : gset string :=
  list_to_set (PyStr.split (PyStr.lower a)).

(** A string of ASCII characters. *)
Fixpoint plain (s : string) : bool :=
  match s with
  | EmptyString => true
  | String c r => (nat_of_ascii c <? 128)%nat && plain r
  end.




(** ** More of [SequentialThinkingManager] *)

(** [get_all_sessions]: the session ids that have a document, in the
    order the store gives them; none when [collection is None].  The
    collection is compared with [None], not truth-tested. *)
Definition get_all_sessions : M (list string) :=
  try_except
    (collection <~ SequentialThinkingManager.get_collection ;;
     match collection with
     | None => ret []
     | Some docs => ret (elements (dom docs))
     end)
    (fun _ => ret []).

(** [delete_session]: the document of the session is deleted; the answer
    tells whether there was one ([deleted_count > 0]).  Here too the
    collection is compared with [None]. *)
Definition delete_session (session_id : string) : M bool :=
  try_except
    (collection <~ SequentialThinkingManager.get_collection ;;
     match collection with
     | None => ret false
     | Some docs =>
         s <~ get ;;
         put (with_mongo (delete session_id docs) s) ;;;
         ret (bool_decide (is_Some (docs !! session_id)))
     end)
    (fun _ => ret false).

(** ** The callers of the engine: the choice of tools

    [determine_tools_needed] of [backend/ai_core_github_integration.py]
    and [get_relevant_tools] of [ai_core_github_integration.py] pick the
    tools to run from keywords found in the input; a tool is given by
    its name. *)

(** [any(keyword in text for keyword in keywords)] *)
Definition any_in (keywords : list string) (text : string) : bool :=
  existsb (fun keyword => PyStr.contains keyword text) keywords.

(** [tools_needed.append(name)] under a condition *)
Definition append_if (b : bool) (name : string) (tools : list string) : list string :=
  if b then tools ++ [name] else tools.

Definition determine_tools_needed (user_input : string) : list string :=
  let user_lower := PyStr.lower user_input in
  let tools_needed := [] in
  let weather_keywords :=
    ["weather"; "temperature"; "forecast"; "climate"; "hot"; "cold"; "rain"; "snow"] in
  let tools_needed := append_if (any_in weather_keywords user_lower) "get_weather" tools_needed in
  let play_keywords :=
    ["play"; "change song"; "change the song"; "put on"; "start playing"] in
  let search_keywords :=
    ["search for songs"; "find songs"; "look for music"; "search music"] in
  let tools_needed :=
    if any_in play_keywords user_lower then tools_needed ++ ["play_smart_track"]
    else if any_in search_keywords user_lower then tools_needed ++ ["search_tracks"]
    else tools_needed in
  let tools_needed :=
    append_if (PyStr.contains "volume" user_lower &&
               any_in ["set"; "change"; "turn"; "up"; "down"] user_lower)
      "set_volume" tools_needed in
  let tools_needed :=
    append_if (PyStr.contains "pause" user_lower && PyStr.contains "music" user_lower)
      "pause_music" tools_needed in
  let tools_needed :=
    append_if (PyStr.contains "skip" user_lower &&
               (PyStr.contains "song" user_lower || PyStr.contains "track" user_lower))
      "skip_track" tools_needed in
  let tools_needed :=
    append_if (PyStr.contains "current" user_lower &&
               (PyStr.contains "song" user_lower || PyStr.contains "track" user_lower
                || PyStr.contains "playing" user_lower))
      "current_track" tools_needed in
  let info_keywords :=
    ["what is"; "tell me about"; "information about"; "explain"; "define"; "wikipedia"] in
  let tools_needed :=
    append_if (any_in info_keywords user_lower) "wikipedia_lookup" tools_needed in
  let search_keywords := ["search"; "google"; "look up"; "find information"] in
  let tools_needed :=
    append_if (any_in search_keywords user_lower &&
               negb (PyStr.contains "wikipedia" user_lower))
      "web_search" tools_needed in
  let tools_needed :=
    append_if (any_in ["news"; "headlines"; "latest news"; "current events"] user_lower)
      "latest_news" tools_needed in
  let thinking_keywords :=
    ["step by step"; "sequential"; "think"; "reasoning"; "process"; "analyze";
     "break down"] in
  let tools_needed :=
    append_if (any_in thinking_keywords user_lower) "sequential_think" tools_needed in
  let image_keywords :=
    ["generate image"; "create image"; "make image"; "draw"; "picture"] in
  let tools_needed :=
    append_if (any_in image_keywords user_lower) "generate_image" tools_needed in
  tools_needed.

(** [TOOL_CATEGORIES], by names, in the order of the dictionary. *)
Definition TOOL_CATEGORIES : list (string * list string) :=
  [("core", ["get_weather"; "wikipedia_lookup"; "web_search"; "latest_news"]);
   ("music", ["search_tracks"; "play_smart_track"; "current_track"; "pause_music";
              "skip_track"; "add_to_playlist"; "set_volume"; "get_lyrics"]);
   ("analysis", ["sequential_think"; "sequential_review"]);
   ("creative", ["generate_image"]);
   ("productivity", ["process_resume"; "scrapingant_page"])].

(** [TOOL_CATEGORIES.get(category, [])] *)
Definition category (name : string) : list string :=
  match find (fun p => String.eqb (fst p) name) TOOL_CATEGORIES with
  | Some p => snd p
  | None => []
  end.

(** The loop that removes duplicates and keeps the order: [seen] holds
    the names already taken. *)
Fixpoint unique_tools (tools : list string) (seen : gset string) : list string :=
  match tools with
  | [] => []
  | tool :: rest =>
      if bool_decide (tool ∈ seen) then unique_tools rest seen
      else tool :: unique_tools rest ({[tool]} ∪ seen)
  end.

Definition get_relevant_tools (TOOLS_AVAILABLE : bool) (user_input : string)
    : list string :=
  if negb TOOLS_AVAILABLE then []
  else
    let user_lower := PyStr.lower user_input in
    let relevant_tools := category "core" in
    let music_play_keywords :=
      ["play"; "change song"; "change the song"; "play music"; "start playing";
       "put on"] in
    let music_search_keywords :=
      ["search for songs"; "find songs"; "look for music"; "search music"] in
    let relevant_tools :=
      if any_in (music_play_keywords ++ music_search_keywords ++
                 ["music"; "song"; "track"; "album"; "artist"; "lyrics"]) user_lower
      then relevant_tools ++ category "music" else relevant_tools in
    let tool_keywords :=
      [("analysis", ["think"; "analyze"; "reason"; "sequential"; "logic"; "step"]);
       ("creative", ["image"; "picture"; "generate"; "create"; "draw"; "art"]);
       ("productivity", ["resume"; "cv"; "scrape"; "website"; "pdf"; "document"])] in
    let relevant_tools :=
      foldl (fun tools p =>
               if any_in (snd p) user_lower then tools ++ category (fst p) else tools)
        relevant_tools tool_keywords in
    unique_tools relevant_tools ∅.

(** The order in which [determine_tools_needed] makes its tests, by the
    name each test appends. *)
Definition tool_order : list string :=
  ["get_weather"; "play_smart_track"; "search_tracks"; "set_volume"; "pause_music";
   "skip_track"; "current_track"; "wikipedia_lookup"; "web_search"; "latest_news";
   "sequential_think"; "generate_image"].

(** * Properties *)

(** ** The primitives on examples *)

Example split_words : PyStr.split "  Let's  analyze X " = ["Let's"; "analyze"; "X"].
Proof. reflexivity. Qed.

Example strip_both_ends : PyStr.strip "  a b  " = "a b".
Proof. reflexivity. Qed.

Example format_steps :
  map PyStr.format_02d [0; 7; 12; 123; -5]%Z = ["00"; "07"; "12"; "123"; "-5"].
Proof. reflexivity. Qed.

Example int_of_str_cases :
  map PyStr.int_of_str [" 12 "; "-3"; "1_0"; "1__0"; "_1"; "abc"; "+7"; "None"]
  = [Some 12; Some (-3); Some 10; None; None; None; Some 7; None]%Z.
Proof. reflexivity. Qed.

Example count_does_not_overlap : PyStr.count "aaaa" "aa" = 2%nat.
Proof. reflexivity. Qed.

Example jaccard_half : _similarity None "a b c" "A b d" = (2 # 4)%Q.
Proof. reflexivity. Qed.

(** The scenario of the specification, with a model that is absent: the
    second thought is not merged. *)
Example scenario_without_model :
  snd ((sequential_think None sample_hash sample_env
          "Let's analyze X" "s1" "None" "append" ;;;
        sequential_think None sample_hash sample_env
          "However, that's wrong" "s1" "None" "append" ;;;
        sequential_think None sample_hash sample_env
          "a side note" "s1" "0" "branch" ;;;
        sequential_think None sample_hash sample_env
          "Let's analyze Y" "s1" "0" "revise")
         (empty_store false))
  = Return ("00: Let's analyze Y" +:+ String "010"
            ("01: However, that's wrong" +:+ String "010"
             ("  02" +:+ arrow +:+ "0: a side note"))).
Proof. reflexivity. Qed.

(** The scenario of the specification, with a model: the second thought
    is merged into the first, the third has a marker and is not. *)
Example scenario_with_model :
  snd ((sequential_think (Some close_model) sample_hash sample_env
          "Let's analyze X" "s1" "None" "append" ;;;
        sequential_think (Some close_model) sample_hash sample_env
          "Let's analyze X in more detail" "s1" "None" "append" ;;;
        sequential_think (Some close_model) sample_hash sample_env
          "However, that's wrong" "s1" "None" "append")
         (empty_store true))
  = Return ("00: Let's analyze X" +:+ String "010"
            ("[merged] Let's analyze X in more detail" +:+ String "010"
             "01: However, that's wrong")).
Proof. reflexivity. Qed.

Example review_of_nothing up :
  snd (sequential_review "s1" false (empty_store up)) = Return "No thoughts recorded yet.".
Proof. by destruct up. Qed.

Example dumps_of_a_branch :
  Json.loads (Json.dumps (set_parent 0 (sample_thought 3 "x")))
  = Some (set_parent 0 (sample_thought 3 "x")).
Proof. reflexivity. Qed.

(** ** Sorting by step *)

Section Sorting.

Lemma insert_by_step_perm x l : Permutation (insert_by_step x l) (x :: l).
Proof.
  induction l as [|y r IH]; simpl; [reflexivity|].
  destruct (Thought.step x <=? Thought.step y)%Z; [reflexivity|].
  rewrite IH. apply perm_swap.
Qed.

Lemma sorted_by_step_perm l : Permutation (sorted_by_step l) l.
Proof.
  induction l as [|x r IH]; simpl; [constructor|].
  rewrite insert_by_step_perm. by constructor.
Qed.

Lemma insert_by_step_hd x y l :
  step_le y x -> HdRel step_le y l -> HdRel step_le y (insert_by_step x l).
Proof.
  intros Hyx Hl. destruct l as [|z r]; simpl; [by constructor|].
  destruct (Thought.step x <=? Thought.step z)%Z; constructor; try done.
  by inversion Hl.
Qed.

Lemma insert_by_step_sorted x l : step_sorted l -> step_sorted (insert_by_step x l).
Proof.
  unfold step_sorted. induction 1 as [|y r Hr IH Hhd]; simpl.
  - repeat constructor.
  - destruct (Thought.step x <=? Thought.step y)%Z eqn:E.
    + constructor; [by constructor|]. constructor. unfold step_le. lia.
    + constructor; [done|]. apply insert_by_step_hd; [|done].
      unfold step_le. lia.
Qed.

Lemma sorted_by_step_sorted l : step_sorted (sorted_by_step l).
Proof.
  induction l as [|x r IH]; simpl; [constructor|].
  by apply insert_by_step_sorted.
Qed.

(** A chain already in step order is left as it is. *)
Lemma sorted_by_step_id l : step_sorted l -> sorted_by_step l = l.
Proof.
  unfold step_sorted. induction 1 as [|x r Hr IH Hhd]; simpl; [done|].
  rewrite IH. destruct Hhd as [|y r' Hxy]; simpl; [done|].
  unfold step_le in Hxy. destruct (Z.leb_spec (Thought.step x) (Thought.step y)); [done|lia].
Qed.

Lemma sorted_by_step_nil l : sorted_by_step l = [] -> l = [].
Proof.
  intros H. apply Permutation_nil. rewrite <- H. apply sorted_by_step_perm.
Qed.

Lemma sorted_by_step_length l : length (sorted_by_step l) = length l.
Proof. apply Permutation_length, sorted_by_step_perm. Qed.


Lemma step_sorted_steps l : step_sorted l <-> Sorted Z.le (map Thought.step l).
Proof.
  unfold step_sorted. induction l as [|x r IH]; simpl.
  - split; constructor.
  - split; intros H; inversion H as [|? ? Hr Hhd]; subst; constructor;
      try (by apply IH); destruct r; simpl in *; constructor; by inversion Hhd.
Qed.


End Sorting.

(** ** Loading and saving *)

Section Store.

Lemma manager_load_eq sid s :
  SequentialThinkingManager.load_thoughts sid s = (s, Return (primary_chain s sid)).
Proof.
  unfold SequentialThinkingManager.load_thoughts, SequentialThinkingManager.get_collection,
    SequentialThinkingManager.not_, primary_chain, try_except, bind, get, ret, raise.
  destruct (mongo s) as [docs|]; [|done].
  destruct (truth_test s); [|done]. cbn. by destruct (docs !! sid).
Qed.

Lemma manager_save_eq sid l s :
  SequentialThinkingManager.save_thoughts sid l s =
  (match mongo s with
   | Some docs => if truth_test s then with_mongo (<[sid := l]> docs) s else s
   | None => s
   end, Return tt).
Proof.
  unfold SequentialThinkingManager.save_thoughts, SequentialThinkingManager.get_collection,
    SequentialThinkingManager.not_, try_except, bind, get, put, ret, raise.
  destruct (mongo s) as [docs|]; [|done]. by destruct (truth_test s).
Qed.

Lemma file_load_eq sid s :
  _load_thoughts_from_file sid s = (s, Return (file_chain s sid)).
Proof.
  unfold _load_thoughts_from_file, file_chain, try_except, bind, get, ret, raise.
  destruct (place_of s sid) as [path| |e]; [|done..]. by destruct (files s !! path).
Qed.

Lemma file_save_eq sid l s :
  _save_thoughts_to_file sid l s =
  (match place_of s sid with
   | At path => with_files (<[path := l]> (files s)) s
   | Nowhere | Refused _ => s
   end, Return tt).
Proof.
  unfold _save_thoughts_to_file, try_except, bind, get, put, ret, raise.
  by destruct (place_of s sid).
Qed.

Lemma loaded_unfold s sid :
  loaded s sid =
  match primary_chain s sid with
  | [] => file_chain s sid
  | k => k
  end.
Proof.
  unfold loaded, _load_thoughts, try_except, bind.
  rewrite manager_load_eq. destruct (primary_chain s sid); [|done].
  by rewrite file_load_eq.
Qed.

Lemma load_thoughts_eq sid s : _load_thoughts sid s = (s, Return (loaded s sid)).
Proof.
  rewrite loaded_unfold. unfold _load_thoughts, try_except, bind.
  rewrite manager_load_eq. destruct (primary_chain s sid); [|done].
  by rewrite file_load_eq.
Qed.

Lemma saved_unfold s sid l :
  saved s sid l =
  mk_store (match mongo s with
            | Some docs => Some (if truth_test s then <[sid := l]> docs else docs)
            | None => None
            end)
    (truth_test s) (place_of s)
    (match place_of s sid with
     | At path => <[path := l]> (files s)
     | Nowhere | Refused _ => files s
     end).
Proof.
  unfold saved, _save_thoughts, try_except, bind.
  rewrite manager_save_eq, file_save_eq. cbn [fst].
  destruct s as [[docs|] [|] places fs]; cbn [mongo truth_test place_of files with_mongo];
    by destruct (places sid).
Qed.

Lemma save_thoughts_eq sid l s : _save_thoughts sid l s = (saved s sid l, Return tt).
Proof.
  unfold saved, _save_thoughts, try_except, bind.
  rewrite manager_save_eq, file_save_eq. done.
Qed.

(** A save changes neither the driver nor the places of the files. *)
Lemma saved_places s sid l :
  place_of (saved s sid l) = place_of s /\ truth_test (saved s sid l) = truth_test s.
Proof. by rewrite saved_unfold. Qed.

Lemma primary_in_use_saved s sid l : primary_in_use (saved s sid l) = primary_in_use s.
Proof. rewrite saved_unfold. unfold primary_in_use. cbn. by destruct (mongo s). Qed.

Lemma keeps_saved s sid l sid' : keeps (saved s sid l) sid' = keeps s sid'.
Proof.
  unfold keeps, file_of. rewrite primary_in_use_saved.
  by rewrite (proj1 (saved_places s sid l)).
Qed.

Lemma primary_chain_sorted s sid : step_sorted (primary_chain s sid).
Proof.
  unfold primary_chain. destruct (mongo s) as [docs|]; [|constructor].
  destruct (truth_test s); [|constructor].
  destruct (docs !! sid); [apply sorted_by_step_sorted|constructor].
Qed.

Lemma file_chain_sorted s sid : step_sorted (file_chain s sid).
Proof.
  unfold file_chain. destruct (place_of s sid) as [path| |e]; try constructor.
  destruct (files s !! path); [apply sorted_by_step_sorted|constructor].
Qed.

Lemma loaded_sorted s sid : step_sorted (loaded s sid).
Proof.
  rewrite loaded_unfold. destruct (primary_chain s sid) eqn:E.
  - apply file_chain_sorted.
  - rewrite <- E. apply primary_chain_sorted.
Qed.

(** A chain is loaded from a backend that takes the next save. *)
Lemma loaded_keeps s sid : loaded s sid <> [] -> keeps s sid = true.
Proof.
  rewrite loaded_unfold. unfold keeps, primary_chain, primary_in_use, file_chain, file_of.
  destruct (mongo s) as [docs|]; [destruct (truth_test s); [done|]|];
    (destruct (place_of s sid); [|done..]); intros _; by apply bool_decide_eq_true_2.
Qed.

(** What is saved is what is loaded next, in step order, as long as one
    backend takes it; when none does, nothing is loaded. *)
Lemma loaded_saved s sid l :
  loaded (saved s sid l) sid = if keeps s sid then sorted_by_step l else [].
Proof.
  rewrite loaded_unfold, saved_unfold.
  unfold keeps, primary_chain, primary_in_use, file_chain, file_of.
  cbn [mongo truth_test place_of files].
  destruct (mongo s) as [docs|]; [destruct (truth_test s)|].
  - rewrite lookup_insert_eq. cbn [orb].
    destruct (sorted_by_step l) eqn:E; [|done].
    destruct (place_of s sid) as [path| |e]; [|done..].
    by rewrite lookup_insert_eq, E.
  - destruct (place_of s sid) as [path| |e]; [|done..].
    by rewrite lookup_insert_eq.
  - destruct (place_of s sid) as [path| |e]; [|done..].
    by rewrite lookup_insert_eq.
Qed.

Lemma loaded_saved_kept s sid l :
  keeps s sid = true -> loaded (saved s sid l) sid = sorted_by_step l.
Proof. intros H. by rewrite loaded_saved, H. Qed.

(** A chain that was loaded, changed and saved is loaded next. *)
Lemma loaded_saved_from s sid l :
  loaded s sid <> [] -> loaded (saved s sid l) sid = sorted_by_step l.
Proof. intros H. by apply loaded_saved_kept, loaded_keeps. Qed.

(** The file backend alone: what is written is read back in step order
    when the file can be opened, and nothing is read back when it
    cannot. *)
Lemma file_backend_round_trip s sid l :
  snd (_load_thoughts_from_file sid (fst (_save_thoughts_to_file sid l s)))
  = Return (if bool_decide (is_Some (file_of s sid)) then sorted_by_step l else []).
Proof.
  rewrite file_save_eq, file_load_eq. cbn [fst snd]. f_equal.
  unfold file_chain, file_of.
  destruct (place_of s sid) as [path| |e] eqn:E; cbn [place_of files with_files];
    rewrite E; [|done..].
  by rewrite lookup_insert_eq.
Qed.

Lemma loaded_saved_sorted s sid l :
  keeps s sid = true -> step_sorted l -> loaded (saved s sid l) sid = l.
Proof. intros Hk H. rewrite loaded_saved_kept by done. by apply sorted_by_step_id. Qed.

End Store.

(** ** The paths of [_add_thought] *)

Lemma within_budget_true thoughts txt :
  within_budget thoughts txt = true <->
  (current_tokens thoughts + _tokens txt >? MAX_TOKENS)%Z = false /\
  (len thoughts >=? MAX_DEPTH)%Z = false.
Proof.
  unfold within_budget. rewrite andb_true_iff, !negb_true_iff. tauto.
Qed.

Lemma last_alter_last {A} (f : A -> A) (l : list A) :
  last (alter f (length l - 1)%nat l) = f <$> last l.
Proof.
  rewrite !last_lookup, length_alter, <- Nat.sub_1_r.
  apply list_lookup_alter_eq.
Qed.

Section Paths.

Variable _embed : option embed_model.
Variable py_hash : string -> Z.
Variables (w : env) (sid text : string) (s : store).

Ltac enter :=
  unfold _add_thought, bind; rewrite load_thoughts_eq; cbn beta iota.

Lemma add_thought_over_tokens bf op :
  (current_tokens (loaded s sid) + _tokens text >? MAX_TOKENS)%Z = true ->
  _add_thought _embed py_hash w sid text bf op s
  = (s, Raise (ValueError "Token budget exceeded")).
Proof. intros H. enter. by rewrite H. Qed.

Lemma add_thought_at_depth bf op :
  (current_tokens (loaded s sid) + _tokens text >? MAX_TOKENS)%Z = false ->
  (len (loaded s sid) >=? MAX_DEPTH)%Z = true ->
  _add_thought _embed py_hash w sid text bf op s
  = (s, Raise (ValueError "Maximum depth reached")).
Proof. intros H1 H2. enter. by rewrite H1, H2. Qed.

Lemma add_thought_merge bf op d :
  within_budget (loaded s sid) text = true ->
  is_duplicate _embed (loaded s sid) text = true ->
  last (loaded s sid) = Some d ->
  _add_thought _embed py_hash w sid text bf op s
  = (saved s sid (alter (merged_last w text) (length (loaded s sid) - 1)%nat (loaded s sid)),
     Return (merged_last w text d)).
Proof.
  intros [H1 H2]%within_budget_true Hd Hl. enter.
  rewrite H1, H2, Hd, save_thoughts_eq.
  fold (merged_last w text). by rewrite last_alter_last, Hl.
Qed.

Lemma add_thought_append bf op :
  within_budget (loaded s sid) text = true ->
  is_duplicate _embed (loaded s sid) text = false ->
  op = "append" \/ bf = None ->
  let d := new_thought _embed py_hash w (loaded s sid) text in
  _add_thought _embed py_hash w sid text bf op s
  = (saved s sid (loaded s sid ++ [d]), Return d).
Proof.
  intros [H1 H2]%within_budget_true Hd Hop d. enter.
  rewrite H1, H2, Hd.
  assert (String.eqb op "append" || bool_decide (bf = None) = true) as ->.
  { destruct Hop as [->| ->]; [done|]. by rewrite orb_true_r. }
  by rewrite save_thoughts_eq.
Qed.

Lemma add_thought_revise i :
  within_budget (loaded s sid) text = true ->
  is_duplicate _embed (loaded s sid) text = false ->
  valid_index i (loaded s sid) = true ->
  _add_thought _embed py_hash w sid text (Some i) "revise" s
  = (saved s sid (alter (update_text_timestamp text (time2 w)) (Z.to_nat i) (loaded s sid)),
     Return (new_thought _embed py_hash w (loaded s sid) text)).
Proof.
  intros [H1 H2]%within_budget_true Hd Hi. enter.
  rewrite H1, H2, Hd. cbn. by rewrite Hi, save_thoughts_eq.
Qed.

Lemma add_thought_branch i :
  within_budget (loaded s sid) text = true ->
  is_duplicate _embed (loaded s sid) text = false ->
  valid_index i (loaded s sid) = true ->
  let d := set_parent i (new_thought _embed py_hash w (loaded s sid) text) in
  _add_thought _embed py_hash w sid text (Some i) "branch" s
  = (saved s sid (loaded s sid ++ [d]), Return d).
Proof.
  intros [H1 H2]%within_budget_true Hd Hi d. enter.
  rewrite H1, H2, Hd. cbn. by rewrite Hi, save_thoughts_eq.
Qed.

Lemma add_thought_bad_index i op :
  within_budget (loaded s sid) text = true ->
  is_duplicate _embed (loaded s sid) text = false ->
  op = "revise" \/ op = "branch" ->
  valid_index i (loaded s sid) = false ->
  _add_thought _embed py_hash w sid text (Some i) op s
  = (s, Raise (IndexError "Invalid branch_from index")).
Proof.
  intros [H1 H2]%within_budget_true Hd Hop Hi. enter.
  rewrite H1, H2, Hd. destruct Hop as [-> | ->]; cbn; by rewrite Hi.
Qed.

(** A call that raises leaves the store as it was. *)
Lemma add_thought_raise_store bf op e s' :
  _add_thought _embed py_hash w sid text bf op s = (s', Raise e) -> s' = s.
Proof.
  destruct (current_tokens (loaded s sid) + _tokens text >? MAX_TOKENS)%Z eqn:H1.
  { rewrite add_thought_over_tokens by done. by intros [= <- _]. }
  destruct (len (loaded s sid) >=? MAX_DEPTH)%Z eqn:H2.
  { rewrite add_thought_at_depth by done. by intros [= <- _]. }
  assert (within_budget (loaded s sid) text = true) as Hb
    by by apply within_budget_true.
  destruct (is_duplicate _embed (loaded s sid) text) eqn:Hd.
  { destruct (last (loaded s sid)) as [d|] eqn:Hl.
    - by rewrite (add_thought_merge _ _ d).
    - unfold is_duplicate in Hd. by rewrite Hl in Hd. }
  enter. rewrite H1, H2, Hd.
  repeat match goal with
  | |- context [if ?b then _ else _] => destruct b
  | |- context [match ?o with Some _ => _ | None => _ end] => destruct o
  end; cbn beta; rewrite ?save_thoughts_eq; unfold raise, ret;
  intros [= <-]; done.
Qed.

End Paths.

(** ** Word overlap *)

Section Jaccard.

Implicit Types l k : list string.

Lemma list_to_set_remove_dups l :
  list_to_set (remove_dups l) = (list_to_set l : gset string).
Proof. apply set_eq. intros x. by rewrite !elem_of_list_to_set, elem_of_remove_dups. Qed.

Lemma size_words l : size (list_to_set l : gset string) = length (remove_dups l).
Proof.
  rewrite <- list_to_set_remove_dups. apply size_list_to_set, NoDup_remove_dups.
Qed.

Lemma size_inter_words l k :
  size ((list_to_set l : gset string) ∩ list_to_set k)
  = length (list_intersection (remove_dups l) (remove_dups k)).
Proof.
  rewrite <- (size_list_to_set (C := gset string)).
  - f_equal. apply set_eq. intros x.
    rewrite elem_of_intersection, !elem_of_list_to_set, list_elem_of_intersection.
    by rewrite !elem_of_remove_dups.
  - apply NoDup_list_intersection, NoDup_remove_dups.
Qed.

Lemma size_union_words l k :
  size ((list_to_set l : gset string) ∪ list_to_set k)
  = length (list_union (remove_dups l) (remove_dups k)).
Proof.
  rewrite <- (size_list_to_set (C := gset string)).
  - f_equal. apply set_eq. intros x.
    rewrite elem_of_union, !elem_of_list_to_set, list_elem_of_union.
    by rewrite !elem_of_remove_dups.
  - apply NoDup_list_union; apply NoDup_remove_dups.
Qed.

Lemma words_empty l :
  bool_decide ((list_to_set l : gset string) = ∅) = bool_decide (remove_dups l = []).
Proof.
  apply bool_decide_ext. rewrite <- list_to_set_remove_dups.
  split.
  - destruct (remove_dups l) as [|x r]; [done|].
    intros H. exfalso. apply (not_elem_of_empty (C := gset string) x).
    rewrite <- H. set_solver.
  - by intros ->.
Qed.

(** With no model, [_similarity] is the Jaccard similarity of the
    specification. *)
Lemma similarity_no_model a b : _similarity None a b = jaccard a b.
Proof.
  unfold _similarity, jaccard, word_set.
  rewrite size_inter_words, size_union_words, !words_empty.
  destruct (remove_dups (PyStr.split (PyStr.lower a))) as [|x r]; [done|].
  destruct (remove_dups (PyStr.split (PyStr.lower b))) as [|y r']; [done|].
  rewrite !bool_decide_eq_false_2 by done. done.
Qed.

End Jaccard.

(** ** Deduplication without a model (C1) *)

Section NoModel.

Lemma is_duplicate_no_model thoughts text : is_duplicate None thoughts text = false.
Proof. unfold is_duplicate. by destruct (last thoughts). Qed.

(** C1, as the specification has it, fails: with no embedding model, a
    candidate whose Jaccard similarity to the last entry is 1 and which
    has no contradiction marker is appended as a second entry, the first
    being left as it was. *)
Lemma C1_counterexample :
  let s := sample_store false "s1" [sample_thought 0 "a b c"] in
  let s' := fst (_add_thought None sample_hash sample_env "s1" "a b c" None "append" s) in
  loaded s "s1" = [sample_thought 0 "a b c"] /\
  Qgtb (jaccard "a b c" "a b c") duplicate_threshold = true /\
  Qgtb (_similarity None "a b c" "a b c") duplicate_threshold = true /\
  has_marker_word "a b c" = false /\
  is_contradiction "a b c" = false /\
  loaded s' "s1" =
    [sample_thought 0 "a b c";
     Thought.mk 1 "a b c" 1000 "uuid-0" "0" (95 # 100) None].
Proof. vm_compute. repeat split. Qed.

(** C1, amended: with no embedding model, [_similarity] is the Jaccard
    similarity over the sets of lowercased whitespace-separated words
    (0 if either set is empty), but an append does not consult it: for
    every append, that is every call with the operation ["append"] or
    with no index, a candidate that passes the token and depth checks
    is made a new entry whatever its similarity to the last entry, and
    the chain with that entry at its end is what is saved.  It is the
    chain loaded next when the primary store or the file of the session
    takes the write; when neither does, nothing is loaded. *)
Theorem C1_no_model_appends (py_hash : string -> Z) (w : env) (sid text : string)
    (bf : option Z) (op : string) (s : store) :
  within_budget (loaded s sid) text = true ->
  op = "append" \/ bf = None ->
  let d := new_thought None py_hash w (loaded s sid) text in
  let s' := fst (_add_thought None py_hash w sid text bf op s) in
  (forall a b, _similarity None a b = jaccard a b) /\
  _add_thought None py_hash w sid text bf op s
    = (saved s sid (loaded s sid ++ [d]), Return d) /\
  Thought.text d = text /\ Thought.step d = len (loaded s sid) /\
  loaded s' sid = (if keeps s sid then sorted_by_step (loaded s sid ++ [d]) else []) /\
  (keeps s sid = true ->
   Permutation (loaded s' sid) (loaded s sid ++ [d]) /\
   length (loaded s' sid) = S (length (loaded s sid))).
Proof.
  intros Hb Hop d s'. subst s'.
  rewrite (add_thought_append None py_hash w sid text s bf op)
    by (done || apply is_duplicate_no_model).
  cbn [fst]. fold d. rewrite loaded_saved.
  split; [apply similarity_no_model|]. repeat split.
  - rewrite H. apply sorted_by_step_perm.
  - rewrite H, sorted_by_step_length, length_app. simpl. lia.
Qed.

Lemma C1_no_model_appends_witness :
  let s := sample_store true "s1" [sample_thought 0 "a b c"] in
  let d := new_thought None sample_hash sample_env (loaded s "s1") "a b c" in
  within_budget (loaded s "s1") "a b c" = true /\
  _add_thought None sample_hash sample_env "s1" "a b c" (Some 0%Z) "append" s
    = (saved s "s1" (loaded s "s1" ++ [d]), Return d) /\
  length (loaded (fst (_add_thought None sample_hash sample_env "s1" "a b c" (Some 0%Z)
                         "append" s)) "s1") = 2%nat.
Proof.
  intros s d. assert (within_budget (loaded s "s1") "a b c" = true) as H
    by (vm_compute; reflexivity).
  split; [exact H|].
  destruct (C1_no_model_appends sample_hash sample_env "s1" "a b c" (Some 0%Z) "append"
              s H (or_introl eq_refl)) as (_ & H1 & _ & _ & _ & H2).
  split; [exact H1|]. exact (proj2 (H2 eq_refl)).
Defined.

End NoModel.

(** ** The budget checks and the operations (C2) *)

Section Budget.

(** C2, as the specification has it, fails: with the chain at the depth
    limit, a revise and a branch from the valid index 0 are both
    rejected, and the entry point reports the depth limit. *)
Lemma C2_counterexample :
  let s := sample_store true "s1" full_chain in
  len (loaded s "s1") = MAX_DEPTH /\
  valid_index 0 (loaded s "s1") = true /\
  _add_thought None sample_hash sample_env "s1" "x" (Some 0%Z) "revise" s
    = (s, Raise (ValueError "Maximum depth reached")) /\
  _add_thought None sample_hash sample_env "s1" "x" (Some 0%Z) "branch" s
    = (s, Raise (ValueError "Maximum depth reached")) /\
  snd (sequential_think None sample_hash sample_env "x" "s1" "0" "revise" s)
    = Return "Error in sequential thinking: Maximum depth reached".
Proof. vm_compute. repeat split. Qed.

(** C2, amended: the token-budget and depth checks come before the
    dispatch on the operation and apply to every operation: an append,
    a revise or a branch, whatever its index, is rejected when the
    candidate would take the chain over the token budget, and else when
    the chain is at the depth limit; the store is left as it was. *)
Theorem C2_budget_checks_every_operation (_embed : option embed_model)
    (py_hash : string -> Z) (w : env) (sid text : string) (bf : option Z)
    (op : string) (s : store) :
  ((current_tokens (loaded s sid) + _tokens text > MAX_TOKENS)%Z ->
   _add_thought _embed py_hash w sid text bf op s
     = (s, Raise (ValueError "Token budget exceeded"))) /\
  ((current_tokens (loaded s sid) + _tokens text <= MAX_TOKENS)%Z ->
   (len (loaded s sid) >= MAX_DEPTH)%Z ->
   _add_thought _embed py_hash w sid text bf op s
     = (s, Raise (ValueError "Maximum depth reached"))).
Proof.
  split.
  - intros H. apply add_thought_over_tokens. by apply Z.gtb_lt, Z.gt_lt.
  - intros H1 H2. apply add_thought_at_depth.
    + destruct (Z.gtb_spec (current_tokens (loaded s sid) + _tokens text) MAX_TOKENS);
        [lia|done].
    + by apply Z.geb_le, Z.ge_le.
Qed.

Lemma C2_budget_checks_every_operation_witness :
  let s := sample_store true "s1" full_chain in
  (current_tokens (loaded s "s1") + _tokens "x" <= MAX_TOKENS)%Z /\
  (len (loaded s "s1") >= MAX_DEPTH)%Z /\
  _add_thought (Some echo_model) sample_hash sample_env "s1" "x" (Some 3%Z) "branch" s
    = (s, Raise (ValueError "Maximum depth reached")).
Proof.
  intros s.
  assert (current_tokens (loaded s "s1") + _tokens "x" <= MAX_TOKENS)%Z as H1
    by (vm_compute; discriminate).
  assert (len (loaded s "s1") >= MAX_DEPTH)%Z as H2 by (vm_compute; discriminate).
  split; [exact H1|]. split; [exact H2|].
  exact (proj2 (C2_budget_checks_every_operation (Some echo_model) sample_hash
                  sample_env "s1" "x" (Some 3%Z) "branch" s) H1 H2).
Defined.

End Budget.

(** ** Clearing a session (C3) *)

Section Clear.

Lemma format_thoughts_eq sid s :
  _format_thoughts sid s =
  (s, Return match loaded s sid with
             | [] => "No thoughts recorded yet."
             | thoughts => PyStr.join (String "010" EmptyString) (map format_line thoughts)
             end).
Proof.
  unfold _format_thoughts, bind. rewrite load_thoughts_eq.
  by destruct (loaded s sid).
Qed.

Lemma unlink_eq sid s :
  unlink sid s =
  match place_of s sid with
  | At path => (with_files (delete path (files s)) s, Return tt)
  | Nowhere => (s, Return tt)
  | Refused e => (s, Raise e)
  end.
Proof. unfold unlink, bind, get, put, ret, raise. by destruct (place_of s sid). Qed.

(** A clear unlinks the file of the session when there can be one, and
    reports the exception of [unlink] when the name is refused. *)
Lemma review_clear_eq sid s :
  sequential_review sid true s =
  match place_of s sid with
  | At path => (with_files (delete path (files s)) s,
                Return ("Session '" +:+ sid +:+ "' cleared."))
  | Nowhere => (s, Return ("Session '" +:+ sid +:+ "' cleared."))
  | Refused e => (s, Return ("Error reviewing session: " +:+ str_of_exn e))
  end.
Proof.
  unfold sequential_review, try_except, bind. rewrite unlink_eq.
  by destruct (place_of s sid).
Qed.

(** What a clear leaves of the store: the collection and the places as
    they were, and no file for the session. *)
Lemma review_clear_store sid s :
  let s' := fst (sequential_review sid true s) in
  mongo s' = mongo s /\ truth_test s' = truth_test s /\ place_of s' = place_of s /\
  file_chain s' sid = [] /\ primary_chain s' sid = primary_chain s sid.
Proof.
  rewrite review_clear_eq. unfold file_chain, primary_chain.
  destruct (place_of s sid) as [path| |e] eqn:E;
    cbn [fst mongo truth_test place_of files with_files]; rewrite ?E; repeat split.
  by rewrite lookup_delete_eq.
Qed.

(** When the primary store gives no thought for the session (there is
    no collection, the driver refuses its truth test, or the document
    is missing or empty), a review after a clear gives the sentinel. *)
Lemma review_after_clear_file_only sid s :
  primary_chain s sid = [] ->
  snd (sequential_review sid false (fst (sequential_review sid true s)))
  = Return "No thoughts recorded yet.".
Proof.
  intros H. destruct (review_clear_store sid s) as (_ & _ & _ & Hf & Hp).
  unfold sequential_review at 1, try_except. rewrite format_thoughts_eq. cbn [snd].
  by rewrite loaded_unfold, Hp, H, Hf.
Qed.

(** When the primary store gives thoughts for the session, a review
    after a clear still shows them. *)
Lemma review_after_clear_primary sid s :
  primary_chain s sid <> [] ->
  snd (sequential_review sid false (fst (sequential_review sid true s)))
  = Return (PyStr.join (String "010" EmptyString) (map format_line (primary_chain s sid))).
Proof.
  intros H. destruct (review_clear_store sid s) as (_ & _ & _ & Hf & Hp).
  unfold sequential_review at 1, try_except. rewrite format_thoughts_eq. cbn [snd].
  rewrite loaded_unfold, Hp. by destruct (primary_chain s sid).
Qed.

(** C3 fails on the code: clearing unlinks the session's file and leaves
    the primary store's document.  After one thought recorded with the
    primary store reachable through a driver that lets a collection be
    truth-tested, a clear followed by a review still shows the thought,
    not the sentinel.  Through a driver that refuses the truth test the
    primary store is never written, and the same calls end with the
    sentinel. *)
Lemma C3_clear_leaves_primary_copy :
  let s0 := empty_store true in
  let s1 := fst (sequential_think None sample_hash sample_env "x" "s1" "None" "append" s0) in
  let s2 := fst (sequential_review "s1" true s1) in
  let t1 := fst (sequential_think None sample_hash sample_env "x" "s1" "None" "append"
                   (strict_driver s0)) in
  let t2 := fst (sequential_review "s1" true t1) in
  (mongo s0 = Some ∅ /\ truth_test s0 = true /\ place_of s0 "s1" = At "s1.jsonl") /\
  snd (sequential_review "s1" true s1) = Return "Session 's1' cleared." /\
  files s2 !! "s1.jsonl" = None /\
  primary_doc s2 "s1" = Some (Some [Thought.mk 0 "x" 1000 "uuid-0" "0" (95 # 100) None]) /\
  snd (sequential_review "s1" false s2) = Return "00: x" /\
  snd (sequential_review "s1" false s2) <> Return "No thoughts recorded yet." /\
  primary_doc t2 "s1" = Some None /\
  snd (sequential_review "s1" false t2) = Return "No thoughts recorded yet.".
Proof. vm_compute. repeat split. discriminate. Qed.

End Clear.

(** ** Contradiction markers (C4) *)

Section Markers.

Lemma prefix_app a b : String.prefix a b = true <-> exists post, b = a +:+ post.
Proof.
  revert b. induction a as [|c a IH]; intros b.
  - split; [by exists b|by destruct b].
  - destruct b as [|c' b]; simpl.
    + split; [done|]. by intros [post ?].
    + destruct (ascii_dec c c') as [->|Hne].
      * rewrite IH. split; intros [post Hp]; exists post; [by rewrite Hp|by injection Hp].
      * split; [done|]. intros [post Hp]. by injection Hp.
Qed.

Lemma contains_unfold sub s :
  PyStr.contains sub s =
  String.prefix sub s || match s with
                         | EmptyString => false
                         | String _ r => PyStr.contains sub r
                         end.
Proof. by destruct s. Qed.

Lemma contains_app sub s :
  PyStr.contains sub s = true <-> exists pre post, s = pre +:+ sub +:+ post.
Proof.
  split.
  - induction s as [|c r IH]; rewrite contains_unfold, orb_true_iff.
    + intros [[post ->]%prefix_app|]; [|done]. by exists EmptyString, post.
    + intros [[post ->]%prefix_app|H]; [by exists EmptyString, post|].
      destruct (IH H) as (pre & post & ->). by exists (String c pre), post.
  - intros (pre & post & ->). induction pre as [|c pre IH];
      rewrite contains_unfold, orb_true_iff; [left|right; exact IH].
    apply prefix_app. by exists post.
Qed.

(** The test of [_add_thought] is a substring test on the lowercased
    text. *)
Lemma is_contradiction_substring text :
  is_contradiction text = true <-> has_marker_substring text.
Proof.
  unfold is_contradiction, has_marker_substring. rewrite existsb_exists.
  split.
  - intros (kw & Hin & (pre & post & Heq)%contains_app). by exists kw, pre, post.
  - intros (kw & pre & post & Hin & Heq). exists kw. split; [done|].
    apply contains_app. by exists pre, post.
Qed.

Lemma is_duplicate_contradiction _embed thoughts text :
  is_contradiction text = true -> is_duplicate _embed thoughts text = false.
Proof.
  intros H. unfold is_duplicate. destruct (last thoughts); [|done].
  by rewrite H, andb_false_r.
Qed.

(** C4, as the specification has it, fails: ["normal"] has no marker as
    a whole word, yet the test of the code takes the ["no"] inside it
    for one and the deduplication is bypassed: under a model that finds
    the candidate identical to the last entry, ["normal"] is appended as
    a second entry, where ["formal"] is merged. *)
Lemma C4_counterexample :
  let run text :=
    loaded (fst (_add_thought (Some echo_model) sample_hash sample_env "s1" text None
                   "append" (sample_store true "s1" [sample_thought 0 text]))) "s1" in
  has_marker_word "normal" = false /\
  is_contradiction "normal" = true /\
  Qgtb (_similarity (Some echo_model) "normal" "normal") duplicate_threshold = true /\
  run "normal" = [sample_thought 0 "normal";
                  Thought.mk 1 "normal" 1000 "uuid-0" "0" (95 # 100) None] /\
  run "formal" = [Thought.mk 0 ("formal" +:+ String "010" "[merged] formal") 1000
                    "u" "0" (95 # 100) None].
Proof. vm_compute. repeat split. Qed.

(** C4, amended: the markers are looked for as substrings of the
    lowercased candidate, not as whole words; for every append (every
    call with the operation ["append"] or with no index), with or
    without a model, whose text has a marker as a substring and which
    passes the token and depth checks, the deduplication is bypassed:
    the candidate is made a new entry, never merged, and the chain with
    that entry at its end is what is saved.  The chain loaded next has
    one entry more when the primary store or the file of the session
    takes the write. *)
Theorem C4_marker_substring_bypass (_embed : option embed_model)
    (py_hash : string -> Z) (w : env) (sid text : string) (bf : option Z)
    (op : string) (s : store) :
  has_marker_substring text ->
  within_budget (loaded s sid) text = true ->
  op = "append" \/ bf = None ->
  let d := new_thought _embed py_hash w (loaded s sid) text in
  let s' := fst (_add_thought _embed py_hash w sid text bf op s) in
  is_contradiction text = true /\
  is_duplicate _embed (loaded s sid) text = false /\
  _add_thought _embed py_hash w sid text bf op s
    = (saved s sid (loaded s sid ++ [d]), Return d) /\
  loaded s' sid = (if keeps s sid then sorted_by_step (loaded s sid ++ [d]) else []) /\
  (keeps s sid = true ->
   Permutation (loaded s' sid) (loaded s sid ++ [d]) /\
   length (loaded s' sid) = S (length (loaded s sid))).
Proof.
  intros Hm%is_contradiction_substring Hb Hop d s'. subst s'.
  pose proof (is_duplicate_contradiction _embed (loaded s sid) text Hm) as Hd.
  rewrite (add_thought_append _embed py_hash w sid text s bf op) by done.
  cbn [fst]. fold d. rewrite loaded_saved. repeat split; try done.
  - rewrite H. apply sorted_by_step_perm.
  - rewrite H, sorted_by_step_length, length_app. simpl. lia.
Qed.

Lemma C4_marker_substring_bypass_witness :
  let text := "However, that's wrong" in
  let s := sample_store true "s1" [sample_thought 0 text] in
  let d := new_thought (Some echo_model) sample_hash sample_env (loaded s "s1") text in
  has_marker_substring text /\
  within_budget (loaded s "s1") text = true /\
  _add_thought (Some echo_model) sample_hash sample_env "s1" text None "branch" s
    = (saved s "s1" (loaded s "s1" ++ [d]), Return d) /\
  length (loaded (fst (_add_thought (Some echo_model) sample_hash sample_env "s1" text
                         None "branch" s)) "s1") = 2%nat.
Proof.
  intros text s d.
  assert (has_marker_substring text) as H1.
  { exists "however", EmptyString, ", that's wrong". split; [simpl; auto|reflexivity]. }
  assert (within_budget (loaded s "s1") text = true) as H2 by (vm_compute; reflexivity).
  split; [exact H1|]. split; [exact H2|].
  destruct (C4_marker_substring_bypass (Some echo_model) sample_hash sample_env "s1" text
              None "branch" s H1 H2 (or_intror eq_refl)) as (_ & _ & H3 & _ & H4).
  split; [exact H3|]. exact (proj2 (H4 eq_refl)).
Defined.

End Markers.

(** ** Runs of appends (C5) *)

Section Appends.

Variable _embed : option embed_model.
Variable py_hash : string -> Z.
Variable sid : string.

Lemma seq_steps_sorted a n : Sorted Z.le (map Z.of_nat (seq a n)).
Proof.
  revert a. induction n as [|n IH]; intros a; simpl; constructor; [apply IH|].
  destruct n; simpl; constructor. lia.
Qed.

Lemma numbered_sorted l : numbered l -> step_sorted l.
Proof. intros H. apply step_sorted_steps. rewrite H. apply seq_steps_sorted. Qed.

Lemma numbered_snoc l d :
  numbered l -> Thought.step d = len l -> numbered (l ++ [d]).
Proof.
  unfold numbered, len. intros Hl Hd.
  rewrite length_app, map_app, Nat.add_1_r, seq_S, map_app, Hl. simpl. by rewrite Hd.
Qed.

Lemma current_tokens_snoc l d :
  current_tokens (l ++ [d]) = (current_tokens l + _tokens (Thought.text d))%Z.
Proof.
  unfold current_tokens. induction l as [|x r IH]; simpl; [lia|]. rewrite IH. lia.
Qed.

Lemma tokens_nonneg text : (0 <= _tokens text)%Z.
Proof. unfold _tokens. lia. Qed.

Lemma input_tokens_nonneg inputs : (0 <= input_tokens inputs)%Z.
Proof.
  unfold input_tokens. induction inputs as [|p r IH]; simpl; [lia|].
  pose proof (tokens_nonneg (in_text p)). lia.
Qed.

Lemma add_thought_over_budget w text bf op s :
  within_budget (loaded s sid) text = false ->
  exists e, _add_thought _embed py_hash w sid text bf op s = (s, Raise e).
Proof.
  unfold within_budget. intros H.
  destruct (current_tokens (loaded s sid) + _tokens text >? MAX_TOKENS)%Z eqn:H1.
  - eexists. by apply add_thought_over_tokens.
  - destruct (len (loaded s sid) >=? MAX_DEPTH)%Z eqn:H2; [|done].
    eexists. by apply add_thought_at_depth.
Qed.

(** One step of a run that goes on: the call was within budget, did not
    merge, and put the new thought at the end of the chain. *)
Lemma append_step w text bf s s1 d :
  keeps s sid = true ->
  numbered (loaded s sid) ->
  (is_duplicate _embed (loaded s sid) text && within_budget (loaded s sid) text) = false ->
  _add_thought _embed py_hash w sid text bf "append" s = (s1, Return d) ->
  d = new_thought _embed py_hash w (loaded s sid) text /\
  loaded s1 sid = loaded s sid ++ [d] /\ keeps s1 sid = true.
Proof.
  intros Hk Hn Hm Ha.
  destruct (within_budget (loaded s sid) text) eqn:Hb.
  - rewrite andb_true_r in Hm.
    rewrite add_thought_append in Ha by (done || by left).
    injection Ha as <- <-. split; [done|]. split; [|by rewrite keeps_saved].
    apply loaded_saved_sorted; [done|]. apply numbered_sorted, numbered_snoc; done.
  - destruct (add_thought_over_budget w text bf "append" s Hb) as [e He].
    rewrite He in Ha. discriminate.
Qed.

Lemma appends_done inputs : forall s s' out,
  keeps s sid = true ->
  numbered (loaded s sid) ->
  appends _embed py_hash sid inputs s = Done s' out ->
  loaded s' sid = loaded s sid ++ out /\
  map Thought.step out
    = map Z.of_nat (seq (length (loaded s sid)) (length inputs)) /\
  map Thought.text out = map in_text inputs.
Proof.
  induction inputs as [|[w text bf] rest IH]; intros s s' out Hk Hn H; simpl in H.
  - injection H as <- <-. by rewrite app_nil_r.
  - destruct (is_duplicate _ _ _ && within_budget _ _) eqn:Hm; [discriminate|].
    destruct (_add_thought _ _ _ _ _ _ _ _) as [s1 [d|e]] eqn:Ha; [|discriminate].
    destruct (append_step w text bf s s1 d Hk Hn Hm Ha) as (Hd & Hl & Hk1).
    destruct (appends _ _ _ rest s1) as [s2 ds| |] eqn:Hr; try discriminate.
    injection H as <- <-.
    assert (numbered (loaded s1 sid)) as Hn1.
    { rewrite Hl. apply numbered_snoc; [done|by rewrite Hd]. }
    destruct (IH s1 s2 ds Hk1 Hn1 Hr) as (H1 & H2 & H3).
    rewrite Hl in H1, H2. rewrite length_app, Nat.add_1_r in H2.
    split; [by rewrite H1, <- app_assoc|]. simpl. rewrite H2, H3.
    by rewrite Hd.
Qed.

Lemma appends_not_rejected inputs : forall s e,
  keeps s sid = true ->
  numbered (loaded s sid) ->
  (current_tokens (loaded s sid) + input_tokens inputs <= MAX_TOKENS)%Z ->
  (len (loaded s sid) + Z.of_nat (length inputs) <= MAX_DEPTH)%Z ->
  appends _embed py_hash sid inputs s <> Rejected e.
Proof.
  induction inputs as [|[w text bf] rest IH]; intros s e Hk Hn Ht Hd; simpl; [done|].
  unfold input_tokens in Ht. simpl in Ht. fold (input_tokens rest) in Ht.
  pose proof (input_tokens_nonneg rest) as Hr.
  assert (within_budget (loaded s sid) text = true) as Hb.
  { apply within_budget_true. split.
    - destruct (Z.gtb_spec (current_tokens (loaded s sid) + _tokens text) MAX_TOKENS);
        [lia|done].
    - destruct (Z.geb_spec (len (loaded s sid)) MAX_DEPTH); [|done].
      simpl in Hd. lia. }
  rewrite Hb, andb_true_r.
  destruct (is_duplicate _embed (loaded s sid) text) eqn:Hdup; [done|].
  rewrite add_thought_append by (done || by left).
  set (d := new_thought _embed py_hash w (loaded s sid) text).
  assert (loaded (saved s sid (loaded s sid ++ [d])) sid = loaded s sid ++ [d]) as Hl.
  { apply loaded_saved_sorted; [done|]. apply numbered_sorted, numbered_snoc; done. }
  specialize (IH (saved s sid (loaded s sid ++ [d])) e).
  rewrite Hl in IH.
  destruct (appends _ _ _ rest _); [done| done |].
  apply IH.
  - by rewrite keeps_saved.
  - by apply numbered_snoc.
  - rewrite current_tokens_snoc. simpl. lia.
  - unfold len in *. rewrite length_app. simpl in *. lia.
Qed.


End Appends.

(** C5, as the specification has it, fails: with no primary store and
    a session id for which no file can be opened, each append is
    accepted and returns its thought, but nothing is kept: after two
    appends the chain is still empty, and both thoughts have step 0. *)
Lemma C5_counterexample :
  let s := empty_store false in
  let inputs := [mk_input (mk_env 10 10 "u0") "first idea" None;
                 mk_input (mk_env 20 20 "u1") "second idea" None] in
  mongo s = None /\ place_of s "a/b" = Nowhere /\ loaded s "a/b" = [] /\
  appends None sample_hash "a/b" inputs s
    = Done s [Thought.mk 0 "first idea" 10 "u0" "0" (95 # 100) None;
              Thought.mk 0 "second idea" 20 "u1" "0" (95 # 100) None] /\
  loaded s "a/b" <> [Thought.mk 0 "first idea" 10 "u0" "0" (95 # 100) None;
                     Thought.mk 1 "second idea" 20 "u1" "0" (95 # 100) None] /\
  snd (sequential_think None sample_hash (mk_env 10 10 "u0") "first idea" "a/b" "None"
         "append" s) = Return "No thoughts recorded yet.".
Proof. vm_compute. repeat split. discriminate. Qed.

(** C5, amended: on a session for which the primary store or the file
    takes what is saved, after a run of [N] appends on the empty chain,
    none of which merged and none of which was rejected, the chain is
    the [N] thoughts the calls returned, in order; their steps are
    [0 .. N-1], each the length of the chain when it was appended, and
    their texts are the texts given.  Moreover a run of at most
    [MAX_DEPTH] appends whose texts have at most [MAX_TOKENS] tokens in
    all is never rejected. *)
Theorem C5_appends_steps (_embed : option embed_model) (py_hash : string -> Z)
    (sid : string) (inputs : list append_input) (s : store) :
  keeps s sid = true ->
  loaded s sid = [] ->
  (forall s' out,
     appends _embed py_hash sid inputs s = Done s' out ->
     loaded s' sid = out /\
     length out = length inputs /\
     map Thought.step out = map Z.of_nat (seq 0 (length inputs)) /\
     (forall i d, out !! i = Some d -> Thought.step d = len (take i out)) /\
     map Thought.text out = map in_text inputs) /\
  ((Z.of_nat (length inputs) <= MAX_DEPTH)%Z ->
   (input_tokens inputs <= MAX_TOKENS)%Z ->
   forall e, appends _embed py_hash sid inputs s <> Rejected e).
Proof.
  intros Hk Hempty. split.
  - intros s' out Hrun.
    destruct (appends_done _embed py_hash sid inputs s s' out) as (H1 & H2 & H3);
      [done|by rewrite Hempty|done|].
    rewrite Hempty in H1, H2. simpl in H1, H2.
    assert (length out = length inputs) as Hlen.
    { by rewrite <- (length_map Thought.step), H2, length_map, length_seq. }
    repeat split; try done.
    intros i d Hi.
    assert (i < length out)%nat as Hlt by (eapply lookup_lt_Some; eauto).
    assert (map Thought.step out !! i = Some (Thought.step d)) as Hs
      by by rewrite list_lookup_fmap, Hi.
    rewrite H2, list_lookup_fmap, lookup_seq_lt in Hs by lia.
    injection Hs as <-. unfold len. rewrite length_take. f_equal. lia.
  - intros Hd Ht e. by apply appends_not_rejected; rewrite ?Hempty.
Qed.

Lemma C5_appends_steps_witness :
  let inputs := [mk_input (mk_env 10 10 "u0") "first idea" None;
                 mk_input (mk_env 20 20 "u1") "second idea" (Some 0%Z);
                 mk_input (mk_env 30 30 "u2") "but a third one" None] in
  let s := empty_store false in
  keeps s "./s1" = true /\ loaded s "./s1" = [] /\
  exists s' out,
    appends (Some echo_model) sample_hash "./s1" inputs s = Done s' out /\
    loaded s' "./s1" = out /\ map Thought.step out = [0; 1; 2]%Z.
Proof.
  intros inputs s.
  assert (keeps s "./s1" = true) as Hk by reflexivity.
  assert (loaded s "./s1" = []) as H by reflexivity.
  split; [exact Hk|]. split; [exact H|].
  destruct (appends (Some echo_model) sample_hash "./s1" inputs s) as [s' out| |] eqn:E;
    [|vm_compute in E; discriminate E|vm_compute in E; discriminate E].
  exists s', out. split; [reflexivity|].
  destruct (proj1 (C5_appends_steps (Some echo_model) sample_hash "./s1" inputs s Hk H)
              s' out E) as (H1 & _ & H3 & _).
  split; [exact H1|exact H3].
Defined.

(** ** Rejections (C6) *)

Section Rejections.

Variable _embed : option embed_model.
Variable py_hash : string -> Z.

Lemma think_eq w thought sid branch_from op s bf :
  String.eqb (PyStr.strip thought) EmptyString = false ->
  parse_branch_from branch_from = Some bf ->
  sequential_think _embed py_hash w thought sid branch_from op s =
  match _add_thought _embed py_hash w sid (PyStr.strip thought) bf op s with
  | (s', Return _) => _format_thoughts sid s'
  | (s', Raise e) => (s', Return ("Error in sequential thinking: " +:+ str_of_exn e))
  end.
Proof.
  intros H1 H2. unfold sequential_think, try_except, bind. rewrite H1, H2.
  destruct (_add_thought _ _ _ _ _ _ _ _) as [s' [d|e]]; [|done].
  by rewrite format_thoughts_eq.
Qed.

(** No exception leaves the entry point. *)
Lemma sequential_think_returns w thought sid branch_from op s :
  exists s' out,
    sequential_think _embed py_hash w thought sid branch_from op s = (s', Return out).
Proof.
  destruct (String.eqb (PyStr.strip thought) EmptyString) eqn:H1.
  { unfold sequential_think, try_except. rewrite H1. by eexists _, _. }
  destruct (parse_branch_from branch_from) as [bf|] eqn:H2.
  - rewrite (think_eq _ _ _ _ _ _ bf) by done.
    destruct (_add_thought _ _ _ _ _ _ _ _) as [s' [d|e]]; [|by eexists _, _].
    rewrite format_thoughts_eq. by eexists _, _.
  - unfold sequential_think, try_except. rewrite H1, H2. by eexists _, _.
Qed.

Lemma rejected_raises w sid text bf op s e :
  rejected _embed (loaded s sid) text bf op e ->
  _add_thought _embed py_hash w sid text bf op s = (s, Raise e).
Proof.
  intros [Ht | Ht Hd | i Hb Hdup Hop -> Hi].
  - apply add_thought_over_tokens. by apply Z.gtb_lt, Z.gt_lt.
  - apply add_thought_at_depth.
    + destruct (Z.gtb_spec (current_tokens (loaded s sid) + _tokens text) MAX_TOKENS);
        [lia|done].
    + by apply Z.geb_le, Z.ge_le.
  - apply add_thought_bad_index; try done.
    unfold valid_index.
    destruct (Z.leb_spec 0 i), (Z.ltb_spec i (len (loaded s sid))); try done. lia.
Qed.

End Rejections.

(** C6: a mutation that is rejected (over the token budget, at the depth
    limit, or a revise or a branch from an index out of range) leaves
    the store, and so the persisted chain, as it was, and the entry
    point returns the failure as a result string carrying the message;
    it does not raise. *)
Theorem C6_rejection_is_atomic (_embed : option embed_model) (py_hash : string -> Z)
    (w : env) (thought sid branch_from op : string) (s : store)
    (bf : option Z) (e : exn) :
  String.eqb (PyStr.strip thought) EmptyString = false ->
  parse_branch_from branch_from = Some bf ->
  rejected _embed (loaded s sid) (PyStr.strip thought) bf op e ->
  _add_thought _embed py_hash w sid (PyStr.strip thought) bf op s = (s, Raise e) /\
  sequential_think _embed py_hash w thought sid branch_from op s
    = (s, Return ("Error in sequential thinking: " +:+ str_of_exn e)) /\
  loaded (fst (sequential_think _embed py_hash w thought sid branch_from op s)) sid
    = loaded s sid.
Proof.
  intros H1 H2 Hr.
  pose proof (rejected_raises _embed py_hash w sid _ bf op s e Hr) as Ha.
  rewrite (think_eq _ _ _ _ _ _ _ _ bf), Ha by done. done.
Qed.

Lemma C6_rejection_is_atomic_witness :
  let s := sample_store true "s1" [sample_thought 0 "one"] in
  sequential_think None sample_hash sample_env " two " "s1" "7" "revise" s
    = (s, Return "Error in sequential thinking: Invalid branch_from index").
Proof.
  intros s.
  assert (rejected None (loaded s "s1") (PyStr.strip " two ") (Some 7%Z) "revise"
            (IndexError "Invalid branch_from index")) as Hr.
  { apply (rejected_index _ _ _ _ _ 7%Z); [reflexivity|reflexivity|by left|reflexivity|].
    intros [_ H]. vm_compute in H. discriminate H. }
  exact (proj1 (proj2 (C6_rejection_is_atomic None sample_hash sample_env " two " "s1" "7"
                         "revise" s (Some 7%Z) _ eq_refl eq_refl Hr))).
Defined.

(** ** Revising and merging in place (C7, C10) *)

Section InPlace.

Lemma map_step_alter (f : thought -> thought) i l :
  (forall d, Thought.step (f d) = Thought.step d) ->
  map Thought.step (alter f i l) = map Thought.step l.
Proof.
  intros Hf. revert i. induction l as [|x r IH]; intros [|i]; simpl; try done.
  - by rewrite Hf.
  - f_equal. apply IH.
Qed.

Lemma step_sorted_alter (f : thought -> thought) i l :
  (forall d, Thought.step (f d) = Thought.step d) ->
  step_sorted l -> step_sorted (alter f i l).
Proof. intros Hf. rewrite !step_sorted_steps. by rewrite map_step_alter. Qed.

(** An in-place change that keeps the steps is read back as written. *)
Lemma loaded_saved_alter (f : thought -> thought) i s sid :
  (forall d, Thought.step (f d) = Thought.step d) ->
  loaded (saved s sid (alter f i (loaded s sid))) sid = alter f i (loaded s sid).
Proof.
  intros Hf. destruct (decide (loaded s sid = [])) as [E|Hne].
  - rewrite E, loaded_saved. cbn. by destruct (keeps s sid).
  - rewrite loaded_saved_from by done.
    apply sorted_by_step_id, step_sorted_alter; [done|apply loaded_sorted].
Qed.

Lemma valid_index_lt i l :
  valid_index i l = true -> (Z.to_nat i < length l)%nat.
Proof.
  unfold valid_index, len. intros [H1%Z.leb_le H2%Z.ltb_lt]%andb_true_iff. lia.
Qed.

End InPlace.

(** C7, as the specification has it, fails: under a model that finds the
    candidate identical to the last entry, a revise of entry 0 of a
    chain of two leaves entry 0 as it was and changes the text and the
    timestamp of entry 1; and on a chain at the depth limit a revise of
    entry 0 is rejected, so that no text is updated. *)
Lemma C7_counterexample :
  let before := [sample_thought 0 "a"; sample_thought 1 "b"] in
  let s := sample_store true "s1" before in
  let s' := fst (_add_thought (Some echo_model) sample_hash sample_env "s1" "b"
                   (Some 0%Z) "revise" s) in
  loaded s "s1" = before /\
  valid_index 0 (loaded s "s1") = true /\
  loaded s' "s1" !! 0%nat = Some (sample_thought 0 "a") /\
  loaded s' "s1" !! 1%nat =
    Some (Thought.mk 1 ("b" +:+ String "010" "[merged] b") 1000 "u" "0" (95 # 100) None) /\
  loaded s' "s1" !! 1%nat <> loaded s "s1" !! 1%nat /\
  let full := sample_store true "s1" full_chain in
  valid_index 0 (loaded full "s1") = true /\
  _add_thought None sample_hash sample_env "s1" "x" (Some 0%Z) "revise" full
    = (full, Raise (ValueError "Maximum depth reached")).
Proof. vm_compute. repeat split. discriminate. Qed.

(** C7, amended: for every revise with a valid existing index that
    passes the token and depth checks and is not taken by the
    deduplication as a merge into the last entry, only that entry's text
    and timestamp are updated in place; its step, id, fingerprint,
    confidence and parent are unchanged, every other entry of the chain
    is unchanged, and the chain's length is unchanged. *)
Theorem C7_revise_frame (_embed : option embed_model) (py_hash : string -> Z)
    (w : env) (sid text : string) (i : Z) (s : store) :
  within_budget (loaded s sid) text = true ->
  is_duplicate _embed (loaded s sid) text = false ->
  valid_index i (loaded s sid) = true ->
  let before := loaded s sid in
  let after :=
    loaded (fst (_add_thought _embed py_hash w sid text (Some i) "revise" s)) sid in
  length after = length before /\
  (forall j, j <> Z.to_nat i -> after !! j = before !! j) /\
  exists d d',
    before !! Z.to_nat i = Some d /\ after !! Z.to_nat i = Some d' /\
    Thought.text d' = text /\ Thought.timestamp d' = time2 w /\
    Thought.step d' = Thought.step d /\ Thought.uuid d' = Thought.uuid d /\
    Thought.semantic_id d' = Thought.semantic_id d /\
    Thought.confidence d' = Thought.confidence d /\
    Thought.parent d' = Thought.parent d.
Proof.
  intros Hb Hd Hi before after. subst after.
  rewrite add_thought_revise by done. cbn [fst].
  rewrite loaded_saved_alter by done. fold before.
  split; [apply length_alter|]. split.
  - intros j Hj. by apply list_lookup_alter_ne.
  - destruct (lookup_lt_is_Some_2 before (Z.to_nat i)) as [d Hd'];
      [by apply valid_index_lt|].
    exists d, (update_text_timestamp text (time2 w) d).
    rewrite list_lookup_alter_eq, Hd'. by repeat split.
Qed.

Lemma C7_revise_frame_witness :
  let before := [sample_thought 0 "a"; sample_thought 1 "b"] in
  let s := sample_store false "s1" before in
  let after :=
    loaded (fst (_add_thought (Some echo_model) sample_hash sample_env "s1" "c"
                   (Some 0%Z) "revise" s)) "s1" in
  length after = length (loaded s "s1") /\
  (forall j, j <> Z.to_nat 0 -> after !! j = loaded s "s1" !! j).
Proof.
  intros before s after.
  destruct (C7_revise_frame (Some echo_model) sample_hash sample_env "s1" "c" 0%Z s
              eq_refl eq_refl eq_refl) as (H1 & H2 & _).
  split; [exact H1|exact H2].
Defined.

(** C10, as stated, fails: the token and depth checks come before the
    deduplication.  With the chain at the depth limit, a model at hand,
    no marker in the candidate and a similarity of 1 to the last entry,
    a revise and a branch are rejected and nothing is merged. *)
Lemma C10_counterexample :
  let s := sample_store true "s1" full_chain in
  last (loaded s "s1") = Some (sample_thought 99 "t") /\
  is_contradiction "t" = false /\
  Qgtb (_similarity (Some echo_model) "t" "t") duplicate_threshold = true /\
  _add_thought (Some echo_model) sample_hash sample_env "s1" "t" (Some 0%Z) "revise" s
    = (s, Raise (ValueError "Maximum depth reached")) /\
  _add_thought (Some echo_model) sample_hash sample_env "s1" "t" (Some 0%Z) "branch" s
    = (s, Raise (ValueError "Maximum depth reached")) /\
  _add_thought (Some echo_model) sample_hash sample_env "s1" "t" None "append" s
    = (s, Raise (ValueError "Maximum depth reached")).
Proof. vm_compute. repeat split. Qed.

(** C10, amended: the deduplication runs after the token and depth
    checks and before the dispatch on the operation.  For every
    operation, revise and branch with a valid index included, if the
    call passes the two checks, the chain is not empty, a model is at
    hand, the candidate has no contradiction keyword and its similarity
    to the last entry exceeds 0.92, then the call merges the text into
    the last entry (a delimited addendum to its text, its timestamp
    refreshed, its other fields kept) and nothing else changes: no entry
    is revised, none is added, no parent is recorded. *)
Theorem C10_merge_before_dispatch (model : embed_model) (py_hash : string -> Z)
    (w : env) (sid text : string) (bf : option Z) (op : string) (s : store)
    (d : thought) :
  within_budget (loaded s sid) text = true ->
  last (loaded s sid) = Some d ->
  is_contradiction text = false ->
  Qgtb (_similarity (Some model) (Thought.text d) text) duplicate_threshold = true ->
  exists init d',
    loaded s sid = init ++ [d] /\
    _add_thought (Some model) py_hash w sid text bf op s
      = (saved s sid (init ++ [d']), Return d') /\
    loaded (saved s sid (init ++ [d'])) sid = init ++ [d'] /\
    Thought.text d' = Thought.text d +:+ String "010" "[merged] " +:+ text /\
    Thought.timestamp d' = time1 w /\
    Thought.parent d' = Thought.parent d /\
    Thought.step d' = Thought.step d /\ Thought.uuid d' = Thought.uuid d.
Proof.
  intros Hb Hl Hc Hs.
  destruct (proj1 (last_Some _ _) Hl) as [init Hinit].
  exists init, (merged_last w text d).
  assert (is_duplicate (Some model) (loaded s sid) text = true) as Hd.
  { unfold is_duplicate. rewrite Hl, Hc, Hs. by rewrite bool_decide_eq_true_2. }
  assert (alter (merged_last w text) (length (loaded s sid) - 1)%nat (loaded s sid)
          = init ++ [merged_last w text d]) as Ha.
  { rewrite Hinit, length_app. simpl.
    replace (length init + 1 - 1)%nat with (length init + 0)%nat by lia.
    by rewrite alter_app_r. }
  split; [done|]. split.
  - rewrite (add_thought_merge _ _ _ _ _ _ _ _ d) by done. by rewrite Ha.
  - split; [|done]. rewrite <- Ha. by apply loaded_saved_alter.
Qed.

Lemma C10_merge_before_dispatch_witness :
  let s := sample_store true "s1" [sample_thought 0 "a"; sample_thought 1 "b"] in
  exists init d',
    loaded s "s1" = init ++ [sample_thought 1 "b"] /\
    _add_thought (Some echo_model) sample_hash sample_env "s1" "b" (Some 0%Z) "branch" s
      = (saved s "s1" (init ++ [d']), Return d') /\
    loaded (saved s "s1" (init ++ [d'])) "s1" = init ++ [d'].
Proof.
  intros s.
  destruct (C10_merge_before_dispatch echo_model sample_hash sample_env "s1" "b"
              (Some 0%Z) "branch" s (sample_thought 1 "b")
              eq_refl eq_refl eq_refl eq_refl) as (init & d' & H1 & H2 & H3 & _).
  exists init, d'. split; [exact H1|]. split; [exact H2|exact H3].
Defined.

(** ** An absent index (C9) *)

Section AbsentIndex.

Variable _embed : option embed_model.
Variable py_hash : string -> Z.

(** With no index the operation is not looked at. *)
Lemma add_thought_no_index w sid text op s :
  _add_thought _embed py_hash w sid text None op s
  = _add_thought _embed py_hash w sid text None "append" s.
Proof.
  unfold _add_thought, bind. rewrite load_thoughts_eq. cbn beta iota.
  by rewrite (bool_decide_eq_true_2 (@None Z = None)), !orb_true_r.
Qed.

(** The message ["Unknown operation"] comes with an index only. *)
Lemma add_thought_unknown_operation w sid text bf op s s' e :
  _add_thought _embed py_hash w sid text bf op s = (s', Raise e) ->
  str_of_exn e = "Unknown operation" ->
  exists i, bf = Some i.
Proof.
  destruct bf as [i|]; [by exists i|]. intros Ha He. exfalso.
  rewrite add_thought_no_index in Ha.
  destruct (within_budget (loaded s sid) text) eqn:Hb.
  - destruct (is_duplicate _embed (loaded s sid) text) eqn:Hd.
    + destruct (last (loaded s sid)) as [d|] eqn:Hl.
      * by rewrite (add_thought_merge _ _ _ _ _ _ _ _ d) in Ha.
      * unfold is_duplicate in Hd. by rewrite Hl in Hd.
    + rewrite add_thought_append in Ha by (done || by left). done.
  - unfold within_budget in Hb.
    destruct (current_tokens (loaded s sid) + _tokens text >? MAX_TOKENS)%Z eqn:H1.
    + rewrite add_thought_over_tokens in Ha by done.
      injection Ha as _ <-. discriminate He.
    + destruct (len (loaded s sid) >=? MAX_DEPTH)%Z eqn:H2; [|done].
      rewrite add_thought_at_depth in Ha by done.
      injection Ha as _ <-. discriminate He.
Qed.

(** No line of a formatted chain starts with the letter E. *)
Lemma str_of_nat_head n :
  exists c r, PyStr.str_of_nat n = String c r /\ PyStr.isdigit c = true.
Proof.
  unfold PyStr.str_of_nat, NilZero.string_of_uint.
  destruct (Nat.to_uint n); simpl; eauto.
Qed.

Lemma format_02d_head z :
  exists c r, PyStr.format_02d z = String c r /\ c <> "E"%char /\ c <> " "%char.
Proof.
  unfold PyStr.format_02d. destruct (z <? 0)%Z; [by eexists _, _|].
  destruct (str_of_nat_head (Z.to_nat z)) as (c & r & -> & Hc).
  unfold PyStr.zfill. simpl String.length.
  destruct r as [|c' r]; simpl.
  - by eexists _, _.
  - exists c, (String c' r). repeat split; intros ->; discriminate Hc.
Qed.

Lemma format_line_head d :
  exists c r, format_line d = String c r /\ c <> "E"%char.
Proof.
  unfold format_line.
  destruct (format_02d_head (Thought.step d)) as (c & r & -> & Hc & _).
  match goal with |- context [PyStr.repeat _ ?n] => destruct n end; simpl.
  - destruct (Thought.parent d); by eexists _, _.
  - by eexists _, _.
Qed.

Lemma join_lines_head d l :
  exists c r, PyStr.join (String "010" EmptyString) (map format_line (d :: l))
              = String c r /\ c <> "E"%char.
Proof.
  destruct (format_line_head d) as (c & r & Hd & Hc). simpl. rewrite Hd.
  destruct (map format_line l); by eexists _, _.
Qed.

Lemma format_thoughts_not_error sid s s' msg :
  _format_thoughts sid s <> (s', Return ("Error in sequential thinking: " +:+ msg)).
Proof.
  rewrite format_thoughts_eq. destruct (loaded s sid) as [|d l]; [done|].
  destruct (join_lines_head d l) as (c & r & -> & Hc). intros [= _ ->]. done.
Qed.

End AbsentIndex.

(** A think that is let in, passes the two checks and is not merged,
    on a session one backend keeps: the chain has the new thought, and
    the answer is the chain. *)
Lemma think_appends (_embed : option embed_model) (py_hash : string -> Z)
    (w : env) (thought sid branch_from op : string) (bf : option Z) (s : store) :
  String.eqb (PyStr.strip thought) EmptyString = false ->
  parse_branch_from branch_from = Some bf ->
  op = "append" \/ bf = None ->
  within_budget (loaded s sid) (PyStr.strip thought) = true ->
  is_duplicate _embed (loaded s sid) (PyStr.strip thought) = false ->
  keeps s sid = true ->
  let d := new_thought _embed py_hash w (loaded s sid) (PyStr.strip thought) in
  let chain := sorted_by_step (loaded s sid ++ [d]) in
  sequential_think _embed py_hash w thought sid branch_from op s
  = (saved s sid (loaded s sid ++ [d]),
     Return (PyStr.join (String "010" EmptyString) (map format_line chain))) /\
  loaded (saved s sid (loaded s sid ++ [d])) sid = chain.
Proof.
  intros H1 H2 Hop Hb Hd Hk d chain.
  rewrite (think_eq _ _ _ _ _ _ _ _ bf), add_thought_append by done.
  rewrite format_thoughts_eq, !loaded_saved_kept by done. fold d chain.
  split; [|done]. destruct chain eqn:E; [|done].
  apply sorted_by_step_nil in E. by destruct (loaded s sid).
Qed.

(** C9: when [branch_from] is ["None"] the operation is not looked at:
    a think with any operation, known or not, does what it does with
    ["append"].  Within budget and with no merge, a new thought with no
    parent is made and the chain with that thought at its end is saved;
    on a session one backend keeps, the chain loaded next is that chain
    and the entry point answers with it.  The entry point reports
    ["Unknown operation"] only when [branch_from] has been parsed to an
    integer. *)
Theorem C9_absent_index_appends (_embed : option embed_model) (py_hash : string -> Z)
    (w : env) (thought sid op : string) (s : store) :
  sequential_think _embed py_hash w thought sid "None" op s
    = sequential_think _embed py_hash w thought sid "None" "append" s /\
  (forall text,
     within_budget (loaded s sid) text = true ->
     is_duplicate _embed (loaded s sid) text = false ->
     let d := new_thought _embed py_hash w (loaded s sid) text in
     let s' := fst (_add_thought _embed py_hash w sid text None op s) in
     _add_thought _embed py_hash w sid text None op s
       = (saved s sid (loaded s sid ++ [d]), Return d) /\
     Thought.parent d = None /\ Thought.text d = text /\
     Thought.step d = len (loaded s sid) /\
     loaded s' sid = (if keeps s sid then sorted_by_step (loaded s sid ++ [d]) else []) /\
     (keeps s sid = true -> numbered (loaded s sid) -> loaded s' sid = loaded s sid ++ [d])) /\
  (String.eqb (PyStr.strip thought) EmptyString = false ->
   within_budget (loaded s sid) (PyStr.strip thought) = true ->
   is_duplicate _embed (loaded s sid) (PyStr.strip thought) = false ->
   keeps s sid = true ->
   let d := new_thought _embed py_hash w (loaded s sid) (PyStr.strip thought) in
   let s' := fst (sequential_think _embed py_hash w thought sid "None" op s) in
   loaded s' sid = sorted_by_step (loaded s sid ++ [d]) /\
   In d (loaded s' sid) /\
   length (loaded s' sid) = S (length (loaded s sid)) /\
   snd (sequential_think _embed py_hash w thought sid "None" op s)
     = Return (PyStr.join (String "010" EmptyString) (map format_line (loaded s' sid)))) /\
  (forall branch_from s',
     sequential_think _embed py_hash w thought sid branch_from op s
       = (s', Return "Error in sequential thinking: Unknown operation") ->
     exists i, parse_branch_from branch_from = Some (Some i)).
Proof.
  split; [|split; [|split]].
  - unfold sequential_think, try_except, bind. cbn [parse_branch_from String.eqb].
    destruct (String.eqb (PyStr.strip thought) EmptyString); [done|].
    simpl. by rewrite add_thought_no_index.
  - intros text Hb Hd d s'. subst s'.
    rewrite (add_thought_append _embed py_hash w sid text s None op)
      by (done || by right).
    cbn [fst]. fold d. rewrite loaded_saved. repeat split.
    intros -> Hn. apply sorted_by_step_id, numbered_sorted, numbered_snoc; done.
  - intros H1 Hb Hd Hk d s'. subst s'.
    destruct (think_appends _embed py_hash w thought sid "None" op None s)
      as [-> Hl]; try done; [by right|].
    cbn [fst snd]. rewrite Hl. fold d. repeat split.
    + apply (Permutation_in _ (Permutation_sym (sorted_by_step_perm _))), in_app_iff.
      right. by left.
    + rewrite sorted_by_step_length, length_app. simpl. lia.
  - intros branch_from s'.
    destruct (String.eqb (PyStr.strip thought) EmptyString) eqn:H1.
    { unfold sequential_think, try_except. by rewrite H1. }
    destruct (parse_branch_from branch_from) as [bf|] eqn:H2.
    + rewrite (think_eq _ _ _ _ _ _ _ _ bf) by done.
      destruct (_add_thought _ _ _ _ _ _ _ _) as [s1 [d|e]] eqn:Ha.
      * intros H. by apply format_thoughts_not_error in H.
      * intros [= _ He].
        destruct (add_thought_unknown_operation _ _ _ _ _ _ _ _ _ _ Ha He) as [i ->].
        by exists i.
    + unfold sequential_think, try_except. by rewrite H1, H2.
Qed.

Lemma C9_absent_index_appends_witness :
  let s := sample_store true "s1" [sample_thought 0 "a"] in
  sequential_think None sample_hash sample_env "b" "s1" " 0 " "tidy" s
    = (s, Return "Error in sequential thinking: Unknown operation") /\
  sequential_think None sample_hash sample_env "b" "s1" "None" "tidy" s
    = sequential_think None sample_hash sample_env "b" "s1" "None" "append" s /\
  loaded (fst (sequential_think None sample_hash sample_env "b" "s1" "None" "tidy" s)) "s1"
    = [sample_thought 0 "a"; Thought.mk 1 "b" 1000 "uuid-0" "0" (95 # 100) None] /\
  exists i, parse_branch_from " 0 " = Some (Some i).
Proof.
  intros s.
  assert (sequential_think None sample_hash sample_env "b" "s1" " 0 " "tidy" s
          = (s, Return "Error in sequential thinking: Unknown operation")) as H
    by reflexivity.
  split; [exact H|].
  destruct (C9_absent_index_appends None sample_hash sample_env "b" "s1" "tidy" s)
    as (H1 & _ & H3 & H2).
  split; [exact H1|]. split; [|exact (H2 " 0 " s H)].
  exact (proj1 (H3 eq_refl eq_refl eq_refl eq_refl)).
Defined.

(** ** The file, written and read back (C8) *)

Section FileRoundTrip.

Import JsonLines.

Lemma string_app_assoc (a b c : string) : (a +:+ b) +:+ c = a +:+ (b +:+ c).
Proof.
  induction a as [|x a IH]; [done|].
  change (String x ((a +:+ b) +:+ c) = String x (a +:+ b +:+ c)). by f_equal.
Qed.




Lemma append_cons c (r t : string) : String c r +:+ t = String c (r +:+ t).
Proof. reflexivity. Qed.

Lemma rstrip_cons c r :
  PyStr.rstrip (String c r) =
  match PyStr.rstrip r with
  | EmptyString => if PyStr.isspace c then EmptyString else String c EmptyString
  | String c' r' => String c (String c' r')
  end.
Proof. reflexivity. Qed.





End FileRoundTrip.


(** ** The codec reads back what it writes *)

Section CodecRoundTrip.

Import Json.






(** *** Numbers *)






(** *** Strings *)






(** *** Floats *)



(** *** A thought *)


(** *** One object on one line *)












End CodecRoundTrip.





(** * More of the engine *)

(** ** What a call leaves in the store *)

Section Outcomes.

Variable _embed : option embed_model.
Variable py_hash : string -> Z.

(** A call either raises and leaves the store as it was, or passes the
    two checks and saves one mutation of the chain it loaded. *)
Lemma add_thought_outcome w sid text bf op s :
  (exists e, _add_thought _embed py_hash w sid text bf op s = (s, Raise e)) \/
  (within_budget (loaded s sid) text = true /\
   exists l' d,
     mutated _embed py_hash w text (loaded s sid) l' /\
     _add_thought _embed py_hash w sid text bf op s = (saved s sid l', Return d)).
Proof.
  destruct (within_budget (loaded s sid) text) eqn:Hb.
  2:{ left. by apply add_thought_over_budget. }
  destruct (is_duplicate _embed (loaded s sid) text) eqn:Hd.
  { right. split; [done|].
    destruct (last (loaded s sid)) as [d|] eqn:Hl.
    - eexists _, _. split; [|by apply add_thought_merge].
      apply mutated_merge; [|done]. intros E. by rewrite E in Hl.
    - unfold is_duplicate in Hd. by rewrite Hl in Hd. }
  destruct (decide (op = "append" \/ bf = None)) as [Ha|Hn].
  { right. split; [done|]. eexists _, _.
    split; [|by apply add_thought_append]. by apply mutated_append. }
  destruct bf as [i|]; [|exfalso; apply Hn; by right].
  destruct (decide (op = "revise")) as [->|Hr].
  { destruct (valid_index i (loaded s sid)) eqn:Hi.
    - right. split; [done|]. eexists _, _.
      split; [|by apply add_thought_revise]. by apply mutated_revise.
    - left. eexists. apply add_thought_bad_index; auto. }
  destruct (decide (op = "branch")) as [->|Hbr].
  { destruct (valid_index i (loaded s sid)) eqn:Hi.
    - right. split; [done|]. eexists _, _.
      split; [|by apply add_thought_branch]. by apply mutated_branch.
    - left. eexists. apply add_thought_bad_index; auto. }
  left. exists (ValueError "Unknown operation").
  apply within_budget_true in Hb as [H1 H2].
  unfold _add_thought, bind. rewrite load_thoughts_eq. cbn beta iota.
  rewrite H1, H2, Hd.
  assert (String.eqb op "append" = false) as ->.
  { apply String.eqb_neq. intros ->. apply Hn. by left. }
  cbn. by rewrite (proj2 (String.eqb_neq _ _) Hr), (proj2 (String.eqb_neq _ _) Hbr).
Qed.

End Outcomes.

Section Effects.

Variable _embed : option embed_model.
Variable py_hash : string -> Z.

Lemma primary_chain_saved s sid l :
  primary_chain (saved s sid l) sid = if primary_in_use s then sorted_by_step l else [].
Proof.
  rewrite saved_unfold. unfold primary_chain, primary_in_use. cbn [mongo truth_test].
  destruct (mongo s) as [docs|]; [|done]. destruct (truth_test s); [|done].
  by rewrite lookup_insert_eq.
Qed.

Lemma primary_chain_saved_ne s sid sid' l :
  sid <> sid' -> primary_chain (saved s sid l) sid' = primary_chain s sid'.
Proof.
  intros Hne. rewrite saved_unfold. unfold primary_chain. cbn [mongo truth_test].
  destruct (mongo s) as [docs|]; [|done]. destruct (truth_test s); [|done].
  by rewrite lookup_insert_ne.
Qed.

(** The file chain of a session after a save on another: the saved
    chain when the two sessions name one file, else what it was. *)
Lemma file_chain_saved s sid sid' l :
  (same_file s sid sid' /\ file_chain (saved s sid l) sid' = sorted_by_step l) \/
  (~ same_file s sid sid' /\ file_chain (saved s sid l) sid' = file_chain s sid').
Proof.
  rewrite saved_unfold. unfold file_chain, same_file. cbn [place_of files].
  destruct (place_of s sid) as [p| |e] eqn:E; [|right..].
  - destruct (place_of s sid') as [p'| |e'] eqn:E'; [|right..].
    + destruct (decide (p = p')) as [<-|Hne].
      * left. split; [by exists p|]. by rewrite lookup_insert_eq.
      * right. split; [|by rewrite lookup_insert_ne].
        intros (q & [= <-] & [= <-]). done.
    + split; [|done]. by intros (q & _ & ?).
    + split; [|done]. by intros (q & _ & ?).
  - split; [|done]. by intros (q & ? & _).
  - split; [|done]. by intros (q & ? & _).
Qed.

(** A save on one session is seen from another only through a file
    they share, and only when the primary store gives nothing for the
    other. *)
Lemma loaded_saved_other s sid sid' l :
  sid <> sid' ->
  loaded (saved s sid l) sid' = loaded s sid' \/
  (same_file s sid sid' /\ loaded (saved s sid l) sid' = sorted_by_step l).
Proof.
  intros Hne. rewrite !loaded_unfold, primary_chain_saved_ne by done.
  destruct (primary_chain s sid'); [|by left].
  destruct (file_chain_saved s sid sid' l) as [[H ->]|[_ ->]]; [by right|by left].
Qed.

Lemma loaded_saved_apart s sid sid' l :
  sid <> sid' -> ~ same_file s sid sid' ->
  loaded (saved s sid l) sid' = loaded s sid'.
Proof.
  intros Hne Hf. by destruct (loaded_saved_other s sid sid' l Hne) as [?|[? _]].
Qed.

(** The store a think leaves is the store its [_add_thought] leaves, if
    it got that far. *)
Lemma think_store w thought sid branch_from op s :
  fst (sequential_think _embed py_hash w thought sid branch_from op s) = s \/
  exists bf,
    fst (sequential_think _embed py_hash w thought sid branch_from op s)
    = fst (_add_thought _embed py_hash w sid (PyStr.strip thought) bf op s).
Proof.
  destruct (String.eqb (PyStr.strip thought) EmptyString) eqn:H1.
  { left. unfold sequential_think, try_except. by rewrite H1. }
  destruct (parse_branch_from branch_from) as [bf|] eqn:H2.
  - right. exists bf. rewrite (think_eq _ _ _ _ _ _ _ _ bf) by done.
    destruct (_add_thought _ _ _ _ _ _ _ _) as [s' [d|e]]; [|done].
    by rewrite format_thoughts_eq.
  - left. unfold sequential_think, try_except. by rewrite H1, H2.
Qed.

(** The store a public call leaves: the one it found, one save on the
    session of the call, or the one it found less the file of that
    session. *)
Lemma run_call_store c s :
  run_call _embed py_hash c s = s \/
  (exists w text l',
     within_budget (loaded s (call_session c)) text = true /\
     mutated _embed py_hash w text (loaded s (call_session c)) l' /\
     run_call _embed py_hash c s = saved s (call_session c) l') \/
  (exists path,
     place_of s (call_session c) = At path /\
     run_call _embed py_hash c s = with_files (delete path (files s)) s).
Proof.
  destruct c as [w thought sid branch_from op|sid [|]]; cbn [run_call call_session].
  - destruct (think_store w thought sid branch_from op s) as [->|[bf ->]]; [by left|].
    destruct (add_thought_outcome _embed py_hash w sid (PyStr.strip thought) bf op s)
      as [[e ->]|(Hb & l' & d & Hm & ->)]; [by left|].
    right. left. by exists w, (PyStr.strip thought), l'.
  - rewrite review_clear_eq.
    destruct (place_of s sid) as [path| |e] eqn:E; [|by left..].
    right. right. by exists path.
  - left. unfold sequential_review, try_except. by rewrite format_thoughts_eq.
Qed.

(** No call changes the driver, the places of the files, or whether
    there is a collection. *)
Lemma run_call_fixed c s :
  let s' := run_call _embed py_hash c s in
  place_of s' = place_of s /\ truth_test s' = truth_test s /\
  primary_in_use s' = primary_in_use s.
Proof.
  destruct (run_call_store c s) as [->|[(w & text & l' & _ & _ & ->)|(path & _ & ->)]];
    cbn zeta; [done| |done].
  destruct (saved_places s (call_session c) l') as [-> ->].
  by rewrite primary_in_use_saved.
Qed.

Lemma run_calls_fixed calls s :
  let s' := run_calls _embed py_hash calls s in
  place_of s' = place_of s /\ truth_test s' = truth_test s /\
  primary_in_use s' = primary_in_use s.
Proof.
  unfold run_calls. revert s. induction calls as [|c calls IH]; intros s; [done|].
  cbn [foldl]. destruct (IH (run_call _embed py_hash c s)) as (-> & -> & ->).
  apply run_call_fixed.
Qed.

Lemma same_file_fixed s s' a b :
  place_of s' = place_of s -> same_file s' a b <-> same_file s a b.
Proof. unfold same_file. by intros ->. Qed.

(** What one public call does to the chain of a session: nothing, or it
    empties it, or it replaces it by a mutation, which passed the two
    checks, of the chain of the session of the call; that session is
    the session itself or one that names the same file. *)
Lemma call_effect c s sid :
  let s' := run_call _embed py_hash c s in
  loaded s' sid = loaded s sid \/
  loaded s' sid = [] \/
  exists w text l',
    (call_session c = sid \/ same_file s (call_session c) sid) /\
    within_budget (loaded s (call_session c)) text = true /\
    mutated _embed py_hash w text (loaded s (call_session c)) l' /\
    loaded s' sid = sorted_by_step l'.
Proof.
  cbn zeta.
  destruct (run_call_store c s) as [->|[(w & text & l' & Hb & Hm & ->)|(path & Hp & ->)]];
    [by left| |].
  - destruct (decide (call_session c = sid)) as [E|Hne].
    + rewrite <- E, loaded_saved. destruct (keeps s (call_session c)); [|by right; left].
      right. right. exists w, text, l'. split; [by left|]. by repeat split.
    + destruct (loaded_saved_other s (call_session c) sid l' Hne) as [->|[Hf ->]];
        [by left|].
      right. right. exists w, text, l'. split; [by right|]. by repeat split.
  - rewrite !loaded_unfold.
    assert (primary_chain (with_files (delete path (files s)) s) sid = primary_chain s sid)
      as -> by done.
    destruct (primary_chain s sid); [|by left].
    unfold file_chain. cbn [place_of files with_files].
    destruct (place_of s sid) as [p| |e]; [|by left..].
    destruct (decide (path = p)) as [->|Hne].
    + rewrite lookup_delete_eq. by right; left.
    + rewrite lookup_delete_ne by done. by left.
Qed.

(** A property of chains that holds of the empty chain and is kept by
    every mutation that passed the two checks holds of the chain of a
    session after any sequence of public calls, if it held before of
    that chain and of the chains of the session ids that name the same
    file. *)
Lemma run_calls_invariant (P : list thought -> Prop) :
  P [] ->
  (forall w text l l',
     P l -> within_budget l text = true ->
     mutated _embed py_hash w text l l' -> P (sorted_by_step l')) ->
  forall calls s sid,
    (forall sid', sid' = sid \/ same_file s sid' sid -> P (loaded s sid')) ->
    P (loaded (run_calls _embed py_hash calls s) sid).
Proof.
  intros Hnil Hmut calls. unfold run_calls.
  induction calls as [|c calls IH]; intros s sid HP; cbn [foldl]; [apply HP; by left|].
  apply IH. intros sid' Hs'.
  assert (sid' = sid \/ same_file s sid' sid) as Hs.
  { destruct Hs' as [->|Hs']; [by left|right].
    by apply (same_file_fixed s _ _ _ (proj1 (run_call_fixed c s))). }
  destruct (call_effect c s sid') as [->|[->|(w & text & l' & Hc & Hb & Hm & ->)]];
    [by apply HP|done|].
  apply (Hmut w text (loaded s (call_session c))); [|done|done].
  apply HP. destruct Hc as [->|(p & H1 & H2)]; [done|].
  destruct Hs as [->|(q & H3 & H4)]; right; [by exists p|].
  rewrite H2 in H3. injection H3 as <-. by exists p.
Qed.

(** A property that holds of the empty chain and of whatever is saved
    by a call that passed the two checks holds of the chain of a session
    after any sequence of public calls, if it held before. *)
Lemma run_calls_bound (P : list thought -> Prop) :
  P [] ->
  (forall w text l l',
     within_budget l text = true ->
     mutated _embed py_hash w text l l' -> P (sorted_by_step l')) ->
  forall calls s sid,
    P (loaded s sid) -> P (loaded (run_calls _embed py_hash calls s) sid).
Proof.
  intros Hnil Hmut calls. unfold run_calls.
  induction calls as [|c calls IH]; intros s sid HP; cbn [foldl]; [done|].
  apply IH.
  destruct (call_effect c s sid) as [->|[->|(w & text & l' & _ & Hb & Hm & ->)]]; eauto.
Qed.

End Effects.

(** ** Invariants of the chain *)

Section Invariants.

Variable _embed : option embed_model.
Variable py_hash : string -> Z.

Lemma numbered_alter (f : thought -> thought) i l :
  (forall d, Thought.step (f d) = Thought.step d) ->
  numbered l -> numbered (alter f i l).
Proof.
  unfold numbered. intros Hf Hl. by rewrite map_step_alter, length_alter.
Qed.

Lemma mutated_numbered w text l l' :
  numbered l -> mutated _embed py_hash w text l l' -> numbered l'.
Proof.
  intros Hl [Hne Hd|Hd|i Hd Hi|i Hd Hi].
  - by apply numbered_alter.
  - by apply numbered_snoc.
  - by apply numbered_alter.
  - by apply numbered_snoc.
Qed.

Lemma mutated_length w text l l' :
  mutated _embed py_hash w text l l' ->
  length l' = length l \/ length l' = S (length l).
Proof.
  intros [Hne Hd|Hd|i Hd Hi|i Hd Hi]; rewrite ?length_alter, ?length_app; simpl; lia.
Qed.

Lemma mutated_not_nil w text l l' :
  mutated _embed py_hash w text l l' -> l' <> [].
Proof.
  intros [Hne Hd|Hd|i Hd Hi|i Hd Hi] E; apply (f_equal length) in E;
    rewrite ?length_alter, ?length_app in E; simpl in E; try lia.
  - destruct l; [done|simpl in E; lia].
  - apply valid_index_lt in Hi. lia.
Qed.

End Invariants.

Lemma loaded_empty_store up sid : loaded (empty_store up) sid = [].
Proof.
  rewrite loaded_unfold. unfold primary_chain, file_chain, empty_store.
  cbn [mongo truth_test place_of files].
  destruct up; rewrite ?lookup_empty; destruct (flat_directory sid); by rewrite ?lookup_empty.
Qed.

(** A chain can come to a session through the file it shares with
    another session id: here the chain of ["./s1"], whose steps are not
    its positions, becomes the chain of ["s1"]. *)
Example steps_across_a_shared_file :
  let s := mk_store (Some {["./s1" := [sample_thought 5 "elsewhere"]]}) true
             flat_directory ∅ in
  let s' := run_calls None sample_hash [Think sample_env "x" "./s1" "None" "append"] s in
  place_of s "./s1" = At "s1.jsonl" /\ place_of s "s1" = At "s1.jsonl" /\
  loaded s "s1" = [] /\
  map Thought.step (loaded s' "s1") = [1; 5]%Z.
Proof. vm_compute. repeat split. Qed.

(** X1: whatever the public calls made, in whatever order and on
    whatever sessions, the steps of a chain stay the positions of its
    entries, 0, 1, 2 and so on: a merge and a revise keep the steps, an
    append and a branch number the new entry by the length of the chain.
    The chains of the session ids that name the same file count with
    the chain of the session: they are to be numbered at the start as
    well. *)
Theorem X1_steps_are_positions (_embed : option embed_model) (py_hash : string -> Z)
    (calls : list api_call) (s : store) (sid : string) :
  (forall sid', sid' = sid \/ same_file s sid' sid -> numbered (loaded s sid')) ->
  numbered (loaded (run_calls _embed py_hash calls s) sid).
Proof.
  apply (run_calls_invariant _embed py_hash numbered); [done|].
  intros w text l l' Hl _ Hm.
  pose proof (mutated_numbered _ _ _ _ _ _ Hl Hm) as Hl'.
  by rewrite (sorted_by_step_id _ (numbered_sorted _ Hl')).
Qed.

Lemma X1_steps_are_positions_witness :
  (forall sid', sid' = "s1" \/ same_file (empty_store true) sid' "s1" ->
     numbered (loaded (empty_store true) sid')) /\
  map Thought.step
    (loaded (run_calls (Some echo_model) sample_hash sample_calls (empty_store true)) "s1")
  = [0; 1]%Z.
Proof.
  assert (forall sid', sid' = "s1" \/ same_file (empty_store true) sid' "s1" ->
            numbered (loaded (empty_store true) sid')) as H.
  { intros sid' _. rewrite loaded_empty_store. reflexivity. }
  split; [exact H|].
  exact (X1_steps_are_positions (Some echo_model) sample_hash sample_calls
           (empty_store true) "s1" H).
Defined.

(** X2: no sequence of public calls takes a chain beyond 100 entries. *)
Theorem X2_depth_is_kept (_embed : option embed_model) (py_hash : string -> Z)
    (calls : list api_call) (s : store) (sid : string) :
  (len (loaded s sid) <= MAX_DEPTH)%Z ->
  (len (loaded (run_calls _embed py_hash calls s) sid) <= MAX_DEPTH)%Z.
Proof.
  apply (run_calls_bound _embed py_hash (fun l => (len l <= MAX_DEPTH)%Z)); [done|].
  intros w text l l' [_ Hd]%within_budget_true Hm. unfold len in *.
  rewrite sorted_by_step_length.
  destruct (Z.geb_spec (Z.of_nat (length l)) MAX_DEPTH); [done|].
  destruct (mutated_length _ _ _ _ _ _ Hm) as [-> | ->]; lia.
Qed.

Lemma X2_depth_is_kept_witness :
  let s := sample_store true "s1" full_chain in
  (len (loaded (run_calls None sample_hash sample_calls s) "s1") <= MAX_DEPTH)%Z.
Proof.
  intros s.
  assert (len (loaded s "s1") <= MAX_DEPTH)%Z as H by (vm_compute; discriminate).
  exact (X2_depth_is_kept None sample_hash sample_calls s "s1" H).
Defined.

(** ** Tokens *)

Section Tokens.

Lemma flush_acc cur acc : PyStr.flush cur acc = PyStr.flush cur [] ++ acc.
Proof. by destruct cur. Qed.

(** Splitting goes through a whitespace character. *)
Lemma split_aux_space a c b : forall cur,
  PyStr.isspace c = true ->
  PyStr.split_aux (a +:+ String c b) cur
  = PyStr.split_aux a cur ++ PyStr.split_aux b [].
Proof.
  induction a as [|x a IH]; intros cur Hc.
  - change (EmptyString +:+ String c b) with (String c b).
    cbn [PyStr.split_aux]. by rewrite Hc, flush_acc.
  - rewrite append_cons. cbn [PyStr.split_aux]. destruct (PyStr.isspace x).
    + rewrite IH by done. rewrite (flush_acc cur (PyStr.split_aux a [])).
      by rewrite flush_acc, app_assoc.
    + by apply IH.
Qed.

Lemma tokens_space a c b :
  PyStr.isspace c = true ->
  _tokens (a +:+ String c b) = (_tokens a + _tokens b)%Z.
Proof.
  intros Hc. unfold _tokens, PyStr.split.
  rewrite split_aux_space, length_app by done. lia.
Qed.

(** The text of a merged entry counts the tokens of the old text, those
    of the candidate, and one more for the tag. *)
Lemma tokens_merged old text :
  _tokens (old +:+ String "010" "[merged] " +:+ text)
  = (_tokens old + 1 + _tokens text)%Z.
Proof.
  rewrite append_cons, tokens_space by done.
  change ("[merged] " +:+ text) with ("[merged]" +:+ String " " text).
  rewrite tokens_space by done. change (_tokens "[merged]") with 1%Z. lia.
Qed.

Lemma current_tokens_cons d l :
  current_tokens (d :: l) = (_tokens (Thought.text d) + current_tokens l)%Z.
Proof. reflexivity. Qed.

Lemma current_tokens_perm l l' :
  Permutation l l' -> current_tokens l = current_tokens l'.
Proof.
  induction 1 as [|x l l' _ IH|x y l|l l' l'' _ IH1 _ IH2];
    rewrite ?current_tokens_cons; lia.
Qed.

Lemma current_tokens_nonneg l : (0 <= current_tokens l)%Z.
Proof.
  induction l as [|d l IH]; [done|]. rewrite current_tokens_cons.
  pose proof (tokens_nonneg (Thought.text d)). lia.
Qed.

(** An in-place change of one entry moves the count by the difference
    of that entry's tokens. *)
Lemma current_tokens_alter (f : thought -> thought) i l d :
  l !! i = Some d ->
  current_tokens (alter f i l)
  = (current_tokens l - _tokens (Thought.text d) + _tokens (Thought.text (f d)))%Z.
Proof.
  revert i. induction l as [|x l IH]; intros [|i] Hi; simplify_eq/=.
  - rewrite !current_tokens_cons. lia.
  - change (list_alter f i l) with (alter f i l).
    rewrite !current_tokens_cons, (IH i) by done. lia.
Qed.

End Tokens.

Section TokenBudget.

Variable _embed : option embed_model.
Variable py_hash : string -> Z.

Lemma last_lookup_Some (l : list thought) :
  l <> [] -> exists d, l !! (length l - 1)%nat = Some d.
Proof.
  intros Hne. apply lookup_lt_is_Some_2. destruct l; [done|simpl; lia].
Qed.

Lemma merged_tokens w text l :
  l <> [] ->
  current_tokens (alter (merged_last w text) (length l - 1)%nat l)
  = (current_tokens l + _tokens text + 1)%Z.
Proof.
  intros [d Hd]%last_lookup_Some.
  rewrite (current_tokens_alter _ _ _ d) by done.
  unfold merged_last, merge_into. cbn [Thought.text].
  rewrite tokens_merged. lia.
Qed.

Lemma mutated_tokens w text l l' :
  within_budget l text = true ->
  mutated _embed py_hash w text l l' ->
  (current_tokens l' <= MAX_TOKENS + 1)%Z.
Proof.
  intros [Ht _]%within_budget_true Hm.
  assert (current_tokens l + _tokens text <= MAX_TOKENS)%Z as Hle.
  { destruct (Z.gtb_spec (current_tokens l + _tokens text) MAX_TOKENS); [done|lia]. }
  destruct Hm as [Hne Hd|Hd|i Hd Hi|i Hd Hi].
  - rewrite merged_tokens by done. lia.
  - rewrite current_tokens_snoc. cbn [new_thought Thought.text]. lia.
  - destruct (lookup_lt_is_Some_2 l (Z.to_nat i)) as [d Hl]; [by apply valid_index_lt|].
    rewrite (current_tokens_alter _ _ _ d) by done. cbn [update_text_timestamp Thought.text].
    pose proof (tokens_nonneg (Thought.text d)). lia.
  - rewrite current_tokens_snoc. cbn [set_parent new_thought Thought.text]. lia.
Qed.

End TokenBudget.

(** X3: no sequence of public calls takes the tokens of a chain beyond
    the budget by more than one: a chain of at most 50001 tokens stays
    one. *)
Theorem X3_tokens_are_kept (_embed : option embed_model) (py_hash : string -> Z)
    (calls : list api_call) (s : store) (sid : string) :
  (current_tokens (loaded s sid) <= MAX_TOKENS + 1)%Z ->
  (current_tokens (loaded (run_calls _embed py_hash calls s) sid) <= MAX_TOKENS + 1)%Z.
Proof.
  apply (run_calls_bound _embed py_hash
           (fun l => (current_tokens l <= MAX_TOKENS + 1)%Z)); [done|].
  intros w text l l' Hb Hm.
  rewrite (current_tokens_perm _ _ (sorted_by_step_perm l')).
  by eapply mutated_tokens.
Qed.

Lemma X3_tokens_are_kept_witness :
  (current_tokens
     (loaded (run_calls (Some echo_model) sample_hash sample_calls (empty_store false)) "s1")
   <= MAX_TOKENS + 1)%Z.
Proof.
  assert (current_tokens (loaded (empty_store false) "s1") <= MAX_TOKENS + 1)%Z as H
    by (vm_compute; discriminate).
  exact (X3_tokens_are_kept (Some echo_model) sample_hash sample_calls
           (empty_store false) "s1" H).
Defined.

(** X4: a call that merges adds to the chain the tokens of the candidate
    and one more, the tag of the merge, which the budget check did not
    count; so a chain whose tokens and the candidate's make 50000 ends
    with 50001. *)
Theorem X4_merge_counts_one_more (_embed : option embed_model) (py_hash : string -> Z)
    (w : env) (sid text : string) (bf : option Z) (op : string) (s : store) :
  within_budget (loaded s sid) text = true ->
  is_duplicate _embed (loaded s sid) text = true ->
  current_tokens (loaded (fst (_add_thought _embed py_hash w sid text bf op s)) sid)
  = (current_tokens (loaded s sid) + _tokens text + 1)%Z.
Proof.
  intros Hb Hd.
  destruct (last (loaded s sid)) as [d|] eqn:Hl.
  2:{ unfold is_duplicate in Hd. by rewrite Hl in Hd. }
  assert (loaded s sid <> []) as Hne by (intros E; by rewrite E in Hl).
  rewrite (add_thought_merge _ _ _ _ _ _ _ _ d) by done. cbn [fst].
  rewrite loaded_saved_from, (current_tokens_perm _ _ (sorted_by_step_perm _)) by done.
  by apply merged_tokens.
Qed.

Lemma X4_merge_counts_one_more_witness :
  let s := sample_store true "s1" long_chain in
  current_tokens (loaded s "s1") = 49999%Z /\
  current_tokens
    (loaded (fst (_add_thought (Some close_model) sample_hash sample_env "s1" "b"
                    None "append" s)) "s1")
  = (current_tokens (loaded s "s1") + _tokens "b" + 1)%Z.
Proof.
  intros s.
  assert (within_budget (loaded s "s1") "b" = true) as H1 by (vm_compute; reflexivity).
  assert (is_duplicate (Some close_model) (loaded s "s1") "b" = true) as H2
    by (vm_compute; reflexivity).
  split; [vm_compute; reflexivity|].
  exact (X4_merge_counts_one_more (Some close_model) sample_hash sample_env "s1" "b"
           None "append" s H1 H2).
Defined.

(** ** Parents and branches *)

Section Parents.

Variable _embed : option embed_model.
Variable py_hash : string -> Z.

Lemma parents_ok_alter (f : thought -> thought) i l :
  (forall d, Thought.parent (f d) = Thought.parent d) ->
  parents_ok l -> parents_ok (alter f i l).
Proof.
  intros Hf Hl j d p Hj Hp.
  destruct (decide (i = j)) as [->|Hne].
  - rewrite list_lookup_alter_eq in Hj.
    destruct (l !! j) as [d0|] eqn:E; simplify_eq/=.
    rewrite Hf in Hp. by apply (Hl j d0).
  - rewrite list_lookup_alter_ne in Hj by done. by apply (Hl j d).
Qed.

Lemma parents_ok_snoc l d :
  parents_ok l ->
  (forall p, Thought.parent d = Some p -> (0 <= p < len l)%Z) ->
  parents_ok (l ++ [d]).
Proof.
  intros Hl Hd j d' p Hj Hp.
  apply lookup_app_Some in Hj as [Hj|[Hge Hj]]; [by apply (Hl j d')|].
  apply list_lookup_singleton_Some in Hj as [Hj <-].
  specialize (Hd p Hp). unfold len in Hd. lia.
Qed.

Lemma mutated_parents_ok w text l l' :
  parents_ok l -> mutated _embed py_hash w text l l' -> parents_ok l'.
Proof.
  intros Hl [Hne Hd|Hd|i Hd Hi|i Hd Hi].
  - by apply parents_ok_alter.
  - apply parents_ok_snoc; [done|]. by intros p [=].
  - by apply parents_ok_alter.
  - apply parents_ok_snoc; [done|]. intros p [= <-].
    unfold valid_index in Hi. apply andb_true_iff in Hi as [H1%Z.leb_le H2%Z.ltb_lt].
    lia.
Qed.

End Parents.

(** X5: whatever the public calls made, every parent recorded in a
    chain is the position, and so the step, of an entry that comes
    earlier in the chain.  As for the steps, the chains of the session
    ids that name the same file count with the chain of the session. *)
Theorem X5_parents_come_earlier (_embed : option embed_model) (py_hash : string -> Z)
    (calls : list api_call) (s : store) (sid : string) :
  (forall sid', sid' = sid \/ same_file s sid' sid ->
     numbered (loaded s sid') /\ parents_ok (loaded s sid')) ->
  let l := loaded (run_calls _embed py_hash calls s) sid in
  parents_ok l /\
  forall i d p,
    l !! i = Some d -> Thought.parent d = Some p ->
    exists d0, l !! Z.to_nat p = Some d0 /\ Thought.step d0 = p /\
               (Thought.step d0 < Thought.step d)%Z.
Proof.
  intros H l.
  assert (numbered l /\ parents_ok l) as [Hn Hp].
  { subst l. revert H.
    apply (run_calls_invariant _embed py_hash (fun l => numbered l /\ parents_ok l)).
    - split; [done|]. by intros i d p Hi.
    - intros w text k k' [Hn Hp] _ Hm.
      pose proof (mutated_numbered _ _ _ _ _ _ Hn Hm) as Hn'.
      rewrite (sorted_by_step_id _ (numbered_sorted _ Hn')).
      split; [done|]. by eapply mutated_parents_ok. }
  split; [done|]. intros i d p Hi Hd.
  destruct (Hp i d p Hi Hd) as [H0 Hlt].
  assert (forall j e, l !! j = Some e -> Thought.step e = Z.of_nat j) as Hstep.
  { intros j e Hj.
    assert (map Thought.step l !! j = Some (Thought.step e)) as Hs
      by by rewrite list_lookup_fmap, Hj.
    rewrite Hn, list_lookup_fmap, lookup_seq_lt in Hs
      by (apply lookup_lt_Some in Hj; lia).
    by injection Hs as <-. }
  assert (Z.to_nat p < length l)%nat as Hlen
    by (apply lookup_lt_Some in Hi; lia).
  destruct (lookup_lt_is_Some_2 l (Z.to_nat p) Hlen) as [d0 Hd0].
  exists d0. split; [done|].
  rewrite (Hstep _ _ Hd0), (Hstep _ _ Hi). lia.
Qed.

Lemma X5_parents_come_earlier_witness :
  let l := loaded (run_calls (Some echo_model) sample_hash sample_calls
                     (empty_store true)) "s1" in
  map Thought.parent l = [None; Some 0%Z] /\ parents_ok l.
Proof.
  intros l. split; [reflexivity|].
  refine (proj1 (X5_parents_come_earlier (Some echo_model) sample_hash sample_calls
                   (empty_store true) "s1" _)).
  intros sid' _. rewrite loaded_empty_store. split; [reflexivity|]. by intros i d p Hi.
Defined.

(** X6: a branch from a valid index that passes the two checks and is
    not merged adds one entry to the chain: its parent is the index, its
    text the candidate, its step the length the chain had; the entries
    that were there are kept, the parent among them. *)
Theorem X6_branch_adds_child (_embed : option embed_model) (py_hash : string -> Z)
    (w : env) (sid text : string) (i : Z) (s : store) :
  within_budget (loaded s sid) text = true ->
  is_duplicate _embed (loaded s sid) text = false ->
  valid_index i (loaded s sid) = true ->
  let before := loaded s sid in
  let after :=
    loaded (fst (_add_thought _embed py_hash w sid text (Some i) "branch" s)) sid in
  exists d,
    snd (_add_thought _embed py_hash w sid text (Some i) "branch" s) = Return d /\
    Thought.parent d = Some i /\ Thought.text d = text /\
    Thought.step d = len before /\ Thought.timestamp d = time1 w /\
    Thought.uuid d = uuid4 w /\
    Permutation after (before ++ [d]) /\
    (numbered before -> after = before ++ [d] /\ is_Some (before !! Z.to_nat i)).
Proof.
  intros Hb Hd Hi before after. subst after.
  rewrite add_thought_branch by done. cbn [fst snd]. fold before.
  assert (before <> []) as Hne.
  { apply valid_index_lt in Hi. intros E. subst before. rewrite E in Hi.
    simpl in Hi. lia. }
  eexists. split; [done|]. repeat split.
  - rewrite loaded_saved_from by done. apply sorted_by_step_perm.
  - rewrite loaded_saved_from by done.
    apply sorted_by_step_id, numbered_sorted, numbered_snoc; done.
  - apply lookup_lt_is_Some_2. by apply valid_index_lt.
Qed.

Lemma X6_branch_adds_child_witness :
  let s := sample_store true "s1" [sample_thought 0 "a"; sample_thought 1 "b"] in
  exists d,
    snd (_add_thought None sample_hash sample_env "s1" "c" (Some 0%Z) "branch" s)
      = Return d /\
    Thought.parent d = Some 0%Z /\ Thought.text d = "c" /\ Thought.step d = 2%Z.
Proof.
  intros s.
  destruct (X6_branch_adds_child None sample_hash sample_env "s1" "c" 0%Z s
              eq_refl eq_refl eq_refl) as (d & H1 & H2 & H3 & H4 & _).
  exists d. split; [exact H1|]. split; [exact H2|]. split; [exact H3|exact H4].
Defined.

(** ** Sessions *)

Section Isolation.

Variable _embed : option embed_model.
Variable py_hash : string -> Z.

(** What the chain of a session is loaded from. *)
Lemma loaded_backends s s' sid :
  place_of s' = place_of s -> truth_test s' = truth_test s ->
  primary_doc s' sid = primary_doc s sid ->
  (forall path, place_of s sid = At path -> files s' !! path = files s !! path) ->
  loaded s' sid = loaded s sid.
Proof.
  intros Hp Ht Hd Hf. rewrite !loaded_unfold.
  unfold primary_chain, file_chain, primary_doc in *. rewrite Hp, Ht.
  assert (match place_of s sid with
          | At path => match files s' !! path with
                       | Some l => sorted_by_step l
                       | None => []
                       end
          | Nowhere | Refused _ => []
          end = match place_of s sid with
                | At path => match files s !! path with
                             | Some l => sorted_by_step l
                             | None => []
                             end
                | Nowhere | Refused _ => []
                end) as ->.
  { destruct (place_of s sid) as [path| |e]; [|done..]. by rewrite (Hf path). }
  destruct (mongo s') as [c'|], (mongo s) as [c|]; try discriminate Hd; [|done].
  injection Hd as ->. done.
Qed.

Lemma run_call_other c s sid :
  call_session c <> sid -> ~ same_file s (call_session c) sid ->
  let s' := run_call _embed py_hash c s in
  (forall path, place_of s sid = At path -> files s' !! path = files s !! path) /\
  primary_doc s' sid = primary_doc s sid.
Proof.
  intros Hne Hf. cbn zeta.
  destruct (run_call_store _embed py_hash c s)
    as [->|[(w & text & l' & _ & _ & ->)|(path0 & Hp0 & ->)]]; [done| |].
  - rewrite saved_unfold. unfold primary_doc. cbn [mongo files]. split.
    + intros path Hp. destruct (place_of s (call_session c)) as [p0| |e] eqn:E; [|done..].
      apply lookup_insert_ne. intros ->. apply Hf. by exists path.
    + destruct (mongo s) as [docs|]; [|done]. destruct (truth_test s); [|done].
      by rewrite lookup_insert_ne.
  - unfold primary_doc. cbn [mongo files with_files]. split; [|done].
    intros path Hp. apply lookup_delete_ne. intros ->. apply Hf. by exists path.
Qed.

End Isolation.

(** X7: sessions are isolated as far as their files are: a sequence of
    public calls none of which is on a given session, or on a session
    id that names the same file, leaves that session's file, its
    document in the primary store and the chain loaded for it as they
    were.  (A call on a session id that names the same file does change
    the chain: see [steps_across_a_shared_file].) *)
Theorem X7_sessions_are_isolated (_embed : option embed_model) (py_hash : string -> Z)
    (calls : list api_call) (s : store) (sid : string) :
  Forall (fun c => call_session c <> sid /\ ~ same_file s (call_session c) sid) calls ->
  let s' := run_calls _embed py_hash calls s in
  (forall path, place_of s sid = At path -> files s' !! path = files s !! path) /\
  primary_doc s' sid = primary_doc s sid /\
  loaded s' sid = loaded s sid.
Proof.
  intros H s'. subst s'.
  assert ((forall path, place_of s sid = At path ->
             files (run_calls _embed py_hash calls s) !! path = files s !! path) /\
          primary_doc (run_calls _embed py_hash calls s) sid = primary_doc s sid)
    as [H1 H2].
  { revert s H. unfold run_calls. induction calls as [|c calls IH]; intros s H; [done|].
    apply Forall_cons in H as [[Hc Hf] H]. cbn [foldl].
    destruct (run_call_fixed _embed py_hash c s) as (Hp & _ & _).
    destruct (run_call_other _embed py_hash c s sid Hc Hf) as [H1 H2].
    destruct (IH (run_call _embed py_hash c s)) as [H3 H4].
    { eapply Forall_impl; [exact H|]. intros c' [? Hf']. split; [done|].
      by rewrite (same_file_fixed s _ _ _ Hp). }
    split; [|by rewrite H4].
    intros path Hpath. rewrite H3 by by rewrite Hp. by apply H1. }
  split; [done|]. split; [done|].
  destruct (run_calls_fixed _embed py_hash calls s) as (Hp & Ht & _).
  by apply loaded_backends.
Qed.

Lemma X7_sessions_are_isolated_witness :
  let calls := [Think sample_env "one" "s1" "None" "append";
                Review "s3" true;
                Think sample_env "two" "a/s2" "None" "append"] in
  let s := sample_store true "s2" [sample_thought 0 "kept"] in
  Forall (fun c => call_session c <> "s2" /\ ~ same_file s (call_session c) "s2") calls /\
  loaded (run_calls None sample_hash calls s) "s2" = [sample_thought 0 "kept"].
Proof.
  intros calls s.
  assert (Forall (fun c => call_session c <> "s2" /\ ~ same_file s (call_session c) "s2")
            calls) as H.
  { repeat constructor; try discriminate; intros (p & Hp & Hq); vm_compute in Hp, Hq;
      congruence. }
  split; [exact H|].
  exact (proj2 (proj2 (X7_sessions_are_isolated None sample_hash calls s "s2" H))).
Defined.

(** ** What the entry points return *)

(** A line of a formatted chain starts with a digit, a minus sign or a
    space. *)
Lemma format_line_first d :
  exists c r, format_line d = String c r /\
              (PyStr.isdigit c = true \/ c = "-"%char \/ c = " "%char).
Proof.
  unfold format_line.
  assert (exists c r, PyStr.format_02d (Thought.step d) = String c r /\
                      (PyStr.isdigit c = true \/ c = "-"%char)) as (c & r & -> & Hc).
  { unfold PyStr.format_02d. destruct (Thought.step d <? 0)%Z; [by eexists _, _; eauto|].
    destruct (str_of_nat_head (Z.to_nat (Thought.step d))) as (c & r & -> & Hc).
    unfold PyStr.zfill. simpl String.length.
    destruct r as [|c' r]; simpl; eexists _, _; eauto. }
  match goal with |- context [PyStr.repeat _ ?n] => destruct n end; simpl.
  - destruct (Thought.parent d); eexists _, _; split; try done; tauto.
  - eexists _, _. split; [done|]. by right; right.
Qed.

Lemma formatted_not_sentinel d l :
  String.eqb (PyStr.join (String "010" EmptyString) (map format_line (d :: l)))
    "No thoughts recorded yet." = false.
Proof.
  destruct (format_line_first d) as (c & r & Hd & Hc). simpl. rewrite Hd.
  assert (Ascii.eqb c "N" = false) as Hn.
  { apply Ascii.eqb_neq. intros ->. by destruct Hc as [?|[?|?]]. }
  destruct (map format_line l); simpl; by rewrite Hn.
Qed.

(** A save on a session no backend keeps leaves the store as it was. *)
Lemma saved_not_kept s sid l : keeps s sid = false -> saved s sid l = s.
Proof.
  rewrite saved_unfold. unfold keeps, primary_in_use, file_of.
  destruct s as [[docs|] [|] places fs]; cbn [mongo truth_test place_of files];
    destruct (places sid) eqn:E; try done; intros H; cbn in H; try done.
  all: exfalso; apply bool_decide_eq_false in H; apply H; by eexists.
Qed.

(** What a save leaves in each backend. *)
Lemma saved_backends s sid l :
  primary_doc (saved s sid l) sid
    = (if primary_in_use s then Some (Some l) else primary_doc s sid) /\
  (forall path, place_of s sid = At path -> files (saved s sid l) !! path = Some l) /\
  (file_of s sid = None -> files (saved s sid l) = files s).
Proof.
  rewrite saved_unfold. unfold primary_doc, primary_in_use, file_of.
  cbn [mongo truth_test place_of files]. repeat split.
  - destruct (mongo s) as [docs|]; [|done]. destruct (truth_test s); [|done].
    by rewrite lookup_insert_eq.
  - intros path ->. by rewrite lookup_insert_eq.
  - by destruct (place_of s sid).
Qed.

(** X8: a think never raises.  Either it leaves the store as it was and
    answers with one of its three kinds of message; or it was accepted
    and has saved a chain, which is not empty.  Then, on a session one
    backend keeps, the chain loaded next is that chain and the answer is
    its lines, never the sentinel of the empty chain; on a session no
    backend keeps, the store is as it was, nothing is loaded, and the
    answer is the sentinel, although the thought was accepted. *)
Theorem X8_think_answers (_embed : option embed_model) (py_hash : string -> Z)
    (w : env) (thought sid branch_from op : string) (s : store) :
  exists s' out,
    sequential_think _embed py_hash w thought sid branch_from op s = (s', Return out) /\
    ((s' = s /\
      (out = "Please provide a non-empty thought." \/
       out = "Invalid branch_from value. Use integer or 'None'." \/
       exists e, out = "Error in sequential thinking: " +:+ str_of_exn e)) \/
     (exists text l',
        within_budget (loaded s sid) text = true /\
        mutated _embed py_hash w text (loaded s sid) l' /\
        l' <> [] /\ s' = saved s sid l' /\
        if keeps s sid then
          loaded s' sid = sorted_by_step l' /\
          out = PyStr.join (String "010" EmptyString) (map format_line (loaded s' sid)) /\
          String.eqb out "No thoughts recorded yet." = false
        else
          s' = s /\ loaded s' sid = [] /\ out = "No thoughts recorded yet.")).
Proof.
  destruct (String.eqb (PyStr.strip thought) EmptyString) eqn:H1.
  { unfold sequential_think, try_except. rewrite H1.
    eexists _, _. split; [done|]. left. split; [done|]. by left. }
  destruct (parse_branch_from branch_from) as [bf|] eqn:H2.
  2:{ unfold sequential_think, try_except. rewrite H1, H2.
      eexists _, _. split; [done|]. left. split; [done|]. right. by left. }
  rewrite (think_eq _ _ _ _ _ _ _ _ bf) by done.
  destruct (add_thought_outcome _embed py_hash w sid (PyStr.strip thought) bf op s)
    as [[e ->]|(Hb & l' & d & Hm & ->)].
  - eexists _, _. split; [done|]. left. split; [done|]. right. right. by exists e.
  - rewrite format_thoughts_eq. eexists _, _. split; [done|]. right.
    exists (PyStr.strip thought), l'.
    pose proof (mutated_not_nil _ _ _ _ _ _ Hm) as Hne.
    split; [done|]. split; [done|]. split; [done|]. split; [done|].
    rewrite loaded_saved. destruct (keeps s sid) eqn:Hk.
    + destruct (sorted_by_step l') as [|x r] eqn:E.
      { by apply sorted_by_step_nil in E. }
      split; [done|]. split; [done|]. apply formatted_not_sentinel.
    + by rewrite saved_not_kept.
Qed.

(** X9: a review that does not clear leaves the store as it was and
    answers with the chain, or with the sentinel when there is none.  A
    clear unlinks the file of the session and answers with the
    confirmation, whether or not there was a file; when the system
    refuses the name of the file, it answers with the error of the
    unlinking and changes nothing.  After a clear the session has no
    file chain, and clearing twice leaves what clearing once leaves. *)
Theorem X9_review_reads_clear_repeats (sid : string) (s : store) :
  let s' := fst (sequential_review sid true s) in
  sequential_review sid false s
    = (s, Return match loaded s sid with
                 | [] => "No thoughts recorded yet."
                 | l => PyStr.join (String "010" EmptyString) (map format_line l)
                 end) /\
  snd (sequential_review sid true s)
    = Return match place_of s sid with
             | At _ | Nowhere => "Session '" +:+ sid +:+ "' cleared."
             | Refused e => "Error reviewing session: " +:+ str_of_exn e
             end /\
  (forall path, place_of s sid = At path ->
     s' = with_files (delete path (files s)) s /\ files s' !! path = None) /\
  (file_of s sid = None -> s' = s) /\
  file_chain s' sid = [] /\
  sequential_review sid true s' = sequential_review sid true s.
Proof.
  cbn zeta. split.
  { unfold sequential_review, try_except. by rewrite format_thoughts_eq. }
  destruct (review_clear_store sid s) as (_ & _ & Hp & Hf & _).
  rewrite (review_clear_eq sid (fst (sequential_review sid true s))), Hp.
  rewrite !review_clear_eq. unfold file_of.
  destruct (place_of s sid) as [path| |e] eqn:E; cbn [fst snd files with_files].
  - split; [done|]. split; [intros ? [= <-]; by rewrite lookup_delete_eq|].
    split; [done|]. split; [|by rewrite delete_delete_eq].
    unfold file_chain. cbn [place_of files with_files]. by rewrite E, lookup_delete_eq.
  - repeat split; try done. unfold file_chain. by rewrite E.
  - repeat split; try done. unfold file_chain. by rewrite E.
Qed.

(** What a review answers for a session id whose file name the system
    refuses or cannot place, in the sample file system. *)
Example review_of_a_refused_name :
  let long := PyStr.repeat "a" 300 in
  let s := empty_store false in
  snd (sequential_review long true s)
    = Return ("Error reviewing session: [Errno 36] File name too long: 'sequential_memory/"
              +:+ long +:+ ".jsonl'") /\
  snd (sequential_review (String "000" "x") true s)
    = Return "Error reviewing session: embedded null byte" /\
  snd (sequential_review "a/b" true s) = Return "Session 'a/b' cleared." /\
  snd (sequential_think None sample_hash sample_env "x" long "None" "append" s)
    = Return "No thoughts recorded yet.".
Proof. vm_compute. repeat split. Qed.

(** X10: a think writes to each backend on its own.  Either it leaves
    the store as it was, or it saves a chain, which is not empty: the
    primary store holds it if it is in use and is as it was if not; the
    file of the session holds it if a file can be opened for the
    session, and the files are as they were if not.  The chain loaded
    next is the saved chain in step order when one backend at least
    took it, and the empty chain when none did. *)
Theorem X10_think_writes_each_backend (_embed : option embed_model)
    (py_hash : string -> Z) (w : env) (thought sid branch_from op : string) (s : store) :
  let s' := fst (sequential_think _embed py_hash w thought sid branch_from op s) in
  s' = s \/
  exists l',
    l' <> [] /\
    primary_doc s' sid = (if primary_in_use s then Some (Some l') else primary_doc s sid) /\
    (forall path, place_of s sid = At path -> files s' !! path = Some l') /\
    (file_of s sid = None -> files s' = files s) /\
    loaded s' sid = (if keeps s sid then sorted_by_step l' else []).
Proof.
  cbn zeta.
  destruct (think_store _embed py_hash w thought sid branch_from op s) as [->|[bf ->]];
    [by left|].
  destruct (add_thought_outcome _embed py_hash w sid (PyStr.strip thought) bf op s)
    as [[e ->]|(Hb & l' & d & Hm & ->)]; [by left|].
  right. exists l'. cbn [fst]. split; [by eapply mutated_not_nil|].
  destruct (saved_backends s sid l') as (H1 & H2 & H3).
  split; [done|]. split; [done|]. split; [done|]. apply loaded_saved.
Qed.

(** The two backends each on its own: with a primary store in use and a
    session id for which no file can be opened, a think writes the
    document and no file; with no primary store and a file that can be
    opened, it writes the file only. *)
Example think_writes_one_backend :
  let primary_only :=
    fst (sequential_think None sample_hash sample_env "x" "a/b" "None" "append"
           (empty_store true)) in
  let file_only :=
    fst (sequential_think None sample_hash sample_env "x" "s1" "None" "append"
           (empty_store false)) in
  primary_doc primary_only "a/b"
    = Some (Some [Thought.mk 0 "x" 1000 "uuid-0" "0" (95 # 100) None]) /\
  files primary_only = ∅ /\
  primary_doc file_only "s1" = None /\
  files file_only !! "s1.jsonl"
    = Some [Thought.mk 0 "x" 1000 "uuid-0" "0" (95 # 100) None].
Proof. vm_compute. repeat split. Qed.

(** ** The word overlap as a measure *)

Section Overlap.

Lemma similarity_words a b :
  _similarity None a b =
  if bool_decide (words a = ∅) || bool_decide (words b = ∅) then 0%Q
  else Z.of_nat (size (words a ∩ words b)) # Pos.of_nat (size (words a ∪ words b)).
Proof. reflexivity. Qed.

Lemma size_union_pos (A B : gset string) : A <> ∅ -> (0 < size (A ∪ B))%nat.
Proof.
  intros HA. destruct (size (A ∪ B)) eqn:E; [|lia].
  apply size_empty_iff, empty_union in E as [E _]. exfalso. apply HA.
  by apply leibniz_equiv.
Qed.

Lemma inter_subseteq_union (A B : gset string) : A ∩ B ⊆ A ∪ B.
Proof. etrans; [apply intersection_subseteq_l|apply union_subseteq_l]. Qed.

Lemma Zpos_of_nat (d : nat) : (0 < d)%nat -> Z.pos (Pos.of_nat d) = Z.of_nat d.
Proof. intros Hd. rewrite <- positive_nat_Z, Nat2Pos.id by lia. done. Qed.

Lemma similarity_range a b :
  (0 <= _similarity None a b)%Q /\ (_similarity None a b <= 1)%Q.
Proof.
  rewrite similarity_words.
  destruct (bool_decide (words a = ∅)) eqn:Ha; [done|].
  destruct (bool_decide (words b = ∅)) eqn:Hb; [done|].
  apply bool_decide_eq_false in Ha. cbn [orb].
  pose proof (size_union_pos (words a) (words b) Ha) as Hpos.
  assert (size (words a ∩ words b) <= size (words a ∪ words b))%nat as Hle
    by apply subseteq_size, inter_subseteq_union.
  unfold Qle. cbn [Qnum Qden]. rewrite Zpos_of_nat by done. lia.
Qed.

Lemma similarity_sym a b : _similarity None a b = _similarity None b a.
Proof.
  rewrite !similarity_words.
  rewrite (orb_comm (bool_decide (words a = ∅))).
  by rewrite (comm_L (∩) (words a)), (comm_L (∪) (words a)).
Qed.

Lemma similarity_one a b :
  (_similarity None a b == 1)%Q <-> words a = words b /\ words a <> ∅.
Proof.
  rewrite similarity_words. split.
  - destruct (bool_decide (words a = ∅)) eqn:Ha; [done|].
    destruct (bool_decide (words b = ∅)) eqn:Hb; [done|].
    apply bool_decide_eq_false in Ha. cbn [orb].
    pose proof (size_union_pos (words a) (words b) Ha) as Hpos.
    unfold Qeq. cbn [Qnum Qden]. rewrite Zpos_of_nat by done. intros Hsz.
    assert (words a ∩ words b = words a ∪ words b) as E
      by (apply set_subseteq_size_eq; [apply inter_subseteq_union|lia]).
    split; [|done]. apply set_eq. intros x.
    pose proof (elem_of_intersection (words a) (words b) x) as Hi.
    pose proof (elem_of_union (words a) (words b) x) as Hu.
    rewrite E in Hi. tauto.
  - intros [E Ha]. rewrite <- E, (bool_decide_eq_false_2 _ Ha). cbn [orb].
    pose proof (size_union_pos (words a) (words a) Ha) as Hpos.
    unfold Qeq. cbn [Qnum Qden]. rewrite Zpos_of_nat by done.
    rewrite (idemp_L (∩) (words a)), (idemp_L (∪) (words a)). lia.
Qed.

End Overlap.

(** X11: with no model, the similarity of two texts does not depend on
    their order and lies between 0 and 1. *)
Theorem X11_overlap_is_symmetric_and_bounded (a b : string) :
  _similarity None a b = _similarity None b a /\
  (0 <= _similarity None a b)%Q /\ (_similarity None a b <= 1)%Q.
Proof. split; [apply similarity_sym|apply similarity_range]. Qed.

(** X12: with no model, the similarity of two texts is 1 exactly when
    they have the same set of lowercased words and that set is not
    empty; case, spacing, the order of the words and their repetition
    do not count. *)
Theorem X12_overlap_is_one_on_same_words (a b : string) :
  ((_similarity None a b == 1)%Q <-> words a = words b /\ words a <> ∅) /\
  (_similarity None "The  cat the DOG" "dog cat THE" == 1)%Q.
Proof. split; [apply similarity_one|reflexivity]. Qed.

(** ** Tokens and blank thoughts *)

Section Blank.

Lemma split_lstrip s : PyStr.split_aux (PyStr.lstrip s) [] = PyStr.split_aux s [].
Proof.
  induction s as [|c r IH]; [done|]. cbn [PyStr.lstrip PyStr.split_aux].
  destruct (PyStr.isspace c) eqn:Hc; [done|]. cbn [PyStr.split_aux]. by rewrite Hc.
Qed.

Lemma split_rstrip s : forall cur,
  PyStr.split_aux (PyStr.rstrip s) cur = PyStr.split_aux s cur.
Proof.
  induction s as [|c r IH]; intros cur; [done|].
  rewrite rstrip_cons. cbn [PyStr.split_aux].
  destruct (PyStr.rstrip r) as [|c' r'] eqn:E.
  - destruct (PyStr.isspace c) eqn:Hc.
    + by rewrite <- IH.
    + cbn [PyStr.split_aux]. by rewrite Hc, <- IH.
  - cbn [PyStr.split_aux]. destruct (PyStr.isspace c); by rewrite <- IH.
Qed.

Lemma split_strip s : PyStr.split (PyStr.strip s) = PyStr.split s.
Proof. unfold PyStr.split, PyStr.strip. by rewrite split_rstrip, split_lstrip. Qed.

Lemma split_aux_nil s : forall cur,
  PyStr.split_aux s cur = [] -> cur = [] /\ PyStr.lstrip s = EmptyString.
Proof.
  induction s as [|c r IH]; intros cur; cbn [PyStr.split_aux PyStr.lstrip].
  - by destruct cur.
  - destruct (PyStr.isspace c).
    + destruct cur; [|done]. intros H. by destruct (IH _ H).
    + intros H. by destruct (IH _ H).
Qed.

End Blank.

(** X13: stripping a text does not change its tokens, and a text has no
    token exactly when it is blank, that is when the entry point refuses
    it; so a thought that is let in counts for one token at least. *)
Theorem X13_blank_means_no_token (s : string) :
  _tokens (PyStr.strip s) = _tokens s /\
  (_tokens s = 0%Z <-> PyStr.strip s = EmptyString) /\
  (String.eqb (PyStr.strip s) EmptyString = false -> (1 <= _tokens (PyStr.strip s))%Z).
Proof.
  assert (_tokens (PyStr.strip s) = _tokens s) as Hs
    by (unfold _tokens; by rewrite split_strip).
  assert (_tokens s = 0%Z <-> PyStr.strip s = EmptyString) as Hz.
  { split.
    - unfold _tokens, PyStr.split. intros H.
      destruct (PyStr.split_aux s []) eqn:E; [|done].
      apply split_aux_nil in E as [_ E]. unfold PyStr.strip. by rewrite E.
    - intros E. by rewrite <- Hs, E. }
  split; [done|]. split; [done|].
  intros Hne%String.eqb_neq. rewrite Hs.
  pose proof (tokens_nonneg s). destruct (decide (_tokens s = 0%Z)) as [H0|]; [|lia].
  by apply Hz in H0.
Qed.

(** ** The fingerprint and the lines of the formatter *)

Section Lines.

Lemma length_substring_0 n s : (String.length (String.substring 0 n s) <= n)%nat.
Proof.
  revert s. induction n as [|n IH]; intros [|c s]; simpl; try lia.
  specialize (IH s). lia.
Qed.

Lemma plain_app a b : plain (a +:+ b) = plain a && plain b.
Proof.
  induction a as [|c a IH]; [done|]. rewrite append_cons. cbn [plain].
  by rewrite IH, andb_assoc.
Qed.

Lemma plain_uint u : plain (NilEmpty.string_of_uint u) = true.
Proof. induction u; simpl; by rewrite ?IHu. Qed.

Lemma plain_str_of_nat n : plain (PyStr.str_of_nat n) = true.
Proof.
  unfold PyStr.str_of_nat, NilZero.string_of_uint.
  destruct (Nat.to_uint n) eqn:E; try done; rewrite <- E; apply plain_uint.
Qed.

Lemma plain_str_of_int z : plain (PyStr.str_of_int z) = true.
Proof.
  unfold PyStr.str_of_int. destruct (z <? 0)%Z; [|apply plain_str_of_nat].
  rewrite plain_app. by rewrite plain_str_of_nat.
Qed.

Lemma plain_repeat_0 n : plain (PyStr.repeat "0" n) = true.
Proof. induction n as [|n IH]; [done|]. cbn [PyStr.repeat]. by rewrite plain_app, IH. Qed.

Lemma plain_format_02d z : plain (PyStr.format_02d z) = true.
Proof.
  unfold PyStr.format_02d, PyStr.zfill.
  destruct (z <? 0)%Z; rewrite ?plain_app, ?plain_repeat_0, ?plain_str_of_nat; done.
Qed.

(** The arrow does not occur in a string of ASCII characters, and a
    count goes through such a string. *)
Lemma count_plain_app a t :
  plain a = true ->
  PyStr.count_aux arrow (a +:+ t) 0 = PyStr.count_aux arrow t 0.
Proof.
  induction a as [|c a IH]; [done|]. rewrite append_cons. cbn [plain].
  intros [Hc Ha]%andb_true_iff. cbn [PyStr.count_aux].
  assert (String.prefix arrow (String c (a +:+ t)) = false) as ->.
  { unfold arrow. cbn [String.prefix].
    destruct (ascii_dec "226" c) as [<-|]; [done|done]. }
  by apply IH.
Qed.

Lemma count_plain a : plain a = true -> PyStr.count a arrow = 0%nat.
Proof.
  intros Ha. unfold PyStr.count.
  replace a with (a +:+ EmptyString) by (induction a as [|c a IH]; [done|];
    rewrite append_cons; f_equal; apply IH; cbn [plain] in Ha;
    by apply andb_true_iff in Ha as [_ ?]).
  by rewrite count_plain_app.
Qed.

Lemma count_arrow_head t :
  PyStr.count_aux arrow (arrow +:+ t) 0 = S (PyStr.count_aux arrow t 0).
Proof. by destruct t. Qed.

Lemma count_arrow_then_plain a b :
  plain a = true -> plain b = true ->
  PyStr.count (a +:+ arrow +:+ b) arrow = 1%nat.
Proof.
  intros Ha Hb. unfold PyStr.count.
  rewrite count_plain_app, count_arrow_head by done.
  f_equal. by apply (count_plain b).
Qed.

End Lines.

(** X14: a fingerprint has 16 characters at most, whether it comes from
    the model or, the model missing or failing, from the hash. *)
Theorem X14_fingerprint_is_short (_embed : option embed_model) (py_hash : string -> Z)
    (w : env) (thoughts : list thought) (text : string) :
  (String.length (_semantic_hash _embed py_hash text) <= 16)%nat /\
  (String.length (Thought.semantic_id (new_thought _embed py_hash w thoughts text))
   <= 16)%nat.
Proof.
  assert (String.length (_semantic_hash _embed py_hash text) <= 16)%nat as H.
  { unfold _semantic_hash. destruct _embed as [m|]; [|apply length_substring_0].
    destruct (sign_bits_hex m text); apply length_substring_0. }
  by split.
Qed.

(** X15: the line of an entry with no parent is its step, a colon and
    its text; the line of an entry with a parent is two spaces, its
    step, an arrow, the parent, a colon and its text: the indentation
    never goes beyond one level.  A step from 0 to 99 is written with
    two digits. *)
Theorem X15_line_shape (d : thought) :
  format_line d =
    match Thought.parent d with
    | None => PyStr.format_02d (Thought.step d) +:+ ": " +:+ Thought.text d
    | Some p =>
        "  " +:+ PyStr.format_02d (Thought.step d) +:+ arrow +:+ PyStr.str_of_int p
        +:+ ": " +:+ Thought.text d
    end /\
  ((0 <= Thought.step d < 100)%Z ->
   String.length (PyStr.format_02d (Thought.step d)) = 2%nat).
Proof.
  split.
  - unfold format_line. destruct (Thought.parent d) as [p|].
    + rewrite count_arrow_then_plain
        by (apply plain_format_02d || apply plain_str_of_int).
      change (PyStr.repeat "  " 1) with "  ".
      by rewrite !string_app_assoc.
    + by rewrite count_plain by apply plain_format_02d.
  - intros [H0 H1].
    assert (forallb (fun n => (String.length (PyStr.format_02d (Z.of_nat n)) =? 2)%nat)
              (seq 0 100) = true) as H by (vm_compute; reflexivity).
    rewrite forallb_forall in H.
    specialize (H (Z.to_nat (Thought.step d))).
    rewrite Z2Nat.id in H by done. apply Nat.eqb_eq, H, in_seq. lia.
Qed.

(** * The manager of the primary store *)

Section Manager.

Lemma get_all_sessions_eq s :
  get_all_sessions s =
  (s, Return match mongo s with
             | Some docs => elements (dom docs)
             | None => []
             end).
Proof.
  unfold get_all_sessions, SequentialThinkingManager.get_collection, try_except, bind,
    get, ret.
  by destruct (mongo s).
Qed.

Lemma delete_session_eq sid s :
  delete_session sid s =
  match mongo s with
  | Some docs => (with_mongo (delete sid docs) s, Return (bool_decide (is_Some (docs !! sid))))
  | None => (s, Return false)
  end.
Proof.
  unfold delete_session, SequentialThinkingManager.get_collection, try_except, bind,
    get, put, ret.
  by destruct (mongo s).
Qed.

End Manager.

(** X16: when the primary store is in use (there is a collection and
    the driver lets it be truth-tested), what the manager saves for a
    session is what it loads next, in step order, and the session is
    then listed.  When it is not in use, a save changes nothing and a
    load gives no thought; yet as soon as there is a collection
    [get_all_sessions], which compares it with [None], lists its
    sessions, in use or not. *)
Theorem X16_manager_round_trip (sid : string) (l : list thought) (s : store) :
  let s' := fst (SequentialThinkingManager.save_thoughts sid l s) in
  (primary_in_use s = true ->
   snd (SequentialThinkingManager.load_thoughts sid s') = Return (sorted_by_step l) /\
   exists ids, snd (get_all_sessions s') = Return ids /\ sid ∈ ids) /\
  (primary_in_use s = false ->
   s' = s /\ snd (SequentialThinkingManager.load_thoughts sid s) = Return []) /\
  (mongo s = None -> snd (get_all_sessions s) = Return []) /\
  (forall docs, mongo s = Some docs ->
     snd (get_all_sessions s) = Return (elements (dom docs))).
Proof.
  cbn zeta. rewrite manager_save_eq, !manager_load_eq, !get_all_sessions_eq.
  unfold primary_in_use, primary_chain.
  destruct s as [[docs|] [|] places fs];
    cbn [fst snd mongo truth_test with_mongo place_of files].
  - split; [|split; [done|]; split; [done|by intros ? [= <-]]].
    intros _. rewrite lookup_insert_eq. split; [done|]. eexists. split; [done|].
    apply elem_of_elements, elem_of_dom. rewrite lookup_insert_eq. by eexists.
  - split; [done|]. split; [done|]. split; [done|]. by intros ? [= <-].
  - split; [done|]. split; [done|]. split; [done|]. by intros ? [=].
  - split; [done|]. split; [done|]. split; [done|]. by intros ? [=].
Qed.

(** A store reached through a driver that refuses the truth test: the
    manager saves nothing and loads nothing, and still lists and
    deletes. *)
Example manager_under_a_strict_driver :
  let s := strict_driver (sample_store true "s1" [sample_thought 0 "a"]) in
  fst (SequentialThinkingManager.save_thoughts "s1" [sample_thought 0 "b"] s) = s /\
  snd (SequentialThinkingManager.load_thoughts "s1" s) = Return [] /\
  snd (get_all_sessions s) = Return ["s1"] /\
  snd (delete_session "s1" s) = Return true /\
  primary_doc (fst (delete_session "s1" s)) "s1" = Some None.
Proof. vm_compute. repeat split. Qed.

(** X17: deleting a session in the primary store answers whether there
    was a collection with a document for it, whether or not the driver
    lets the collection be truth-tested; afterwards the manager loads no
    thought for it and does not list it, and the documents of the other
    sessions and every file are as they were. *)
Theorem X17_delete_session (sid : string) (s : store) :
  let s' := fst (delete_session sid s) in
  (snd (delete_session sid s) = Return true <->
   exists l, primary_doc s sid = Some (Some l)) /\
  snd (SequentialThinkingManager.load_thoughts sid s') = Return [] /\
  (forall ids, snd (get_all_sessions s') = Return ids -> sid ∉ ids) /\
  files s' = files s /\ place_of s' = place_of s /\ truth_test s' = truth_test s /\
  (forall sid', sid' <> sid -> primary_doc s' sid' = primary_doc s sid').
Proof.
  cbn zeta. rewrite delete_session_eq, manager_load_eq, get_all_sessions_eq.
  unfold primary_doc, primary_chain.
  destruct s as [[docs|] t places fs];
    cbn [fst snd mongo truth_test with_mongo place_of files].
  - rewrite lookup_delete_eq. repeat split; try done.
    + intros [= H%bool_decide_eq_true]. destruct H as [l Hl]. exists l. by rewrite Hl.
    + intros [l [= Hl]]. f_equal. apply bool_decide_eq_true. by exists l.
    + by destruct t.
    + intros ids [= <-]. rewrite elem_of_elements, elem_of_dom, lookup_delete_eq.
      by intros [? ?].
    + intros sid' Hne. by rewrite lookup_delete_ne.
  - repeat split; try done.
    + by intros [l ?].
    + intros ids [= <-]. apply not_elem_of_nil.
Qed.

(** X18: after a session is deleted in the primary store the chain
    loaded for it is the one of its file, which the deletion leaves;
    the deletion and a clear together, in either order, leave no chain,
    and the review that follows answers with the sentinel. *)
Theorem X18_delete_then_clear (sid : string) (s : store) :
  let deleted := fst (delete_session sid s) in
  let both := fst (sequential_review sid true deleted) in
  let both' := fst (delete_session sid (fst (sequential_review sid true s))) in
  loaded deleted sid = file_chain s sid /\
  loaded both sid = [] /\
  snd (sequential_review sid false both) = Return "No thoughts recorded yet." /\
  both' = both.
Proof.
  cbn zeta.
  assert (primary_chain (fst (delete_session sid s)) sid = [] /\
          file_chain (fst (delete_session sid s)) sid = file_chain s sid) as [Hp Hf].
  { rewrite delete_session_eq. unfold primary_chain, file_chain.
    destruct (mongo s) as [docs|] eqn:E; cbn [fst mongo truth_test with_mongo place_of files];
      rewrite ?E; [|done].
    rewrite lookup_delete_eq. by destruct (truth_test s). }
  destruct (review_clear_store sid (fst (delete_session sid s))) as (_ & _ & _ & Hf' & Hp').
  assert (loaded (fst (sequential_review sid true (fst (delete_session sid s)))) sid = [])
    as Hnil by by rewrite loaded_unfold, Hp', Hp, Hf'.
  split; [by rewrite loaded_unfold, Hp|]. split; [done|]. split.
  { unfold sequential_review at 1, try_except. rewrite format_thoughts_eq. cbn [snd].
    by rewrite Hnil. }
  rewrite !review_clear_eq, !delete_session_eq.
  destruct s as [[docs|] t places fs]; cbn [fst mongo truth_test with_mongo place_of files];
    destruct (places sid); reflexivity.
Qed.

(** ** The choice of tools *)

Lemma append_if_app b name tools :
  append_if b name tools = tools ++ (if b then [name] else []).
Proof. destruct b; [done|]. by rewrite app_nil_r. Qed.

Lemma sublist_if (b : bool) (x : string) (k l : list string) :
  sublist k l -> sublist ((if b then [x] else []) ++ k) (x :: l).
Proof. intros H. destruct b; [by constructor | by apply sublist_cons]. Qed.

(** The list built by [determine_tools_needed], one piece for each test. *)
Lemma determine_tools_needed_pieces (user_input : string) :
  let u := PyStr.lower user_input in
  determine_tools_needed user_input =
  (if any_in ["weather"; "temperature"; "forecast"; "climate"; "hot"; "cold"; "rain";
              "snow"] u then ["get_weather"] else []) ++
  (if any_in ["play"; "change song"; "change the song"; "put on"; "start playing"] u
   then ["play_smart_track"]
   else if any_in ["search for songs"; "find songs"; "look for music"; "search music"] u
        then ["search_tracks"] else []) ++
  (if PyStr.contains "volume" u && any_in ["set"; "change"; "turn"; "up"; "down"] u
   then ["set_volume"] else []) ++
  (if PyStr.contains "pause" u && PyStr.contains "music" u
   then ["pause_music"] else []) ++
  (if PyStr.contains "skip" u && (PyStr.contains "song" u || PyStr.contains "track" u)
   then ["skip_track"] else []) ++
  (if PyStr.contains "current" u &&
      (PyStr.contains "song" u || PyStr.contains "track" u || PyStr.contains "playing" u)
   then ["current_track"] else []) ++
  (if any_in ["what is"; "tell me about"; "information about"; "explain"; "define";
              "wikipedia"] u then ["wikipedia_lookup"] else []) ++
  (if any_in ["search"; "google"; "look up"; "find information"] u &&
      negb (PyStr.contains "wikipedia" u) then ["web_search"] else []) ++
  (if any_in ["news"; "headlines"; "latest news"; "current events"] u
   then ["latest_news"] else []) ++
  (if any_in ["step by step"; "sequential"; "think"; "reasoning"; "process"; "analyze";
              "break down"] u then ["sequential_think"] else []) ++
  (if any_in ["generate image"; "create image"; "make image"; "draw"; "picture"] u
   then ["generate_image"] else []).
Proof.
  intros u. unfold determine_tools_needed. fold u. rewrite !append_if_app.
  destruct (any_in ["play"; _; _; _; _] u);
    [|destruct (any_in ["search for songs"; _; _; _] u)];
    rewrite <- ?app_assoc; try reflexivity.
Qed.

(** A play request and a track search exclude each other, so the
    result lies in the order of the tests without one of the two. *)
Lemma determine_tools_needed_sublist (user_input : string) :
  sublist (determine_tools_needed user_input)
    (filter (fun name => name <> "search_tracks") tool_order) \/
  sublist (determine_tools_needed user_input)
    (filter (fun name => name <> "play_smart_track") tool_order).
Proof.
  rewrite determine_tools_needed_pieces. cbv zeta.
  set (u := PyStr.lower user_input).
  destruct (any_in ["play"; _; _; _; _] u);
    [left|right; destruct (any_in ["search for songs"; _; _; _] u)];
    (apply sublist_if; first [apply sublist_skip | apply sublist_cons | idtac];
     do 8 apply sublist_if;
     match goal with |- context [if ?b then _ else _] => destruct b end;
     repeat constructor).
Qed.

(** X19: the tools chosen by [determine_tools_needed] come in the order
    of its tests, each at most once, and a request to play and a search
    for tracks are never chosen together. *)
Theorem X19_tools_in_order (user_input : string) :
  let tools := determine_tools_needed user_input in
  sublist tools tool_order /\
  NoDup tools /\
  ~ ("play_smart_track" ∈ tools /\ "search_tracks" ∈ tools).
Proof.
  intros tools. subst tools.
  destruct (determine_tools_needed_sublist user_input) as [H|H].
  - split; [|split].
    + etrans; [exact H|]. apply sublist_filter.
    + eapply sublist_NoDup; [|exact H]. apply (bool_decide_unpack _). by vm_compute.
    + intros [_ Hin]. apply (elem_of_sublist _ _ _ Hin) in H.
      revert H. apply (bool_decide_unpack _). by vm_compute.
  - split; [|split].
    + etrans; [exact H|]. apply sublist_filter.
    + eapply sublist_NoDup; [|exact H]. apply (bool_decide_unpack _). by vm_compute.
    + intros [Hin _]. apply (elem_of_sublist _ _ _ Hin) in H.
      revert H. apply (bool_decide_unpack _). by vm_compute.
Qed.

(** X20: an input that names wikipedia, in any letter case, gets the
    wikipedia lookup and never the web search. *)
Theorem X20_wikipedia_wins (user_input : string) :
  PyStr.contains "wikipedia" (PyStr.lower user_input) = true ->
  "wikipedia_lookup" ∈ determine_tools_needed user_input /\
  "web_search" ∉ determine_tools_needed user_input.
Proof.
  intros Hw. rewrite determine_tools_needed_pieces. cbv zeta.
  set (u := PyStr.lower user_input) in *.
  assert (any_in ["what is"; "tell me about"; "information about"; "explain"; "define";
                  "wikipedia"] u = true) as ->.
  { unfold any_in. cbn [existsb]. rewrite Hw. by rewrite !orb_true_r. }
  rewrite Hw, andb_false_r. split.
  - rewrite !elem_of_app. do 6 right. left. apply list_elem_of_singleton. done.
  - rewrite !elem_of_app. intros Hin.
    repeat match type of Hin with _ \/ _ => destruct Hin as [Hin|Hin] end;
      repeat match type of Hin with context [if ?b then _ else _] => destruct b end;
      first [by apply elem_of_nil in Hin
            | by apply list_elem_of_singleton in Hin].
Qed.

Lemma X20_wikipedia_wins_witness :
  PyStr.contains "wikipedia" (PyStr.lower "Search Wikipedia for Rocq") = true /\
  "wikipedia_lookup" ∈ determine_tools_needed "Search Wikipedia for Rocq" /\
  "web_search" ∉ determine_tools_needed "Search Wikipedia for Rocq".
Proof. split; [reflexivity | apply X20_wikipedia_wins; reflexivity]. Defined.

Lemma unique_tools_elem (tools : list string) (seen : gset string) (x : string) :
  x ∈ unique_tools tools seen <-> x ∈ tools /\ x ∉ seen.
Proof.
  revert seen. induction tools as [|t r IH]; intros seen; cbn [unique_tools].
  - split; [by intros ?%elem_of_nil | by intros [?%elem_of_nil _]].
  - case_bool_decide as Ht.
    + rewrite IH, elem_of_cons. split; [tauto|].
      intros [[->|?] ?]; [done|tauto].
    + rewrite !elem_of_cons, IH, elem_of_union, elem_of_singleton.
      destruct (decide (x = t)) as [->|Hne]; tauto.
Qed.

Lemma unique_tools_NoDup (tools : list string) (seen : gset string) :
  NoDup (unique_tools tools seen).
Proof.
  revert seen. induction tools as [|t r IH]; intros seen; cbn [unique_tools].
  - constructor.
  - case_bool_decide as Ht; [apply IH|]. constructor; [|apply IH].
    rewrite unique_tools_elem, elem_of_union, elem_of_singleton. tauto.
Qed.

Lemma unique_tools_sublist (tools : list string) (seen : gset string) :
  sublist (unique_tools tools seen) tools.
Proof.
  revert seen. induction tools as [|t r IH]; intros seen; cbn [unique_tools].
  - constructor.
  - case_bool_decide; [apply sublist_cons | apply sublist_skip]; apply IH.
Qed.

Lemma unique_tools_id (tools : list string) (seen : gset string) :
  NoDup tools -> (forall x, x ∈ tools -> x ∉ seen) -> unique_tools tools seen = tools.
Proof.
  intros Hnd. revert seen. induction Hnd as [|t r Hnin Hnd IH]; intros seen Hs;
    cbn [unique_tools]; [done|].
  rewrite bool_decide_eq_false_2 by (apply Hs; left).
  f_equal. apply IH. intros x Hx. rewrite elem_of_union, elem_of_singleton.
  intros [->|Hin]; [done|]. by apply (Hs x); [right|].
Qed.

Lemma unique_tools_app (tools more : list string) (seen : gset string) :
  unique_tools (tools ++ more) seen =
  unique_tools tools seen ++ unique_tools more (list_to_set tools ∪ seen).
Proof.
  revert seen. induction tools as [|t r IH]; intros seen;
    cbn [app unique_tools list_to_set].
  - by rewrite (left_id_L ∅ (∪)).
  - case_bool_decide as Ht.
    + rewrite IH. do 2 f_equal. apply set_eq. intros x.
      rewrite !elem_of_union, elem_of_singleton. split; [tauto|].
      intros [[->|?]|?]; tauto.
    + cbn [app]. rewrite IH. do 3 f_equal. apply set_eq. intros x.
      rewrite !elem_of_union, elem_of_singleton. tauto.
Qed.

(** X21: the loop of [get_relevant_tools] that removes duplicates
    returns the names of its input, each once and in the order of the
    input; what is added at the end of the input only adds at the end
    of the result, the names not met before, so a name stands where it
    first occurs.  The loop changes nothing exactly when the input has
    no duplicate. *)
Theorem X21_unique_keeps_first (tools : list string) :
  NoDup (unique_tools tools ∅) /\
  sublist (unique_tools tools ∅) tools /\
  (forall x, x ∈ unique_tools tools ∅ <-> x ∈ tools) /\
  (NoDup tools <-> unique_tools tools ∅ = tools) /\
  (forall more,
     unique_tools (tools ++ more) ∅ =
     unique_tools tools ∅ ++ unique_tools more (list_to_set tools)).
Proof.
  split; [apply unique_tools_NoDup|]. split; [apply unique_tools_sublist|].
  split; [|split].
  - intros x. rewrite unique_tools_elem. split; [tauto|]. intros ?. split; [done|].
    apply not_elem_of_empty.
  - split.
    + intros Hnd. apply unique_tools_id; [done|]. intros ? _. apply not_elem_of_empty.
    + intros <-. apply unique_tools_NoDup.
  - intros more. by rewrite unique_tools_app, (right_id_L ∅ (∪)).
Qed.

(** X22: [get_relevant_tools] offers nothing when the tools could not
    be loaded; else it offers the core tools first, then whole
    categories only, in the order music, analysis, creative,
    productivity, and no tool twice. *)
Theorem X22_whole_categories (user_input : string) :
  get_relevant_tools false user_input = [] /\
  NoDup (get_relevant_tools true user_input) /\
  exists picked,
    sublist picked ["music"; "analysis"; "creative"; "productivity"] /\
    get_relevant_tools true user_input =
      category "core" ++ concat (map category picked).
Proof.
  split; [done|]. split; [apply unique_tools_NoDup|].
  unfold get_relevant_tools. cbn [negb foldl fst snd].
  set (u := PyStr.lower user_input).
  set (music := any_in (_ ++ _) u).
  set (analysis := any_in ["think"; _; _; _; _; _] u).
  set (creative := any_in ["image"; _; _; _; _; _] u).
  set (productivity := any_in ["resume"; _; _; _; _; _] u).
  exists ((if music then ["music"] else []) ++ (if analysis then ["analysis"] else []) ++
          (if creative then ["creative"] else []) ++
          (if productivity then ["productivity"] else [])).
  destruct music, analysis, creative, productivity;
    (split; [repeat constructor | by vm_compute]).
Qed.
